(** * hqx-shader sample viewer: a shallow embedding of [sample/main.cpp]

    [main.cpp] loads one image and three HQx filter programs with their
    lookup textures, then redraws a quad every frame with the program
    selected by the digit keys.  The program talks to three collaborators
    (GLFW, OpenGL, lodepng) and to the file system; here every call to
    them is recorded in a chronological trace, their answers come from a
    [World], and the handful of OpenGL state the program depends on
    (object names, texture units, program in use) is kept in the [State].
    Where the program does something C++ leaves undefined, the run ends
    with an outcome of its own, of which nothing more is said.

    The repository also holds [sample/main.c], the earlier version of the
    program, which takes one filter from the command line and has no key
    to switch it; what is modelled and proved here is [main.cpp]. *)

From stdpp Require Import base numbers list gmap strings.

Open Scope Z_scope.

(** ** Machine integers *)

(** [uint32_t] arithmetic wraps modulo 2^32. *)
Definition to_uint32 (z : Z) : Z := z mod 2 ^ 32.

(** Passing a [uint32_t] where an [int] parameter is expected reinterprets
    the 32 bits as a two's complement number. *)
Definition to_int (z : Z) : Z :=
  let u := z mod 2 ^ 32 in if u <? 2 ^ 31 then u else u - 2 ^ 32.

Definition INT_MAX : Z := 2 ^ 31 - 1.

(** ** Constants of the collaborators' headers

    [GLFW/glfw3.h], [glad/glad.h] and [stdlib.h] are not part of the
    repository; the values below are the ones these headers define. *)

Definition EXIT_SUCCESS : Z := 0.
Definition EXIT_FAILURE : Z := 1.

Definition GLFW_TRUE : Z := 1.
Definition GLFW_RELEASE : Z := 0.
Definition GLFW_PRESS : Z := 1.
Definition GLFW_REPEAT : Z := 2.
Definition GLFW_KEY_0 : Z := 48.
Definition GLFW_KEY_1 : Z := 49.
Definition GLFW_KEY_4 : Z := 52.
Definition GLFW_KEY_ESCAPE : Z := 256.
Definition GLFW_MOD_SHIFT : Z := 1.
Definition GLFW_MOD_CONTROL : Z := 2.
Definition GLFW_MOD_ALT : Z := 4.
Definition GLFW_MOD_SUPER : Z := 8.
Definition GLFW_CONTEXT_VERSION_MAJOR : Z := 139266.
Definition GLFW_CONTEXT_VERSION_MINOR : Z := 139267.

Definition GL_FALSE : Z := 0.
Definition GL_TRUE : Z := 1.
Definition GL_TRIANGLES : Z := 4.
Definition GL_INVALID_OPERATION : Z := 1282.
Definition GL_TEXTURE_2D : Z := 3553.
Definition GL_UNSIGNED_BYTE : Z := 5121.
Definition GL_FLOAT : Z := 5126.
Definition GL_RGBA : Z := 6408.
Definition GL_NEAREST : Z := 9728.
Definition GL_TEXTURE_MAG_FILTER : Z := 10240.
Definition GL_TEXTURE_MIN_FILTER : Z := 10241.
Definition GL_COLOR_BUFFER_BIT : Z := 16384.
Definition GL_RGBA8 : Z := 32856.
Definition GL_TEXTURE_MAX_LEVEL : Z := 33085.
Definition GL_TEXTURE0 : Z := 33984.
Definition GL_TEXTURE1 : Z := 33985.
Definition GL_TEXTURE9 : Z := 33993.
Definition GL_ARRAY_BUFFER : Z := 34962.
Definition GL_STATIC_DRAW : Z := 35044.
Definition GL_FRAGMENT_SHADER : Z := 35632.
Definition GL_VERTEX_SHADER : Z := 35633.
Definition GL_COMPILE_STATUS : Z := 35713.
Definition GL_LINK_STATUS : Z := 35714.
Definition GL_INFO_LOG_LENGTH : Z := 35716.

(** ** Build configuration

    Two preprocessor switches change what the program does: [NDEBUG]
    turns [assert] into a no-op, [_WIN32] selects the path separator. *)
Record Config := {
  NDEBUG : bool;
  WIN32 : bool
}.

(** ** Values passed to the collaborators *)

(** The newline character of the C string literals. *)
Definition nl : string := String (Ascii.ascii_of_nat 10) EmptyString.

(** What a reader of a C string sees of a sequence of bytes: the bytes
    before the first NUL. *)
Fixpoint c_string (bytes : string) : string :=
  match bytes with
  | EmptyString => EmptyString
  | String c rest =>
      if Ascii.eqb c Ascii.zero then EmptyString else String c (c_string rest)
  end.

(** [(float) n] for a [uint32_t] n, kept symbolic: the model never
    computes with floating point numbers, it only records which integer
    was converted. *)
Inductive GLfloat :=
  | float_of_uint32 (n : Z).

(** A uniform location, as [glGetUniformLocation (program, name)] returns
    it.  The shaders are opaque, so the location stays symbolic. *)
Record Location := {
  loc_program : Z;
  loc_name : string
}.

(** What [lodepng::decode] answers for a file. *)
Inductive Decoded :=
  | Image (pixels : list Z) (w h : Z)
  | DecodeError (code : Z) (text : string).

(** Every call the program makes to the outside, with the arguments it
    passes.  Object names handed back by OpenGL appear as the last
    argument of the call that creates them; [glUniform*] calls carry, in
    first position, the program in use when they are made, since that is
    the program whose uniform OpenGL writes.  The constructors live in
    their own module so that the operations of the program can keep the
    names the source uses. *)
Module Ev.
Inductive Call :=
  | print_stdout (text : string)
  | print_stderr (text : string)
  | ifstream_open (filename : string)
  | lodepng_decode (filename : string)
  | glfwSetErrorCallback
  | glfwInit
  | glfwWindowHint (hint value : Z)
  | glfwCreateWindow (width height : Z) (title : string)
  | glfwTerminate
  | glfwSetKeyCallback
  | glfwMakeContextCurrent
  | gladLoadGLLoader
  | glfwSwapInterval (interval : Z)
  | glfwSetWindowSize (width height : Z)
  | glfwSetWindowShouldClose (value : Z)
  | glfwWindowShouldClose
  | glfwGetFramebufferSize
  | glfwSwapBuffers
  | glfwPollEvents
  | glfwDestroyWindow
  | glGenTextures (texture : Z)
  | glActiveTexture (texture_unit : Z)
  | glBindTexture (target texture : Z)
  | glTexImage2D (target level internalformat w h border format type : Z)
                 (pixels : list Z)
  | glTexParameteri (target pname param : Z)
  | glGenBuffers (buffer : Z)
  | glBindBuffer (target buffer : Z)
  | glBufferData (target size : Z) (data : list (list Z)) (usage : Z)
  | glCreateShader (stage shader : Z)
  | glShaderSource (shader : Z) (sources : list string)
  | glCompileShader (shader : Z)
  | glGetShaderiv (object pname : Z)
  | glGetShaderInfoLog (shader : Z)
  | glCreateProgram (program : Z)
  | glAttachShader (program shader : Z)
  | glLinkProgram (program : Z)
  | glGetProgramiv (program pname : Z)
  | glGetProgramInfoLog (program : Z)
  | glDeleteShader (shader : Z)
  | glGetUniformLocation (program : Z) (name : string)
  | glGetAttribLocation (program : Z) (name : string)
  | glEnableVertexAttribArray (location : Location)
  | glVertexAttribPointer (location : Location)
                          (size type normalized stride offset : Z)
  | glUseProgram (program : Z)
  | glUniform1i (in_use : Z) (location : Location) (v : Z)
  | glUniform2f (in_use : Z) (location : Location) (x y : GLfloat)
  | glUniformMatrix4fv (in_use : Z) (location : Location)
                       (count transpose : Z) (value : list (list Z))
  | glViewport (x y width height : Z)
  | glClear (mask : Z)
  | glDrawElements (mode count type : Z) (indices : list Z).
End Ev.

Abbreviation Call := Ev.Call.

(** ** The world the program runs in *)

(** An input event delivered by [glfwPollEvents]: a key event (the four
    integers GLFW hands to the key callback) or the user closing the
    window. *)
Inductive Event :=
  | KeyEvent (key scancode action mods : Z)
  | CloseRequest.

(** What one iteration of the render loop reads from outside. *)
Record FrameInput := {
  fb_width : Z;
  fb_height : Z;
  polled : list Event
}.

(** The answers of the collaborators.  [None] means success for the
    operations that can fail with a diagnostic. *)
Record World := {
  (** error reported by [glfwInit], through the error callback *)
  glfwInit_error : option (Z * string);
  (** error reported by [glfwCreateWindow], through the error callback *)
  glfwCreateWindow_error : option (Z * string);
  (** result of decoding the file of that name *)
  decode_file : string -> Decoded;
  (** contents of the file of that name, when it can be opened *)
  file_contents : string -> option string;
  (** the bytes that lie in memory behind the buffer into which the file
      of that name was read, when OpenGL reads the buffer as the source
      of a shader of that stage: the buffer has no terminator of its own *)
  beyond_buffer : string -> Z -> string;
  (** info log of compiling these sources for that stage, when it fails *)
  compile_log : Z -> list string -> option string;
  (** info log of linking these two shader objects, when it fails *)
  link_log : Z -> Z -> option string
}.

(** ** Program state *)

(** What OpenGL used for one [glDrawElements]: the draw log makes the
    state at the time of each draw call observable. *)
Record Draw := {
  draw_program : Z;
  draw_unit0 : Z;
  draw_unit1 : Z;
  draw_viewport : Z * Z * Z * Z;
  draw_count : Z
}.

Record State := {
  (** the three globals of [main.cpp] *)
  image_width : Z;
  image_height : Z;
  image_scale : Z;
  (** OpenGL: next unused object names (never 0), selected texture unit,
      texture bound to each unit (absent: none, like 0), program in use,
      viewport *)
  next_texture : Z;
  next_buffer : Z;
  next_object : Z;
  active_texture : Z;
  texture_binding : gmap Z Z;
  current_program : Z;
  viewport : Z * Z * Z * Z;
  (** GLFW: the close flag of the window *)
  should_close : bool;
  (** draws issued so far and calls made so far, newest first *)
  drawn_rev : list Draw;
  log : list Call
}.

(** Chronological views of the two logs. *)
Definition trace (s : State) : list Call := rev (log s).
Definition drawn (s : State) : list Draw := rev (drawn_rev s).

(** The state when [main] starts: [image_scale] is initialised to 2, the
    other two globals to 0; no texture is bound, texture unit 0 is
    selected and no program is in use. *)
Definition initial_state : State := {|
  image_width := 0;
  image_height := 0;
  image_scale := 2;
  next_texture := 1;
  next_buffer := 1;
  next_object := 1;
  active_texture := GL_TEXTURE0;
  texture_binding := ∅;
  current_program := 0;
  viewport := (0, 0, 0, 0);
  should_close := false;
  drawn_rev := [];
  log := []
|}.

(** The texture bound to a unit (0 when none is). *)
Definition bound_texture (s : State) (texture_unit : Z) : Z :=
  default 0 (texture_binding s !! texture_unit).

(** ** Field updates *)

Definition emit (c : Call) (s : State) : State :=
  {| image_width := image_width s; image_height := image_height s;
     image_scale := image_scale s; next_texture := next_texture s;
     next_buffer := next_buffer s; next_object := next_object s;
     active_texture := active_texture s;
     texture_binding := texture_binding s;
     current_program := current_program s; viewport := viewport s;
     should_close := should_close s; drawn_rev := drawn_rev s;
     log := c :: log s |}.

Definition set_image_width (v : Z) (s : State) : State :=
  {| image_width := v; image_height := image_height s;
     image_scale := image_scale s; next_texture := next_texture s;
     next_buffer := next_buffer s; next_object := next_object s;
     active_texture := active_texture s;
     texture_binding := texture_binding s;
     current_program := current_program s; viewport := viewport s;
     should_close := should_close s; drawn_rev := drawn_rev s;
     log := log s |}.

Definition set_image_height (v : Z) (s : State) : State :=
  {| image_width := image_width s; image_height := v;
     image_scale := image_scale s; next_texture := next_texture s;
     next_buffer := next_buffer s; next_object := next_object s;
     active_texture := active_texture s;
     texture_binding := texture_binding s;
     current_program := current_program s; viewport := viewport s;
     should_close := should_close s; drawn_rev := drawn_rev s;
     log := log s |}.

Definition set_image_scale (v : Z) (s : State) : State :=
  {| image_width := image_width s; image_height := image_height s;
     image_scale := v; next_texture := next_texture s;
     next_buffer := next_buffer s; next_object := next_object s;
     active_texture := active_texture s;
     texture_binding := texture_binding s;
     current_program := current_program s; viewport := viewport s;
     should_close := should_close s; drawn_rev := drawn_rev s;
     log := log s |}.

Definition set_next_texture (v : Z) (s : State) : State :=
  {| image_width := image_width s; image_height := image_height s;
     image_scale := image_scale s; next_texture := v;
     next_buffer := next_buffer s; next_object := next_object s;
     active_texture := active_texture s;
     texture_binding := texture_binding s;
     current_program := current_program s; viewport := viewport s;
     should_close := should_close s; drawn_rev := drawn_rev s;
     log := log s |}.

Definition set_next_buffer (v : Z) (s : State) : State :=
  {| image_width := image_width s; image_height := image_height s;
     image_scale := image_scale s; next_texture := next_texture s;
     next_buffer := v; next_object := next_object s;
     active_texture := active_texture s;
     texture_binding := texture_binding s;
     current_program := current_program s; viewport := viewport s;
     should_close := should_close s; drawn_rev := drawn_rev s;
     log := log s |}.

Definition set_next_object (v : Z) (s : State) : State :=
  {| image_width := image_width s; image_height := image_height s;
     image_scale := image_scale s; next_texture := next_texture s;
     next_buffer := next_buffer s; next_object := v;
     active_texture := active_texture s;
     texture_binding := texture_binding s;
     current_program := current_program s; viewport := viewport s;
     should_close := should_close s; drawn_rev := drawn_rev s;
     log := log s |}.

Definition set_active_texture (v : Z) (s : State) : State :=
  {| image_width := image_width s; image_height := image_height s;
     image_scale := image_scale s; next_texture := next_texture s;
     next_buffer := next_buffer s; next_object := next_object s;
     active_texture := v;
     texture_binding := texture_binding s;
     current_program := current_program s; viewport := viewport s;
     should_close := should_close s; drawn_rev := drawn_rev s;
     log := log s |}.

Definition set_texture_binding (v : gmap Z Z) (s : State) : State :=
  {| image_width := image_width s; image_height := image_height s;
     image_scale := image_scale s; next_texture := next_texture s;
     next_buffer := next_buffer s; next_object := next_object s;
     active_texture := active_texture s;
     texture_binding := v;
     current_program := current_program s; viewport := viewport s;
     should_close := should_close s; drawn_rev := drawn_rev s;
     log := log s |}.

Definition set_current_program (v : Z) (s : State) : State :=
  {| image_width := image_width s; image_height := image_height s;
     image_scale := image_scale s; next_texture := next_texture s;
     next_buffer := next_buffer s; next_object := next_object s;
     active_texture := active_texture s;
     texture_binding := texture_binding s;
     current_program := v; viewport := viewport s;
     should_close := should_close s; drawn_rev := drawn_rev s;
     log := log s |}.

Definition set_viewport (v : Z * Z * Z * Z) (s : State) : State :=
  {| image_width := image_width s; image_height := image_height s;
     image_scale := image_scale s; next_texture := next_texture s;
     next_buffer := next_buffer s; next_object := next_object s;
     active_texture := active_texture s;
     texture_binding := texture_binding s;
     current_program := current_program s; viewport := v;
     should_close := should_close s; drawn_rev := drawn_rev s;
     log := log s |}.

Definition set_should_close (v : bool) (s : State) : State :=
  {| image_width := image_width s; image_height := image_height s;
     image_scale := image_scale s; next_texture := next_texture s;
     next_buffer := next_buffer s; next_object := next_object s;
     active_texture := active_texture s;
     texture_binding := texture_binding s;
     current_program := current_program s; viewport := viewport s;
     should_close := v; drawn_rev := drawn_rev s;
     log := log s |}.

Definition add_draw (d : Draw) (s : State) : State :=
  {| image_width := image_width s; image_height := image_height s;
     image_scale := image_scale s; next_texture := next_texture s;
     next_buffer := next_buffer s; next_object := next_object s;
     active_texture := active_texture s;
     texture_binding := texture_binding s;
     current_program := current_program s; viewport := viewport s;
     should_close := should_close s; drawn_rev := d :: drawn_rev s;
     log := log s |}.

(** ** The monad of the program: state, and an early end of the process *)

(** How a process can end: [exit (code)], [abort ()] from a failed
    [assert], or an access outside a [std::vector] (undefined behaviour
    in C++, made an explicit outcome here).  [Undefined] is the outcome
    of the other things the program does that C++ leaves undefined: the
    use of a variable that was never written, a null pointer handed to
    OpenGL.  What the process does from there on is not known, and
    nothing is stated about it. *)
Inductive Status :=
  | Exited (code : Z)
  | Aborted
  | OutOfRange
  | Undefined.

Inductive Res (A : Type) :=
  | Ret (a : A) (s : State)
  | Stop (st : Status) (s : State).
Arguments Ret {A} a s.
Arguments Stop {A} st s.

Definition M (A : Type) : Type := State -> Res A.

Definition ret {A} (a : A) : M A := fun s => Ret a s.

Definition bind {A B} (m : M A) (k : A -> M B) : M B :=
  fun s => match m s with
           | Ret a s' => k a s'
           | Stop st s' => Stop st s'
           end.

Declare Scope prog_scope.
Delimit Scope prog_scope with prog.
Notation "x ← y ; z" := (bind y (λ x : _, z))
  (at level 20, y at level 100, z at level 200, only parsing) : prog_scope.
Notation "' x ← y ; z" := (bind y (λ x : _, z))
  (at level 20, x pattern, y at level 100, z at level 200, only parsing)
  : prog_scope.
Notation "x ;; z" := (bind x (λ _, z))
  (at level 100, z at level 200, only parsing, right associativity)
  : prog_scope.
Open Scope prog_scope.

Definition get {A} (f : State -> A) : M A := fun s => Ret (f s) s.
Definition modify (f : State -> State) : M unit := fun s => Ret tt (f s).
Definition call (c : Call) : M unit := modify (emit c).
Definition exit {A} (code : Z) : M A := fun s => Stop (Exited code) s.
Definition abort {A} : M A := fun s => Stop Aborted s.
Definition undefined {A} : M A := fun s => Stop Undefined s.

(** The state a computation ends in, whichever way it ends. *)
Definition final {A} (r : Res A) : State :=
  match r with Ret _ s => s | Stop _ s => s end.

(** [v[i]] on a [std::vector]. *)
Definition at_index (v : list Z) (i : Z) : M Z :=
  match v !! Z.to_nat i with
  | Some x => ret x
  | None => fun s => Stop OutOfRange s
  end.

(** ** The collaborators' operations

    Each operation records its call and, where the program depends on it,
    updates the modelled part of the collaborator's state. *)

Definition printf (text : string) : M unit := call (Ev.print_stdout text).
Definition cout (text : string) : M unit := call (Ev.print_stdout text).
Definition cerr (text : string) : M unit := call (Ev.print_stderr text).

(** [assert (false)]: nothing under [NDEBUG], [abort ()] otherwise. *)
Definition assert_false (cfg : Config) : M unit :=
  if NDEBUG cfg then ret tt else abort.

Definition glfwSetErrorCallback : M unit := call Ev.glfwSetErrorCallback.
Definition glfwWindowHint (hint value : Z) : M unit :=
  call (Ev.glfwWindowHint hint value).
Definition glfwTerminate : M unit := call Ev.glfwTerminate.
Definition glfwSetKeyCallback : M unit := call Ev.glfwSetKeyCallback.
Definition glfwMakeContextCurrent : M unit := call Ev.glfwMakeContextCurrent.
Definition gladLoadGLLoader : M unit := call Ev.gladLoadGLLoader.
Definition glfwSwapInterval (interval : Z) : M unit :=
  call (Ev.glfwSwapInterval interval).
Definition glfwSetWindowSize (width height : Z) : M unit :=
  call (Ev.glfwSetWindowSize width height).
Definition glfwSetWindowShouldClose (value : Z) : M unit :=
  call (Ev.glfwSetWindowShouldClose value);;
  modify (set_should_close (negb (value =? 0))).
Definition glfwWindowShouldClose : M bool :=
  call Ev.glfwWindowShouldClose;; get should_close.
Definition glfwGetFramebufferSize (fi : FrameInput) : M (Z * Z) :=
  call Ev.glfwGetFramebufferSize;; ret (fb_width fi, fb_height fi).
Definition glfwSwapBuffers : M unit := call Ev.glfwSwapBuffers.
Definition glfwDestroyWindow : M unit := call Ev.glfwDestroyWindow.

(** OpenGL hands out object names that are unused and not 0. *)
Definition glGenTextures : M Z :=
  texture ← get next_texture;
  modify (set_next_texture (texture + 1));;
  call (Ev.glGenTextures texture);;
  ret texture.
Definition glGenBuffers : M Z :=
  buffer ← get next_buffer;
  modify (set_next_buffer (buffer + 1));;
  call (Ev.glGenBuffers buffer);;
  ret buffer.
Definition glCreateShader (stage : Z) : M Z :=
  shader ← get next_object;
  modify (set_next_object (shader + 1));;
  call (Ev.glCreateShader stage shader);;
  ret shader.
Definition glCreateProgram : M Z :=
  program ← get next_object;
  modify (set_next_object (program + 1));;
  call (Ev.glCreateProgram program);;
  ret program.

Definition glActiveTexture (texture_unit : Z) : M unit :=
  call (Ev.glActiveTexture texture_unit);;
  modify (set_active_texture texture_unit).
(** Binds to the selected texture unit; only the 2D target is modelled. *)
Definition glBindTexture (target texture : Z) : M unit :=
  call (Ev.glBindTexture target texture);;
  if target =? GL_TEXTURE_2D then
    modify (fun s =>
      set_texture_binding (<[active_texture s := texture]> (texture_binding s)) s)
  else ret tt.
Definition glTexImage2D (target level internalformat w h border format type : Z)
    (pixels : list Z) : M unit :=
  call (Ev.glTexImage2D target level internalformat w h border format type pixels).
Definition glTexParameteri (target pname param : Z) : M unit :=
  call (Ev.glTexParameteri target pname param).
Definition glBindBuffer (target buffer : Z) : M unit :=
  call (Ev.glBindBuffer target buffer).
Definition glBufferData (target size : Z) (data : list (list Z)) (usage : Z)
    : M unit :=
  call (Ev.glBufferData target size data usage).

Definition glShaderSource (shader : Z) (sources : list string) : M unit :=
  call (Ev.glShaderSource shader sources).
Definition glCompileShader (shader : Z) : M unit :=
  call (Ev.glCompileShader shader).
Definition glAttachShader (program shader : Z) : M unit :=
  call (Ev.glAttachShader program shader).
Definition glLinkProgram (program : Z) : M unit :=
  call (Ev.glLinkProgram program).
Definition glDeleteShader (shader : Z) : M unit :=
  call (Ev.glDeleteShader shader).
Definition glGetShaderInfoLog (shader : Z) (info_log : string) : M string :=
  call (Ev.glGetShaderInfoLog shader);; ret info_log.
Definition glGetProgramInfoLog (program : Z) (info_log : string) : M string :=
  call (Ev.glGetProgramInfoLog program);; ret info_log.
(** The status queries answer from the world; the model hands them the
    world's answer for the object instead of storing it per object. *)
Definition glGetShaderiv (object pname : Z) (answer : Z) : M Z :=
  call (Ev.glGetShaderiv object pname);; ret answer.
Definition glGetProgramiv (program pname : Z) (answer : Z) : M Z :=
  call (Ev.glGetProgramiv program pname);; ret answer.
(** [glGetShaderiv] on a name that is not the name of a shader: OpenGL
    raises [GL_INVALID_OPERATION] and writes nothing to [*params]. *)
Definition glGetShaderiv_rejected (object pname : Z) : M unit :=
  call (Ev.glGetShaderiv object pname).

Definition glGetUniformLocation (program : Z) (name : string) : M Location :=
  call (Ev.glGetUniformLocation program name);;
  ret {| loc_program := program; loc_name := name |}.
Definition glGetAttribLocation (program : Z) (name : string) : M Location :=
  call (Ev.glGetAttribLocation program name);;
  ret {| loc_program := program; loc_name := name |}.
Definition glEnableVertexAttribArray (location : Location) : M unit :=
  call (Ev.glEnableVertexAttribArray location).
Definition glVertexAttribPointer (location : Location)
    (size type normalized stride offset : Z) : M unit :=
  call (Ev.glVertexAttribPointer location size type normalized stride offset).
Definition glUseProgram (program : Z) : M unit :=
  call (Ev.glUseProgram program);; modify (set_current_program program).
Definition glUniform1i (location : Location) (v : Z) : M unit :=
  in_use ← get current_program;
  call (Ev.glUniform1i in_use location v).
Definition glUniform2f (location : Location) (x y : GLfloat) : M unit :=
  in_use ← get current_program;
  call (Ev.glUniform2f in_use location x y).
Definition glUniformMatrix4fv (location : Location) (count transpose : Z)
    (value : list (list Z)) : M unit :=
  in_use ← get current_program;
  call (Ev.glUniformMatrix4fv in_use location count transpose value).
Definition glViewport (x y width height : Z) : M unit :=
  call (Ev.glViewport x y width height);;
  modify (set_viewport (x, y, width, height)).
Definition glClear (mask : Z) : M unit := call (Ev.glClear mask).
(** A draw uses the program in use, the textures bound to the units and
    the viewport of that moment. *)
Definition glDrawElements (mode count type : Z) (indices : list Z) : M unit :=
  call (Ev.glDrawElements mode count type indices);;
  modify (fun s =>
    add_draw {| draw_program := current_program s;
                draw_unit0 := bound_texture s GL_TEXTURE0;
                draw_unit1 := bound_texture s GL_TEXTURE1;
                draw_viewport := viewport s;
                draw_count := count |} s).

(** ** The program: [sample/main.cpp] *)

(** *** Static data *)

(** The path separator [_]. *)
Definition sep (cfg : Config) : string := if WIN32 cfg then "\" else "/".

(** The quad: x y z w u v s t for each corner (all components are the
    floats -1, 0 or 1), 32 bytes a vertex. *)
Definition vertices : list (list Z) :=
  [ [-1; -1; 0; 1; 0; 1; 0; 0];
    [-1;  1; 0; 1; 0; 0; 0; 0];
    [ 1;  1; 0; 1; 1; 0; 0; 0];
    [ 1; -1; 0; 1; 1; 1; 0; 0] ].
Definition sizeof_vertex : Z := 32.
Definition sizeof_float : Z := 4.
Definition sizeof_vertices : Z := 128.

Definition vertex_shader_text : string :=
  "attribute vec4 VertexCoord;" +:+ nl +:+
  "attribute vec4 TexCoord;" +:+ nl +:+
  "varying vec2 tex;" +:+ nl +:+
  "void main()" +:+ nl +:+
  "{" +:+ nl +:+
  "    gl_Position = VertexCoord;" +:+ nl +:+
  "    tex = TexCoord.xy;" +:+ nl +:+
  "}" +:+ nl.

Definition fragment_shader_text : string :=
  "uniform sampler2D Texture;" +:+ nl +:+
  "varying vec2 tex;" +:+ nl +:+
  "void main()" +:+ nl +:+
  "{" +:+ nl +:+
  "    gl_FragColor = texture2D(Texture, tex);" +:+ nl +:+
  "}" +:+ nl.

Definition shader_files (cfg : Config) : list string :=
  [ sep cfg +:+ "glsl" +:+ sep cfg +:+ "hq2x.glsl";
    sep cfg +:+ "glsl" +:+ sep cfg +:+ "hq3x.glsl";
    sep cfg +:+ "glsl" +:+ sep cfg +:+ "hq4x.glsl" ].

Definition lut_files (cfg : Config) : list string :=
  [ sep cfg +:+ "resources" +:+ sep cfg +:+ "hq2x.png";
    sep cfg +:+ "resources" +:+ sep cfg +:+ "hq3x.png";
    sep cfg +:+ "resources" +:+ sep cfg +:+ "hq4x.png" ].

Definition indices : list Z := [0; 1; 2; 0; 2; 3].

Definition mat4x4_identity : list (list Z) :=
  [ [1; 0; 0; 0]; [0; 1; 0; 0]; [0; 0; 1; 0]; [0; 0; 0; 1] ].

(** The globals a [uint32_t*] parameter of [load_texture] can point to;
    [None] stands for [nullptr]. *)
Inductive Global :=
  | ref_image_width
  | ref_image_height.

Definition store (p : option Global) (v : Z) : M unit :=
  match p with
  | Some ref_image_width => modify (set_image_width v)
  | Some ref_image_height => modify (set_image_height v)
  | None => ret tt
  end.

(** The locals of [main] that are live in the render loop. *)
Record Locals := {
  texture : Z;
  vertex_buffer : Z;
  programs : list Z;
  lut_textures : list Z
}.

Section Program.

Variable cfg : Config.
Variable world : World.

(** *** [error_callback] *)
Definition error_callback (error : Z) (description : string) : M unit :=
  cerr ("Error: " +:+ description +:+ nl);;
  assert_false cfg.

(** GLFW reports its own failures through the error callback that [main]
    installs before it calls [glfwInit]. *)
Definition glfwInit : M bool :=
  call Ev.glfwInit;;
  match glfwInit_error world with
  | None => ret true
  | Some (code, description) => error_callback code description;; ret false
  end.

Definition glfwCreateWindow (width height : Z) (title : string) : M bool :=
  call (Ev.glfwCreateWindow width height title);;
  match glfwCreateWindow_error world with
  | None => ret true
  | Some (code, description) => error_callback code description;; ret false
  end.

(** *** [key_callback] *)
Definition key_callback (key scancode action mods : Z) : M unit :=
  (if (key =? GLFW_KEY_ESCAPE) && (action =? GLFW_PRESS)
   then glfwSetWindowShouldClose GLFW_TRUE
   else ret tt);;
  if (GLFW_KEY_1 <=? key) && (key <=? GLFW_KEY_4) && (action =? GLFW_PRESS)
  then
    modify (set_image_scale (to_uint32 (key - GLFW_KEY_0)));;
    if negb (mods =? GLFW_MOD_SHIFT)
    then
      width ← get image_width;
      height ← get image_height;
      scale ← get image_scale;
      glfwSetWindowSize (to_int (to_uint32 (width * scale)))
                        (to_int (to_uint32 (height * scale)))
    else ret tt
  else ret tt.

(** [glfwPollEvents] runs the key callback for every pending key event
    and raises the close flag when the user closes the window. *)
Fixpoint dispatch (events : list Event) : M unit :=
  match events with
  | [] => ret tt
  | KeyEvent key scancode action mods :: rest =>
      key_callback key scancode action mods;; dispatch rest
  | CloseRequest :: rest =>
      modify (set_should_close true);; dispatch rest
  end.

Definition glfwPollEvents (fi : FrameInput) : M unit :=
  call Ev.glfwPollEvents;; dispatch (polled fi).

(** *** [read_file]

    The buffer, a [std::vector<char>], holds the bytes of the file and
    nothing after them: no terminator is added. *)
Definition read_file (filename : string) : M string :=
  call (Ev.ifstream_open filename);;
  match file_contents world filename with
  | None => cout ("Failed to open " +:+ filename +:+ nl);; exit EXIT_FAILURE
  | Some buffer => ret buffer
  end.

(** [shader.data ()] as [main] hands it to [compile_shader], which
    passes it to [glShaderSource] with no length: OpenGL reads a C
    string there.  It sees the bytes of the buffer and goes on into
    whatever lies behind it, up to the first NUL.  The vector of an
    empty file holds nothing, and its [data ()] is a null pointer. *)
Definition shader_text (path : string) (stage : Z) (buffer : string)
    : string :=
  c_string (buffer ++ beyond_buffer world path stage).

Definition shader_data (path : string) (stage : Z) (buffer : string)
    : M string :=
  if String.eqb buffer "" then undefined
  else ret (shader_text path stage buffer).

(** *** [load_texture]

    [w] and [h] are [uint32_t]; [glTexImage2D] takes them as [GLsizei],
    which is [int]. *)
Definition load_texture (width height : option Global) (filename : string)
    : M Z :=
  call (Ev.lodepng_decode filename);;
  match decode_file world filename with
  | DecodeError error text =>
      error_callback error text;;
      exit EXIT_FAILURE
  | Image image w h =>
      texture ← glGenTextures;
      glActiveTexture GL_TEXTURE9;;
      glBindTexture GL_TEXTURE_2D texture;;
      glTexImage2D GL_TEXTURE_2D 0 GL_RGBA8 (to_int w) (to_int h) 0
        GL_RGBA GL_UNSIGNED_BYTE image;;
      glTexParameteri GL_TEXTURE_2D GL_TEXTURE_MAG_FILTER GL_NEAREST;;
      glTexParameteri GL_TEXTURE_2D GL_TEXTURE_MIN_FILTER GL_NEAREST;;
      glTexParameteri GL_TEXTURE_2D GL_TEXTURE_MAX_LEVEL 0;;
      store width w;;
      store height h;;
      ret texture
  end.

(** *** [compile_shader] *)
Definition stage_prefix (stage : Z) : string :=
  let sources0 := "#version 130" +:+ nl in
  let sources0 :=
    if stage =? GL_VERTEX_SHADER
    then "#version 130" +:+ nl +:+ "#define VERTEX" +:+ nl
    else sources0 in
  let sources0 :=
    if stage =? GL_FRAGMENT_SHADER
    then "#version 130" +:+ nl +:+ "#define FRAGMENT" +:+ nl
    else sources0 in
  sources0.

(** The status OpenGL reports for a compile or link with that log. *)
Definition status_of (info_log : option string) : Z :=
  match info_log with
  | Some _ => GL_FALSE
  | None => GL_TRUE
  end.

Definition compile_shader (stage : Z) (source : string) : M Z :=
  let sources := [stage_prefix stage; source] in
  shader ← glCreateShader stage;
  glShaderSource shader sources;;
  glCompileShader shader;;
  compiled ← glGetShaderiv shader GL_COMPILE_STATUS
               (status_of (compile_log world stage sources));
  (if compiled =? GL_FALSE
   then
     length ← glGetShaderiv shader GL_INFO_LOG_LENGTH
                (Z.of_nat (String.length
                             (default "" (compile_log world stage sources))) + 1);
     error_log ← glGetShaderInfoLog shader
                   (default "" (compile_log world stage sources));
     error_callback GL_INVALID_OPERATION error_log
   else ret tt);;
  ret shader.

(** *** [link_program]

    On a link failure the length of the log is asked for with
    [glGetShaderiv] on the name of the program, which OpenGL rejects:
    [length], a local that has no initial value, is not written.  The
    next statement, [new char[length]], uses it, and from there the
    behaviour is undefined.  Were [length] a value, the buffer would
    take the log cut to [length - 1] characters. *)
Definition link_program (vertex_shader fragment_shader : Z) : M Z :=
  program ← glCreateProgram;
  glAttachShader program vertex_shader;;
  glAttachShader program fragment_shader;;
  glLinkProgram program;;
  compiled ← glGetProgramiv program GL_LINK_STATUS
               (status_of (link_log world vertex_shader fragment_shader));
  (if compiled =? GL_FALSE
   then
     glGetShaderiv_rejected program GL_INFO_LOG_LENGTH;;
     length ← undefined;
     error_log ← glGetProgramInfoLog program
                   (String.substring 0 (Z.to_nat (length - 1))
                      (default ""
                         (link_log world vertex_shader fragment_shader)));
     error_callback GL_INVALID_OPERATION error_log
   else ret tt);;
  glDeleteShader vertex_shader;;
  glDeleteShader fragment_shader;;
  ret program.

(** *** [main] *)

(** [argv[i]]; reading past [argc] yields the null pointer, printed as
    the C library prints it. *)
Definition arg (argv : list string) (i : nat) : string :=
  default "(null)" (argv !! i).

(** One iteration of the loop that builds the filters, lines 262-287. *)
Definition build_filter (base_path : string) (mvp : list (list Z)) (i : nat)
    (vectors : list Z * list Z) : M (list Z * list Z) :=
  let shader_path := base_path +:+ default "" (shader_files cfg !! i) in
  shader ← read_file shader_path;
  source ← shader_data shader_path GL_VERTEX_SHADER shader;
  vertex_shader ← compile_shader GL_VERTEX_SHADER source;
  source ← shader_data shader_path GL_FRAGMENT_SHADER shader;
  fragment_shader ← compile_shader GL_FRAGMENT_SHADER source;
  program ← link_program vertex_shader fragment_shader;
  mvp_location ← glGetUniformLocation program "MVPMatrix";
  samp_location ← glGetUniformLocation program "Texture";
  lut_location ← glGetUniformLocation program "LUT";
  tsize_location ← glGetUniformLocation program "TextureSize";
  glUseProgram program;;
  glUniformMatrix4fv mvp_location 1 GL_FALSE mvp;;
  glUniform1i samp_location 0;;
  glUniform1i lut_location 1;;
  width ← get image_width;
  height ← get image_height;
  glUniform2f tsize_location (float_of_uint32 width) (float_of_uint32 height);;
  let lut_path := base_path +:+ default "" (lut_files cfg !! i) in
  lut ← load_texture None None lut_path;
  ret (vectors.1 ++ [program], vectors.2 ++ [lut]).

(** [for (int i = 0; i < 3; i++)], as a loop over the values of [i]. *)
Fixpoint for_each (body : nat -> list Z * list Z -> M (list Z * list Z))
    (values : list nat) (vectors : list Z * list Z) : M (list Z * list Z) :=
  match values with
  | [] => ret vectors
  | i :: rest => vectors' ← body i vectors; for_each body rest vectors'
  end.

(** Lines 213-290 of [main]: from the installation of the error callback
    to the first resize of the window, with the two paths that lines
    206-211 computed. *)
Definition startup (base_path image_path : string) : M Locals :=
  glfwSetErrorCallback;;
  initialised ← glfwInit;
  (if negb initialised then exit EXIT_FAILURE else ret tt);;
  glfwWindowHint GLFW_CONTEXT_VERSION_MAJOR 2;;
  glfwWindowHint GLFW_CONTEXT_VERSION_MINOR 0;;
  window ← glfwCreateWindow 640 480 "HQx Sample";
  (if negb window then glfwTerminate;; exit EXIT_FAILURE else ret tt);;
  glfwSetKeyCallback;;
  glfwMakeContextCurrent;;
  gladLoadGLLoader;;
  glfwSwapInterval 1;;
  texture ← load_texture (Some ref_image_width) (Some ref_image_height)
              image_path;
  glActiveTexture GL_TEXTURE0;;
  glBindTexture GL_TEXTURE_2D texture;;
  vertex_buffer ← glGenBuffers;
  glBindBuffer GL_ARRAY_BUFFER vertex_buffer;;
  glBufferData GL_ARRAY_BUFFER sizeof_vertices vertices GL_STATIC_DRAW;;
  let programs := [] ++ [0] in
  let lut_textures := [] ++ [0] in
  vertex_shader ← compile_shader GL_VERTEX_SHADER vertex_shader_text;
  fragment_shader ← compile_shader GL_FRAGMENT_SHADER fragment_shader_text;
  program ← link_program vertex_shader fragment_shader;
  let programs := programs ++ [program] in
  let lut_textures := lut_textures ++ [0] in
  programs_1 ← at_index programs 1;
  location ← glGetUniformLocation programs_1 "Texture";
  glUniform1i location 0;;
  programs_1 ← at_index programs 1;
  vpos_location ← glGetAttribLocation programs_1 "VertexCoord";
  programs_1 ← at_index programs 1;
  vtex_location ← glGetAttribLocation programs_1 "TexCoord";
  glEnableVertexAttribArray vpos_location;;
  glVertexAttribPointer vpos_location 4 GL_FLOAT GL_FALSE sizeof_vertex 0;;
  glEnableVertexAttribArray vtex_location;;
  glVertexAttribPointer vtex_location 4 GL_FLOAT GL_FALSE sizeof_vertex
    (sizeof_float * 4);;
  let mvp := mat4x4_identity in
  '(programs, lut_textures) ←
    for_each (build_filter base_path mvp) [0; 1; 2]%nat (programs, lut_textures);
  width ← get image_width;
  height ← get image_height;
  scale ← get image_scale;
  glfwSetWindowSize (to_int (to_uint32 (width * scale)))
                    (to_int (to_uint32 (height * scale)));;
  ret {| texture := texture; vertex_buffer := vertex_buffer;
         programs := programs; lut_textures := lut_textures |}.

(** Lines 206-211: the image to display. *)
Definition image_path (argv : list string) : string :=
  let argc := Z.of_nat (length argv) in
  let base_path := arg argv 1 in
  if 2 <? argc
  then arg argv 2
  else base_path +:+ sep cfg +:+ "sample" +:+ sep cfg +:+ "pixelart0.png".

(** Lines 200-290: everything [main] does before the render loop. *)
Definition setup (argv : list string) : M Locals :=
  let argc := Z.of_nat (length argv) in
  (if argc <? 2
   then
     printf ("usage " +:+ arg argv 0 +:+ ": <hqx-shader folder> [image file]"
             +:+ nl);;
     exit EXIT_FAILURE
   else ret tt);;
  let base_path := arg argv 1 in
  startup base_path (image_path argv).

(** The body of the render loop up to the buffer swap, lines 293-305. *)
Definition draw_frame (L : Locals) (fi : FrameInput) : M unit :=
  '(width, height) ← glfwGetFramebufferSize fi;
  glViewport 0 0 width height;;
  glClear GL_COLOR_BUFFER_BIT;;
  scale ← get image_scale;
  program ← at_index (programs L) scale;
  glUseProgram program;;
  glActiveTexture GL_TEXTURE1;;
  scale ← get image_scale;
  lut ← at_index (lut_textures L) scale;
  glBindTexture GL_TEXTURE_2D lut;;
  glDrawElements GL_TRIANGLES 6 GL_UNSIGNED_BYTE indices;;
  glfwSwapBuffers.

(** The render loop, lines 291-307, run on the inputs of finitely many
    frames.  It answers [true] when the loop has ended because the close
    flag is up, and [false] when the inputs are used up with the loop
    still running. *)
Fixpoint render_loop (L : Locals) (frames : list FrameInput) : M bool :=
  closing ← glfwWindowShouldClose;
  if closing then ret true
  else
    match frames with
    | [] => ret false
    | fi :: rest =>
        draw_frame L fi;;
        glfwPollEvents fi;;
        render_loop L rest
    end.

Definition main (argv : list string) (frames : list FrameInput) : M unit :=
  L ← setup argv;
  ended ← render_loop L frames;
  if ended
  then
    glfwDestroyWindow;;
    glfwTerminate;;
    exit EXIT_SUCCESS
  else ret tt.

End Program.


(** ** Vocabulary for the statements *)

(** *** Logs *)

(** Calls made only to report a failed compile or link. *)
Definition diagnostic (c : Call) : bool :=
  match c with
  | Ev.print_stderr _ | Ev.glGetShaderiv _ _ | Ev.glGetShaderInfoLog _
  | Ev.glGetProgramInfoLog _ => true
  | _ => false
  end.

(** Writes to a uniform made while program [p] is in use. *)
Definition uniform_write_in (p : Z) (c : Call) : bool :=
  match c with
  | Ev.glUniform1i q _ _ | Ev.glUniform2f q _ _ _
  | Ev.glUniformMatrix4fv q _ _ _ _ => q =? p
  | _ => false
  end.

(** Requests to resize the window. *)
Definition is_resize (c : Call) : bool :=
  match c with
  | Ev.glfwSetWindowSize _ _ => true
  | _ => false
  end.

(** The files handed to the decoder, in the order of the list. *)
Definition decodes (l : list Call) : list string :=
  omap (λ c, match c with Ev.lodepng_decode f => Some f | _ => None end) l.

(** The lines written to the error stream, in the order of the list. *)
Definition stderr_lines (l : list Call) : list string :=
  omap (λ c, match c with Ev.print_stderr t => Some t | _ => None end) l.

(** [chunk] (newest first) put in front of a log. *)
Definition cat_log (chunk l : list Call) : list Call := chunk ++ l.

Definition add_log (chunk : list Call) (s : State) : State :=
  {| image_width := image_width s; image_height := image_height s;
     image_scale := image_scale s; next_texture := next_texture s;
     next_buffer := next_buffer s; next_object := next_object s;
     active_texture := active_texture s;
     texture_binding := texture_binding s;
     current_program := current_program s; viewport := viewport s;
     should_close := should_close s; drawn_rev := drawn_rev s;
     log := cat_log chunk (log s) |}.

(** The calls of a compile, newest first, and those that report its
    failure. *)
Definition compile_calls (stage shader : Z) (source : string) : list Call :=
  [ Ev.glGetShaderiv shader GL_COMPILE_STATUS;
    Ev.glCompileShader shader;
    Ev.glShaderSource shader [stage_prefix stage; source];
    Ev.glCreateShader stage shader ].

Definition compile_diagnostic (shader : Z) (info_log : string) : list Call :=
  [ Ev.print_stderr ("Error: " +:+ info_log +:+ nl);
    Ev.glGetShaderInfoLog shader;
    Ev.glGetShaderiv shader GL_INFO_LOG_LENGTH ].

(** The same for a link. *)
Definition link_calls (program vertex_shader fragment_shader : Z) : list Call :=
  [ Ev.glGetProgramiv program GL_LINK_STATUS;
    Ev.glLinkProgram program;
    Ev.glAttachShader program fragment_shader;
    Ev.glAttachShader program vertex_shader;
    Ev.glCreateProgram program ].

(** The call that follows a failed link. *)
Definition link_diagnostic (program : Z) : list Call :=
  [ Ev.glGetShaderiv program GL_INFO_LOG_LENGTH ].

(** The calls of [main] up to the decoding of the image, newest first. *)
Definition startup_log (image_path : string) : list Call :=
  [ Ev.lodepng_decode image_path;
    Ev.glfwSwapInterval 1;
    Ev.gladLoadGLLoader;
    Ev.glfwMakeContextCurrent;
    Ev.glfwSetKeyCallback;
    Ev.glfwCreateWindow 640 480 "HQx Sample";
    Ev.glfwWindowHint GLFW_CONTEXT_VERSION_MINOR 0;
    Ev.glfwWindowHint GLFW_CONTEXT_VERSION_MAJOR 2;
    Ev.glfwInit;
    Ev.glfwSetErrorCallback ].

(** How the process ends after [error_callback (...); exit (EXIT_FAILURE)]:
    the assertion of the callback aborts it first, unless assertions are
    compiled out. *)
Definition crash (cfg : Config) : Status :=
  if NDEBUG cfg then Exited EXIT_FAILURE else Aborted.

(** The compiles of a run that gets through its first [n] shader files:
    the two fixed texts of the pass-through program, and for each of
    these files what OpenGL reads at its buffer, once for each stage. *)
Inductive compiled_in_run (cfg : Config) (w : World) (base : string)
    (n : nat) : Z → string → Prop :=
  | compiles_vertex :
      compiled_in_run cfg w base n GL_VERTEX_SHADER vertex_shader_text
  | compiles_fragment :
      compiled_in_run cfg w base n GL_FRAGMENT_SHADER fragment_shader_text
  | compiles_file (i : nat) stage buffer :
      (i < n)%nat →
      stage = GL_VERTEX_SHADER ∨ stage = GL_FRAGMENT_SHADER →
      file_contents w (base +:+ default "" (shader_files cfg !! i))
      = Some buffer →
      compiled_in_run cfg w base n stage
        (shader_text w (base +:+ default "" (shader_files cfg !! i))
           stage buffer).

(** The links of such a run, by the names of the two shaders: that of
    the pass-through program and those of the first [n] filters. *)
Definition linked_in_run (n : nat) : list (Z * Z) :=
  take (S n) [(1, 2); (4, 5); (7, 8); (10, 11)].

(** The uniform writes of one filter program, newest first. *)
Definition filter_uniforms (program width height : Z) : list Call :=
  [ Ev.glUniform2f program
      {| loc_program := program; loc_name := "TextureSize" |}
      (float_of_uint32 width) (float_of_uint32 height);
    Ev.glUniform1i program {| loc_program := program; loc_name := "LUT" |} 1;
    Ev.glUniform1i program
      {| loc_program := program; loc_name := "Texture" |} 0;
    Ev.glUniformMatrix4fv program
      {| loc_program := program; loc_name := "MVPMatrix" |}
      1 GL_FALSE mat4x4_identity ].

(** What the log [l] of a completed startup says about the filter built
    from the [i]-th shader file and lookup image: its two shaders are
    compiled from what OpenGL reads at the buffer that holds the shader
    file, which is not empty, the program is linked from these two, its
    uniforms are written once each, and the lookup texture is created
    for the decoded lookup image, with its size passed as [int]. *)
Record filter_built (cfg : Config) (w : World) (base : string) (i : nat)
    (vertex_shader fragment_shader program lut width height : Z)
    (l : list Call) : Prop := {
  built_source : ∃ buffer,
    file_contents w (base +:+ default "" (shader_files cfg !! i)) = Some buffer
    ∧ buffer ≠ ""
    ∧ In (Ev.glShaderSource vertex_shader
            [stage_prefix GL_VERTEX_SHADER;
             shader_text w (base +:+ default "" (shader_files cfg !! i))
               GL_VERTEX_SHADER buffer]) l
    ∧ In (Ev.glShaderSource fragment_shader
            [stage_prefix GL_FRAGMENT_SHADER;
             shader_text w (base +:+ default "" (shader_files cfg !! i))
               GL_FRAGMENT_SHADER buffer]) l;
  built_link :
    In (Ev.glAttachShader program vertex_shader) l
    ∧ In (Ev.glAttachShader program fragment_shader) l
    ∧ In (Ev.glLinkProgram program) l;
  built_uniforms :
    List.filter (uniform_write_in program) l
    = filter_uniforms program width height;
  built_lut : ∃ pixels lut_width lut_height,
    decode_file w (base +:+ default "" (lut_files cfg !! i))
    = Image pixels lut_width lut_height
    ∧ In (Ev.glGenTextures lut) l
    ∧ In (Ev.glTexImage2D GL_TEXTURE_2D 0 GL_RGBA8
            (to_int lut_width) (to_int lut_height) 0
            GL_RGBA GL_UNSIGNED_BYTE pixels) l
}.

(** The same in terms of a chronological trace [t], for the slot alone:
    its program is linked from two shaders compiled from what OpenGL
    reads at the buffer of the [i]-th shader file, and its lookup
    texture is created for the [i]-th lookup image. *)
Record slot_built (cfg : Config) (w : World) (base : string) (i : nat)
    (program lut : Z) (t : list Call) : Prop := {
  slot_program : ∃ buffer vertex_shader fragment_shader,
    file_contents w (base +:+ default "" (shader_files cfg !! i)) = Some buffer
    ∧ buffer ≠ ""
    ∧ In (Ev.glShaderSource vertex_shader
            [stage_prefix GL_VERTEX_SHADER;
             shader_text w (base +:+ default "" (shader_files cfg !! i))
               GL_VERTEX_SHADER buffer]) t
    ∧ In (Ev.glShaderSource fragment_shader
            [stage_prefix GL_FRAGMENT_SHADER;
             shader_text w (base +:+ default "" (shader_files cfg !! i))
               GL_FRAGMENT_SHADER buffer]) t
    ∧ In (Ev.glAttachShader program vertex_shader) t
    ∧ In (Ev.glAttachShader program fragment_shader) t
    ∧ In (Ev.glLinkProgram program) t;
  slot_lut : ∃ pixels lut_width lut_height,
    decode_file w (base +:+ default "" (lut_files cfg !! i))
    = Image pixels lut_width lut_height
    ∧ In (Ev.glGenTextures lut) t
    ∧ In (Ev.glTexImage2D GL_TEXTURE_2D 0 GL_RGBA8
            (to_int lut_width) (to_int lut_height) 0
            GL_RGBA GL_UNSIGNED_BYTE pixels) t
}.

(** A startup that reaches the render loop. *)
Record startup_ok (cfg : Config) (w : World) (base image : string)
    (L : Locals) (s : State) : Prop := {
  ok_init : glfwInit_error w = None;
  ok_window : glfwCreateWindow_error w = None;
  ok_image : ∃ pixels,
    decode_file w image = Image pixels (image_width s) (image_height s);
  ok_texture : texture L = 1;
  ok_programs : programs L = [0; 3; 6; 9; 12];
  ok_lut_textures : lut_textures L = [0; 0; 2; 3; 4];
  ok_scale : image_scale s = 2;
  ok_unit0 : bound_texture s GL_TEXTURE0 = 1;
  ok_drawn : drawn_rev s = [];
  ok_open : should_close s = false;
  ok_resize : ∃ l,
    log s = Ev.glfwSetWindowSize (to_int (to_uint32 (image_width s * 2)))
                                 (to_int (to_uint32 (image_height s * 2))) :: l
    ∧ List.filter is_resize l = [];
  ok_start : startup_log image `suffix_of` log s;
  ok_passthrough :
    In (Ev.glShaderSource 1 [stage_prefix GL_VERTEX_SHADER;
                             vertex_shader_text]) (log s)
    ∧ In (Ev.glShaderSource 2 [stage_prefix GL_FRAGMENT_SHADER;
                               fragment_shader_text]) (log s)
    ∧ In (Ev.glAttachShader 3 1) (log s)
    ∧ In (Ev.glAttachShader 3 2) (log s)
    ∧ In (Ev.glLinkProgram 3) (log s);
  ok_hq2x : filter_built cfg w base 0 4 5 6 2
              (image_width s) (image_height s) (log s);
  ok_hq3x : filter_built cfg w base 1 7 8 9 3
              (image_width s) (image_height s) (log s);
  ok_hq4x : filter_built cfg w base 2 10 11 12 4
              (image_width s) (image_height s) (log s)
}.

(** GLFW is up, the window exists and the image decodes. *)
Definition window_and_image (w : World) (image : string) : Prop :=
  glfwInit_error w = None
  ∧ glfwCreateWindow_error w = None
  ∧ ∃ pixels width height, decode_file w image = Image pixels width height.

(** The first [n] shader files can be read and are not empty; the first
    [n] lookup images decode. *)
Definition files_ready (cfg : Config) (w : World) (base : string) (n : nat)
    : Prop :=
  ∀ j, (j < n)%nat → ∃ buffer,
    file_contents w (base +:+ default "" (shader_files cfg !! j)) = Some buffer
    ∧ buffer ≠ "".

Definition luts_ready (cfg : Config) (w : World) (base : string) (n : nat)
    : Prop :=
  ∀ j, (j < n)%nat → ∃ pixels width height,
    decode_file w (base +:+ default "" (lut_files cfg !! j))
    = Image pixels width height.

(** A startup that ends the process: the cause, which is the first thing
    that went wrong, what had gone well before, the status and the last
    calls.  A failed compile or link is counted with the [n] shader
    files read so far: 0 for the pass-through program. *)
Inductive startup_failure (cfg : Config) (w : World) (base image : string)
    (st : Status) (s : State) : Prop :=
  | fail_init code description :
      glfwInit_error w = Some (code, description) →
      st = crash cfg →
      log s = [ Ev.print_stderr ("Error: " +:+ description +:+ nl);
                Ev.glfwInit;
                Ev.glfwSetErrorCallback ] →
      startup_failure cfg w base image st s
  | fail_window code description :
      glfwInit_error w = None →
      glfwCreateWindow_error w = Some (code, description) →
      st = crash cfg →
      log s = (if NDEBUG cfg then [Ev.glfwTerminate] else [])
              ++ [ Ev.print_stderr ("Error: " +:+ description +:+ nl);
                   Ev.glfwCreateWindow 640 480 "HQx Sample";
                   Ev.glfwWindowHint GLFW_CONTEXT_VERSION_MINOR 0;
                   Ev.glfwWindowHint GLFW_CONTEXT_VERSION_MAJOR 2;
                   Ev.glfwInit;
                   Ev.glfwSetErrorCallback ] →
      startup_failure cfg w base image st s
  | fail_image code text :
      glfwInit_error w = None →
      glfwCreateWindow_error w = None →
      decode_file w image = DecodeError code text →
      st = crash cfg →
      log s = Ev.print_stderr ("Error: " +:+ text +:+ nl) :: startup_log image →
      startup_failure cfg w base image st s
  | fail_compile (n : nat) stage source info_log :
      window_and_image w image →
      (n ≤ 3)%nat →
      files_ready cfg w base n →
      luts_ready cfg w base (pred n) →
      NDEBUG cfg = false →
      compiled_in_run cfg w base n stage source →
      compile_log w stage [stage_prefix stage; source] = Some info_log →
      st = Aborted →
      (∃ l, log s = Ev.print_stderr ("Error: " +:+ info_log +:+ nl) :: l) →
      startup_failure cfg w base image st s
  | fail_link (n : nat) vertex_shader fragment_shader info_log :
      window_and_image w image →
      (n ≤ 3)%nat →
      files_ready cfg w base n →
      luts_ready cfg w base (pred n) →
      In (vertex_shader, fragment_shader) (linked_in_run n) →
      link_log w vertex_shader fragment_shader = Some info_log →
      st = Undefined →
      (∃ program l,
         log s = Ev.glGetShaderiv program GL_INFO_LOG_LENGTH
                 :: Ev.glGetProgramiv program GL_LINK_STATUS :: l) →
      startup_failure cfg w base image st s
  | fail_shader_file (i : nat) :
      window_and_image w image →
      (i < 3)%nat →
      file_contents w (base +:+ default "" (shader_files cfg !! i)) = None →
      files_ready cfg w base i →
      luts_ready cfg w base i →
      st = Exited EXIT_FAILURE →
      (∃ l, log s = Ev.print_stdout
                      ("Failed to open "
                       +:+ (base +:+ default "" (shader_files cfg !! i))
                       +:+ nl)
                    :: Ev.ifstream_open
                         (base +:+ default "" (shader_files cfg !! i)) :: l
            ∧ startup_log image `suffix_of` l) →
      startup_failure cfg w base image st s
  | fail_empty_file (i : nat) :
      window_and_image w image →
      (i < 3)%nat →
      file_contents w (base +:+ default "" (shader_files cfg !! i))
      = Some "" →
      files_ready cfg w base i →
      luts_ready cfg w base i →
      st = Undefined →
      startup_failure cfg w base image st s
  | fail_lut (i : nat) code text :
      window_and_image w image →
      (i < 3)%nat →
      decode_file w (base +:+ default "" (lut_files cfg !! i))
      = DecodeError code text →
      files_ready cfg w base (S i) →
      luts_ready cfg w base i →
      st = crash cfg →
      (∃ l, log s = Ev.print_stderr ("Error: " +:+ text +:+ nl)
                    :: Ev.lodepng_decode
                         (base +:+ default "" (lut_files cfg !! i)) :: l
            ∧ startup_log image `suffix_of` l) →
      startup_failure cfg w base image st s.

(** *** Inputs *)

(** The condition under which [key_callback] changes the selection: one
    of the keys 1 to 4 (of the top row) goes down. *)
Definition digit_press (key action : Z) : bool :=
  (GLFW_KEY_1 <=? key) && (key <=? GLFW_KEY_4) && (action =? GLFW_PRESS).

(** The calls made from the render loop, key callback included. *)
Definition loop_call (c : Call) : bool :=
  match c with
  | Ev.glfwWindowShouldClose | Ev.glfwGetFramebufferSize
  | Ev.glViewport _ _ _ _ | Ev.glClear _ | Ev.glUseProgram _
  | Ev.glActiveTexture _ | Ev.glBindTexture _ _ | Ev.glDrawElements _ _ _ _
  | Ev.glfwSwapBuffers | Ev.glfwPollEvents | Ev.glfwSetWindowShouldClose _
  | Ev.glfwSetWindowSize _ _ => true
  | _ => false
  end.

(** The log [l'] is the log [l] with calls of the render loop put in
    front of it. *)
Definition grows (l l' : list Call) : Prop :=
  ∃ k, l' = k ++ l ∧ forallb loop_call k = true.

(** What handling input may change: the selection, the close flag and
    the log, which only grows. *)
Record handled (s s' : State) : Prop := {
  handled_width : image_width s' = image_width s;
  handled_height : image_height s' = image_height s;
  handled_binding : texture_binding s' = texture_binding s;
  handled_drawn : drawn_rev s' = drawn_rev s;
  handled_log : grows (log s) (log s')
}.

(** The calls of one frame up to the buffer swap, in order, for the
    program and lookup texture of the selected slot. *)
Definition frame_calls (fi : FrameInput) (program lut : Z) : list Call :=
  [ Ev.glfwGetFramebufferSize;
    Ev.glViewport 0 0 (fb_width fi) (fb_height fi);
    Ev.glClear GL_COLOR_BUFFER_BIT;
    Ev.glUseProgram program;
    Ev.glActiveTexture GL_TEXTURE1;
    Ev.glBindTexture GL_TEXTURE_2D lut;
    Ev.glDrawElements GL_TRIANGLES 6 GL_UNSIGNED_BYTE indices;
    Ev.glfwSwapBuffers ].

(** What holds of the state whenever the render loop is about to draw. *)
Definition loop_invariant (L : Locals) (s : State) : Prop :=
  1 ≤ image_scale s ≤ 4 ∧ bound_texture s GL_TEXTURE0 = texture L.

(** *** Worlds *)

(** The world lets the startup go all the way up to the lookup textures:
    GLFW works, the image decodes to [width] by [height] pixels, the
    three shader files can be read and are not empty, the four links of
    the run succeed, and so do its eight compiles, unless assertions are
    compiled out, in which case a failed compile is reported and the run
    goes on.  Nothing is asked of what the compiler and the linker make
    of other sources and shaders. *)
Record runnable (cfg : Config) (w : World) (base image : string)
    (width height : Z) : Prop := {
  run_init : glfwInit_error w = None;
  run_window : glfwCreateWindow_error w = None;
  run_image : ∃ pixels, decode_file w image = Image pixels width height;
  run_shader_files : ∀ i, (i < 3)%nat → ∃ buffer,
    file_contents w (base +:+ default "" (shader_files cfg !! i)) = Some buffer
    ∧ buffer ≠ "";
  run_compiles :
    NDEBUG cfg = true
    ∨ ∀ stage source,
        compiled_in_run cfg w base 3 stage source →
        compile_log w stage [stage_prefix stage; source] = None;
  run_links : ∀ vertex_shader fragment_shader,
    In (vertex_shader, fragment_shader) (linked_in_run 3) →
    link_log w vertex_shader fragment_shader = None
}.

(** A valid asset directory: moreover the three lookup images decode. *)
Definition valid_assets (cfg : Config) (w : World) (base image : string)
    (width height : Z) : Prop :=
  runnable cfg w base image width height
  ∧ ∀ i, (i < 3)%nat → ∃ pixels lut_width lut_height,
      decode_file w (base +:+ default "" (lut_files cfg !! i))
      = Image pixels lut_width lut_height.

(** The [i]-th lookup image is the first one that does not decode. *)
Definition lut_fails (cfg : Config) (w : World) (base : string) (i : nat)
    (code : Z) (text : string) : Prop :=
  (i < 3)%nat
  ∧ decode_file w (base +:+ default "" (lut_files cfg !! i))
    = DecodeError code text
  ∧ ∀ j, (j < i)%nat → ∃ pixels lut_width lut_height,
      decode_file w (base +:+ default "" (lut_files cfg !! j))
      = Image pixels lut_width lut_height.

(** *** Sample worlds and runs *)

Definition debug_build : Config := {| NDEBUG := false; WIN32 := false |}.
Definition release_build : Config := {| NDEBUG := true; WIN32 := false |}.

Definition sample_argv : list string := ["hqx-sample"; "assets"].

(** The files of a complete asset directory: a 16 by 16 image, three
    lookup images and three shader files. *)
Definition sample_decode (without : string) (f : string) : Decoded :=
  if String.eqb f without
  then DecodeError 78 "failed to open file for reading"
  else if String.eqb f "assets/sample/pixelart0.png" then Image [] 16 16
  else if String.eqb f "assets/resources/hq2x.png" then Image [] 256 64
  else if String.eqb f "assets/resources/hq3x.png" then Image [] 256 144
  else if String.eqb f "assets/resources/hq4x.png" then Image [] 256 256
  else DecodeError 78 "failed to open file for reading".

Definition sample_files (f : string) : option string :=
  if String.eqb f "assets/glsl/hq2x.glsl" then Some "void main() {}"
  else if String.eqb f "assets/glsl/hq3x.glsl" then Some "void main() {}"
  else if String.eqb f "assets/glsl/hq4x.glsl" then Some "void main() {}"
  else None.

Definition sample_world : World := {|
  glfwInit_error := None;
  glfwCreateWindow_error := None;
  decode_file := sample_decode "";
  file_contents := sample_files;
  beyond_buffer := λ _ _, "";
  compile_log := λ _ _, None;
  link_log := λ _ _, None
|}.

(** The same directory without the lookup image of scale 4. *)
Definition missing_lut_world : World := {|
  glfwInit_error := None;
  glfwCreateWindow_error := None;
  decode_file := sample_decode "assets/resources/hq4x.png";
  file_contents := sample_files;
  beyond_buffer := λ _ _, "";
  compile_log := λ _ _, None;
  link_log := λ _ _, None
|}.

(** The sample directory with an image 2^30 pixels wide. *)
Definition wide_image_world : World := {|
  glfwInit_error := None;
  glfwCreateWindow_error := None;
  decode_file := λ f, if String.eqb f "assets/sample/pixelart0.png"
                      then Image [] (2 ^ 30) 16 else sample_decode "" f;
  file_contents := sample_files;
  beyond_buffer := λ _ _, "";
  compile_log := λ _ _, None;
  link_log := λ _ _, None
|}.


(** A state in which a 16 by 16 image has been loaded. *)
Definition sample_state : State :=
  set_image_width 16 (set_image_height 16 initial_state).

(** A frame in which the user presses 3, and one without input. *)
Definition sample_frame : FrameInput :=
  {| fb_width := 32; fb_height := 32;
     polled := [KeyEvent (GLFW_KEY_0 + 3) 0 GLFW_PRESS 0] |}.
Definition idle_frame : FrameInput :=
  {| fb_width := 48; fb_height := 48; polled := [] |}.

(** The run of the sample world: the locals and the state at the start
    of the render loop, and the state after one frame in which the user
    presses 3. *)
Definition sample_locals : Locals :=
  {| texture := 1; vertex_buffer := 1;
     programs := [0; 3; 6; 9; 12]; lut_textures := [0; 0; 2; 3; 4] |}.
Definition sample_started : State :=
  final (setup debug_build sample_world sample_argv initial_state).
Definition sample_running : State :=
  final (render_loop sample_locals [sample_frame] sample_started).

(** The state in which the startup for the wide image ends. *)
Definition wide_image_started : State :=
  final (setup debug_build wide_image_world sample_argv initial_state).

(** The state in which the run of the directory without the lookup image
    of scale 4 ends. *)
Definition missing_lut_stopped : State :=
  final (main debug_build missing_lut_world sample_argv [sample_frame]
           initial_state).

(** *** Input and the end of a run *)

(** An event that raises the close flag: the user closes the window, or
    the Escape key goes down. *)
Definition closing_event (e : Event) : bool :=
  match e with
  | CloseRequest => true
  | KeyEvent key _ action _ =>
      (key =? GLFW_KEY_ESCAPE) && (action =? GLFW_PRESS)
  end.

(** A frame whose input raises the close flag. *)
Definition closes (fi : FrameInput) : bool :=
  existsb closing_event (polled fi).

(** The selection after a list of events, read in order: that of the
    last press of one of the keys 1 to 4, if there is one. *)
Definition selected (scale : Z) (events : list Event) : Z :=
  fold_left
    (λ scale e,
       match e with
       | KeyEvent key _ action _ =>
           if digit_press key action then key - GLFW_KEY_0 else scale
       | CloseRequest => scale
       end)
    events scale.

(** The selection after the input of a list of frames. *)
Definition selection_after (scale : Z) (frames : list FrameInput) : Z :=
  fold_left (λ scale fi, selected scale (polled fi)) frames scale.

(** The four window sizes a digit key can ask for, for an image of
    [width] by [height] pixels. *)
Definition window_sizes (width height : Z) : list Call :=
  map (λ k, Ev.glfwSetWindowSize (to_int (to_uint32 (width * k)))
                                 (to_int (to_uint32 (height * k))))
      [1; 2; 3; 4].

(** The calls the key callback can make. *)
Definition input_calls (width height : Z) : list Call :=
  Ev.glfwSetWindowShouldClose GLFW_TRUE :: window_sizes width height.

(** Draw calls, and buffer swaps. *)
Definition is_draw (c : Call) : bool :=
  match c with
  | Ev.glDrawElements _ _ _ _ => true
  | _ => false
  end.

Definition is_swap (c : Call) : bool :=
  match c with
  | Ev.glfwSwapBuffers => true
  | _ => false
  end.

(** What the render loop adds to the log: calls of the loop, among which
    the resizes are to one of the four sizes. *)
Definition loop_added (width height : Z) (c : Call) : Prop :=
  loop_call c = true ∧ (is_resize c = true → In c (window_sizes width height)).

(** *** The objects of a run *)

(** Calls that create an OpenGL object, and calls that delete one. *)
Definition is_alloc (c : Call) : bool :=
  match c with
  | Ev.glGenTextures _ | Ev.glGenBuffers _ | Ev.glCreateShader _ _
  | Ev.glCreateProgram _ => true
  | _ => false
  end.

Definition is_delete (c : Call) : bool :=
  match c with
  | Ev.glDeleteShader _ => true
  | _ => false
  end.

(** The objects a completed startup creates, in the order of their
    creation, and the shaders it deletes. *)
Definition startup_allocs : list Call :=
  [ Ev.glGenTextures 1;
    Ev.glGenBuffers 1;
    Ev.glCreateShader GL_VERTEX_SHADER 1;
    Ev.glCreateShader GL_FRAGMENT_SHADER 2;
    Ev.glCreateProgram 3;
    Ev.glCreateShader GL_VERTEX_SHADER 4;
    Ev.glCreateShader GL_FRAGMENT_SHADER 5;
    Ev.glCreateProgram 6;
    Ev.glGenTextures 2;
    Ev.glCreateShader GL_VERTEX_SHADER 7;
    Ev.glCreateShader GL_FRAGMENT_SHADER 8;
    Ev.glCreateProgram 9;
    Ev.glGenTextures 3;
    Ev.glCreateShader GL_VERTEX_SHADER 10;
    Ev.glCreateShader GL_FRAGMENT_SHADER 11;
    Ev.glCreateProgram 12;
    Ev.glGenTextures 4 ].

Definition startup_deletes : list Call :=
  map Ev.glDeleteShader [1; 2; 4; 5; 7; 8; 10; 11].

(** Calls that set up the vertex data: the buffer and the attributes. *)
Definition is_vertex_setup (c : Call) : bool :=
  match c with
  | Ev.glGenBuffers _ | Ev.glBindBuffer _ _ | Ev.glBufferData _ _ _ _
  | Ev.glGetAttribLocation _ _ | Ev.glEnableVertexAttribArray _
  | Ev.glVertexAttribPointer _ _ _ _ _ _ => true
  | _ => false
  end.

(** The vertex setup of a completed startup, in order. *)
Definition startup_vertex_setup : list Call :=
  [ Ev.glGenBuffers 1;
    Ev.glBindBuffer GL_ARRAY_BUFFER 1;
    Ev.glBufferData GL_ARRAY_BUFFER sizeof_vertices vertices GL_STATIC_DRAW;
    Ev.glGetAttribLocation 3 "VertexCoord";
    Ev.glGetAttribLocation 3 "TexCoord";
    Ev.glEnableVertexAttribArray
      {| loc_program := 3; loc_name := "VertexCoord" |};
    Ev.glVertexAttribPointer
      {| loc_program := 3; loc_name := "VertexCoord" |}
      4 GL_FLOAT GL_FALSE sizeof_vertex 0;
    Ev.glEnableVertexAttribArray
      {| loc_program := 3; loc_name := "TexCoord" |};
    Ev.glVertexAttribPointer
      {| loc_program := 3; loc_name := "TexCoord" |}
      4 GL_FLOAT GL_FALSE sizeof_vertex (sizeof_float * 4) ].

(** What the log of a completed startup holds besides the filters. *)
Record startup_census (L : Locals) (s : State) : Prop := {
  census_vertex_buffer : vertex_buffer L = 1;
  census_allocs : List.filter is_alloc (log s) = rev startup_allocs;
  census_deletes : List.filter is_delete (log s) = rev startup_deletes;
  census_vertex_setup :
    List.filter is_vertex_setup (log s) = rev startup_vertex_setup;
  census_draws : List.filter is_draw (log s) = [];
  census_swaps : List.filter is_swap (log s) = [];
  census_sampler :
    In (Ev.glUniform1i 0 {| loc_program := 3; loc_name := "Texture" |} 0)
       (log s);
  census_passthrough : List.filter (uniform_write_in 3) (log s) = [];
  census_names : next_texture s = 5 ∧ next_buffer s = 2 ∧ next_object s = 13
}.

(** *** More sample worlds *)

(** The sample directory without the shader file of scale 3. *)
Definition missing_shader_world : World := {|
  glfwInit_error := None;
  glfwCreateWindow_error := None;
  decode_file := sample_decode "";
  file_contents := λ f, if String.eqb f "assets/glsl/hq3x.glsl" then None
                        else sample_files f;
  beyond_buffer := λ _ _, "";
  compile_log := λ _ _, None;
  link_log := λ _ _, None
|}.

(** The sample directory without the image. *)
Definition missing_image_world : World := {|
  glfwInit_error := None;
  glfwCreateWindow_error := None;
  decode_file := sample_decode "assets/sample/pixelart0.png";
  file_contents := sample_files;
  beyond_buffer := λ _ _, "";
  compile_log := λ _ _, None;
  link_log := λ _ _, None
|}.

(** A machine on which GLFW cannot be initialised, and one on which it
    cannot create the window. *)
Definition no_glfw_world : World := {|
  glfwInit_error :=
    Some (65544, "X11: The DISPLAY environment variable is missing");
  glfwCreateWindow_error := None;
  decode_file := sample_decode "";
  file_contents := sample_files;
  beyond_buffer := λ _ _, "";
  compile_log := λ _ _, None;
  link_log := λ _ _, None
|}.

Definition no_window_world : World := {|
  glfwInit_error := None;
  glfwCreateWindow_error := Some (65543, "GLX: Failed to create context");
  decode_file := sample_decode "";
  file_contents := sample_files;
  beyond_buffer := λ _ _, "";
  compile_log := λ _ _, None;
  link_log := λ _ _, None
|}.

(** A world whose OpenGL fails to link every program. *)
Definition broken_link_world : World := {|
  glfwInit_error := None;
  glfwCreateWindow_error := None;
  decode_file := sample_decode "";
  file_contents := sample_files;
  beyond_buffer := λ _ _, "";
  compile_log := λ _ _, None;
  link_log := λ _ _, Some "error: linking with uncompiled shader"
|}.

(** A frame in which the user presses Escape. *)
Definition escape_frame : FrameInput :=
  {| fb_width := 32; fb_height := 32;
     polled := [KeyEvent GLFW_KEY_ESCAPE 0 GLFW_PRESS 0] |}.


(** ** Reasoning support *)

(** *** Symbolic execution

    [run] unfolds the monad, the collaborators' operations and the field
    updates, and leaves the rest alone; [run_gl] also computes with
    object names and vector indices, for runs from the initial state. *)
Declare Reduction run :=
  cbv beta iota zeta delta
    [bind ret get modify call exit abort undefined store final
     printf cout cerr assert_false error_callback
     glfwSetErrorCallback glfwInit glfwWindowHint glfwCreateWindow
     glfwTerminate glfwSetKeyCallback glfwMakeContextCurrent gladLoadGLLoader
     glfwSwapInterval glfwSetWindowSize glfwSetWindowShouldClose
     glfwWindowShouldClose glfwGetFramebufferSize glfwSwapBuffers
     glfwDestroyWindow glGenTextures glGenBuffers glCreateShader
     glCreateProgram glActiveTexture glTexImage2D
     glTexParameteri glBindBuffer glBufferData glShaderSource glCompileShader
     glAttachShader glLinkProgram glDeleteShader glGetShaderInfoLog
     glGetProgramInfoLog glGetShaderiv glGetShaderiv_rejected glGetProgramiv
     glGetUniformLocation
     glGetAttribLocation glEnableVertexAttribArray glVertexAttribPointer
     glUseProgram glUniform1i glUniform2f glUniformMatrix4fv glViewport
     glClear glDrawElements
     emit add_log add_draw set_image_width set_image_height set_image_scale
     set_next_texture set_next_buffer set_next_object set_active_texture
     set_texture_binding set_current_program set_viewport set_should_close
     image_width image_height image_scale next_texture next_buffer
     next_object active_texture texture_binding current_program viewport
     should_close drawn_rev log
     texture vertex_buffer programs lut_textures fst snd negb].

Declare Reduction run_gl :=
  cbv beta iota zeta delta
    [bind ret get modify call exit abort undefined store final at_index
     printf cout cerr assert_false error_callback
     glfwSetErrorCallback glfwInit glfwWindowHint glfwCreateWindow
     glfwTerminate glfwSetKeyCallback glfwMakeContextCurrent gladLoadGLLoader
     glfwSwapInterval glfwSetWindowSize glfwSetWindowShouldClose
     glfwWindowShouldClose glfwGetFramebufferSize glfwSwapBuffers
     glfwDestroyWindow glGenTextures glGenBuffers glCreateShader
     glCreateProgram glActiveTexture glBindTexture glTexImage2D
     glTexParameteri glBindBuffer glBufferData glShaderSource glCompileShader
     glAttachShader glLinkProgram glDeleteShader glGetShaderInfoLog
     glGetProgramInfoLog glGetShaderiv glGetShaderiv_rejected glGetProgramiv
     glGetUniformLocation
     glGetAttribLocation glEnableVertexAttribArray glVertexAttribPointer
     glUseProgram glUniform1i glUniform2f glUniformMatrix4fv glViewport
     glClear glDrawElements read_file load_texture
     emit add_log add_draw set_image_width set_image_height set_image_scale
     set_next_texture set_next_buffer set_next_object set_active_texture
     set_texture_binding set_current_program set_viewport set_should_close
     image_width image_height image_scale next_texture next_buffer
     next_object active_texture texture_binding current_program viewport
     should_close drawn_rev log initial_state
     texture vertex_buffer programs lut_textures fst snd negb
     app default lookup list_lookup shader_files lut_files
     Z.to_nat Pos.to_nat Pos.iter_op Nat.add
     Init.Nat.add Z.add Pos.add Pos.succ Pos.add_carry
     Z.eqb Pos.eqb GL_TEXTURE_2D].

Ltac run :=
  match goal with |- ?G => let G' := eval run in G in change G' end.
Ltac run_in H :=
  match type of H with ?T => let T' := eval run in T in change T' in H end.

(** *** The monad *)

Lemma bind_assoc {A B C} (m : M A) (f : A → M B) (k : B → M C) s :
  bind (bind m f) k s = bind m (λ a, bind (f a) k) s.
Proof. unfold bind. destruct (m s); reflexivity. Qed.

Lemma step_Ret {A B} (m : M A) (k : A → M B) s a s' r :
  m s = Ret a s' → bind m k s = r → k a s' = r.
Proof. unfold bind. intros ->. done. Qed.

Lemma step_Stop {A B} (m : M A) (k : A → M B) s st s' r :
  m s = Stop st s' → bind m k s = r → Stop st s' = r.
Proof. unfold bind. intros ->. done. Qed.

Lemma step_assoc {A B C} (m : M A) (f : A → M B) (k : B → M C) s r :
  bind (bind m f) k s = r → bind m (λ a, bind (f a) k) s = r.
Proof. intros <-. symmetry. apply bind_assoc. Qed.

Lemma step_for_each body i rest vectors {C} (k : _ → M C) s r :
  bind (for_each body (i :: rest) vectors) k s = r →
  bind (body i vectors) (λ v, bind (for_each body rest v) k) s = r.
Proof. intros <-. symmetry. apply (bind_assoc (body i vectors)). Qed.

Lemma step_for_each_nil body vectors {C} (k : _ → M C) s r :
  bind (for_each body [] vectors) k s = r → k vectors s = r.
Proof. done. Qed.

Section Helpers.

Variable cfg : Config.
Variable world : World.

(** *** [compile_shader] and [link_program]

    A compile either aborts the process, which takes a failed compile
    and compiled-in assertions, or returns the new shader name, having
    used up one object name and logged its calls, followed by the
    diagnostic calls when the compile failed. *)
Lemma compile_shader_run stage source s :
  ∃ diag, forallb diagnostic diag = true ∧
    (compile_shader cfg world stage source s =
       Ret (next_object s)
           (add_log diag
              (add_log (compile_calls stage (next_object s) source)
                 (set_next_object (next_object s + 1) s)))
     ∨ ∃ info_log,
         compile_shader cfg world stage source s =
           Stop Aborted
             (add_log (compile_diagnostic (next_object s) info_log)
                (add_log (compile_calls stage (next_object s) source)
                   (set_next_object (next_object s + 1) s)))
         ∧ NDEBUG cfg = false
         ∧ compile_log world stage [stage_prefix stage; source]
           = Some info_log).
Proof.
  unfold compile_shader. run.
  destruct (compile_log world stage [stage_prefix stage; source]) as [l|] eqn:E.
  - simpl. destruct (NDEBUG cfg).
    + exists (compile_diagnostic (next_object s) l). split; [done|].
      left. reflexivity.
    + exists []. split; [done|]. right. exists l. done.
  - exists []. split; [done|]. left. reflexivity.
Qed.

(** A link either succeeds, and [link_program] returns the new program
    name after deleting the two shaders, or fails, and the run comes to
    undefined behaviour after the query of the log length. *)
Lemma link_program_run vertex_shader fragment_shader s :
  (link_program cfg world vertex_shader fragment_shader s =
     Ret (next_object s)
         (add_log [Ev.glDeleteShader fragment_shader;
                   Ev.glDeleteShader vertex_shader]
            (add_log (link_calls (next_object s) vertex_shader
                                 fragment_shader)
               (set_next_object (next_object s + 1) s)))
   ∧ link_log world vertex_shader fragment_shader = None)
  ∨ ∃ info_log,
      link_program cfg world vertex_shader fragment_shader s =
        Stop Undefined
          (add_log (link_diagnostic (next_object s))
             (add_log (link_calls (next_object s) vertex_shader
                                  fragment_shader)
                (set_next_object (next_object s + 1) s)))
      ∧ link_log world vertex_shader fragment_shader = Some info_log.
Proof.
  unfold link_program. run.
  destruct (link_log world vertex_shader fragment_shader) as [l|] eqn:E.
  - right. exists l. done.
  - left. done.
Qed.

(** The buffer of a shader file read as a C string. *)
Lemma shader_data_run path stage buffer s :
  (shader_data world path stage buffer s
   = Ret (shader_text world path stage buffer) s ∧ buffer ≠ "")
  ∨ (shader_data world path stage buffer s = Stop Undefined s ∧ buffer = "").
Proof.
  unfold shader_data. destruct (String.eqb_spec buffer "") as [->|Hne].
  - right. done.
  - left. done.
Qed.

Lemma step_build_filter base mvp i v {C} (k : _ → M C) s r :
  bind (build_filter cfg world base mvp i v) k s = r →
  bind (read_file world (base +:+ default "" (shader_files cfg !! i)))
    (λ shader, bind
      (source ← shader_data world
                  (base +:+ default "" (shader_files cfg !! i))
                  GL_VERTEX_SHADER shader;
       vertex_shader ← compile_shader cfg world GL_VERTEX_SHADER source;
       source ← shader_data world
                  (base +:+ default "" (shader_files cfg !! i))
                  GL_FRAGMENT_SHADER shader;
       fragment_shader ← compile_shader cfg world GL_FRAGMENT_SHADER source;
       program ← link_program cfg world vertex_shader fragment_shader;
       mvp_location ← glGetUniformLocation program "MVPMatrix";
       samp_location ← glGetUniformLocation program "Texture";
       lut_location ← glGetUniformLocation program "LUT";
       tsize_location ← glGetUniformLocation program "TextureSize";
       glUseProgram program;;
       glUniformMatrix4fv mvp_location 1 GL_FALSE mvp;;
       glUniform1i samp_location 0;;
       glUniform1i lut_location 1;;
       width ← get image_width;
       height ← get image_height;
       glUniform2f tsize_location (float_of_uint32 width)
         (float_of_uint32 height);;
       lut ← load_texture cfg world None None
               (base +:+ default "" (lut_files cfg !! i));
       ret (v.1 ++ [program], v.2 ++ [lut])) k) s = r.
Proof. intros <-. symmetry. apply (bind_assoc (read_file _ _)). Qed.

End Helpers.

(** Case analysis on the answer of the world that [Hm] is stuck on. *)
Ltac ask_world Hm :=
  lazymatch type of Hm with
  | context [match decode_file ?w ?f with _ => _ end] =>
      let E := fresh "Edec" in
      destruct (decode_file w f) as [? ? ?|? ?] eqn:E
  | context [match file_contents ?w ?f with _ => _ end] =>
      let E := fresh "Efile" in
      destruct (file_contents w f) as [?|] eqn:E
  | context [match glfwInit_error ?w with _ => _ end] =>
      let E := fresh "Einit" in
      destruct (glfwInit_error w) as [[? ?]|] eqn:E
  | context [match glfwCreateWindow_error ?w with _ => _ end] =>
      let E := fresh "Ewin" in
      destruct (glfwCreateWindow_error w) as [[? ?]|] eqn:E
  | context [if NDEBUG ?c then _ else _] =>
      first
        [ match goal with E : NDEBUG c = _ |- _ => rewrite E in Hm end
        | let E := fresh "Endebug" in destruct (NDEBUG c) eqn:E ]
  end;
  cbv beta iota in Hm.

(** One step of [H : bind m k s = r], by the kind of [m]. *)
Ltac step_prim H m k s :=
  let t := eval run_gl in (m s) in
  let Hm := fresh "Hm" in
  assert (Hm : m s = t) by reflexivity;
  repeat ask_world Hm;
  lazymatch type of Hm with
  | _ = Ret ?a ?s' => apply (step_Ret m k s a s' _ Hm) in H; cbv beta zeta in H
  | _ = Stop ?st ?s' => apply (step_Stop m k s st s' _ Hm) in H
  end;
  clear Hm.

Ltac step H :=
  lazymatch type of H with
  | bind (bind ?m ?f) ?k ?s = _ => apply step_assoc in H
  | bind (for_each ?b (?i :: ?r) ?v) ?k ?s = _ => apply step_for_each in H
  | bind (for_each ?b [] ?v) ?k ?s = _ =>
      apply step_for_each_nil in H; cbv beta zeta in H
  | bind (build_filter ?c ?w ?b ?mvp ?i ?v) ?k ?s = _ =>
      apply step_build_filter in H
  | bind (compile_shader ?c ?w ?st ?src) ?k ?s = _ =>
      let diag := fresh "diag" in let Hd := fresh "Hdiag" in
      let E := fresh "E" in let l := fresh "info_log" in
      let Hn := fresh "Hndebug" in let Hl := fresh "Hlog" in
      destruct (compile_shader_run c w st src s)
        as (diag & Hd & [E | (l & E & Hn & Hl)]);
      [ apply (step_Ret _ _ _ _ _ _ E) in H
      | apply (step_Stop _ _ _ _ _ _ E) in H ];
      clear E; cbv beta zeta in H
  | bind (link_program ?c ?w ?vs ?fs) ?k ?s = _ =>
      let E := fresh "E" in let l := fresh "info_log" in
      let Hl := fresh "Hlink" in
      destruct (link_program_run c w vs fs s) as [[E Hl] | (l & E & Hl)];
      [ apply (step_Ret _ _ _ _ _ _ E) in H
      | apply (step_Stop _ _ _ _ _ _ E) in H ];
      clear E; cbv beta zeta in H;
      match type of Hl with
      | ?T => let T' := eval run_gl in T in change T' in Hl
      end
  | bind (shader_data ?w ?p ?st ?b) ?k ?s = _ =>
      let E := fresh "E" in let Hb := fresh "Hbuffer" in
      destruct (shader_data_run w p st b s) as [[E Hb] | [E Hb]];
      [ apply (step_Ret _ _ _ _ _ _ E) in H
      | apply (step_Stop _ _ _ _ _ _ E) in H ];
      clear E; cbv beta zeta in H;
      try (exfalso; congruence)
  | bind ?m ?k ?s = _ => step_prim H m k s
  end.

(** *** Facts about an explicit log *)

Lemma filter_cat (P : Call → bool) chunk l :
  List.filter P (cat_log chunk l) = List.filter P chunk ++ List.filter P l.
Proof. apply List.filter_app. Qed.

Lemma filter_diagnostic (P : Call → bool) diag :
  (∀ c, diagnostic c = true → P c = false) →
  forallb diagnostic diag = true → List.filter P diag = [].
Proof.
  intros HP. induction diag as [|c diag IH]; [done|].
  cbn [forallb List.filter]. intros [Hc Hd]%andb_prop.
  rewrite (HP c Hc). auto.
Qed.

Lemma filter_cat_diagnostic (P : Call → bool) diag l :
  (∀ c, diagnostic c = true → P c = false) →
  forallb diagnostic diag = true →
  List.filter P (cat_log diag l) = List.filter P l.
Proof.
  intros HP Hd. rewrite filter_cat, (filter_diagnostic P diag HP Hd). done.
Qed.

Lemma diagnostic_not_resize c : diagnostic c = true → is_resize c = false.
Proof. by destruct c. Qed.

Lemma diagnostic_not_uniform p c :
  diagnostic c = true → uniform_write_in p c = false.
Proof. by destruct c. Qed.

(** Membership in a log made of explicit calls and chunks. *)
Ltac find_in :=
  first
    [ apply in_eq
    | apply in_cons; find_in
    | apply in_or_app; first [ left; find_in | right; find_in ] ].

Lemma suffix_same (l : list Call) : l `suffix_of` l.
Proof. reflexivity. Qed.

(** A log ends with [l] when peeling calls and chunks off its front
    reaches [l]. *)
Ltac solve_suffix :=
  first
    [ apply suffix_same
    | apply suffix_cons_r; solve_suffix
    | apply suffix_app_r; solve_suffix ].

(** Filtering such a log. *)
Ltac filter_log :=
  repeat first
    [ rewrite filter_cat_diagnostic
        by first [ apply diagnostic_not_resize
                 | apply diagnostic_not_uniform
                 | assumption ]
    | rewrite filter_cat
    | progress cbn [List.filter app is_resize uniform_write_in
                    compile_calls link_calls Z.eqb Pos.eqb] ].

(** The status of a crash, given what is known about [NDEBUG]. *)
Ltac solve_crash :=
  unfold crash;
  match goal with E : NDEBUG _ = _ |- _ => rewrite E end;
  reflexivity.

Lemma diagnostic_not_alloc c : diagnostic c = true → is_alloc c = false.
Proof. by destruct c. Qed.

Lemma diagnostic_not_delete c : diagnostic c = true → is_delete c = false.
Proof. by destruct c. Qed.

Lemma diagnostic_not_vertex_setup c :
  diagnostic c = true → is_vertex_setup c = false.
Proof. by destruct c. Qed.

Lemma diagnostic_not_draw c : diagnostic c = true → is_draw c = false.
Proof. by destruct c. Qed.

Lemma diagnostic_not_swap c : diagnostic c = true → is_swap c = false.
Proof. by destruct c. Qed.

(** Filtering a log of explicit calls and chunks for objects and draws. *)
Ltac filter_census :=
  repeat first
    [ rewrite filter_cat_diagnostic
        by first [ apply diagnostic_not_alloc
                 | apply diagnostic_not_delete
                 | apply diagnostic_not_vertex_setup
                 | apply diagnostic_not_draw
                 | apply diagnostic_not_swap
                 | apply diagnostic_not_uniform
                 | assumption ]
    | rewrite filter_cat
    | progress cbn [List.filter app is_alloc is_delete is_vertex_setup
                    is_draw is_swap uniform_write_in compile_calls link_calls
                    Z.eqb Pos.eqb] ].

(** What had gone well before a failure, from the answers of the world
    met on the way. *)
Ltac have_window_and_image :=
  split; [assumption|]; split; [assumption|];
  do 3 eexists;
  match goal with E : decode_file _ _ = Image _ _ _ |- _ => exact E end.

Ltac have_files :=
  let j := fresh "j" in let Hj := fresh "Hj" in
  intros j Hj; cbn [Nat.pred] in Hj;
  repeat (destruct j as [|j];
          [ eexists; split;
            [ match goal with
              | E : file_contents _ _ = Some _ |- _ => exact E
              end
            | assumption ]
          | ]);
  lia.

Ltac have_luts :=
  let j := fresh "j" in let Hj := fresh "Hj" in
  intros j Hj; cbn [Nat.pred] in Hj;
  repeat (destruct j as [|j];
          [ do 3 eexists;
            match goal with
            | E : decode_file _ _ = Image _ _ _ |- _ => exact E
            end
          | ]);
  lia.

Ltac log_after_start :=
  eexists; split;
  [ reflexivity
  | unfold cat_log, compile_calls, link_calls; solve_suffix ].

(** The compile at hand is one of the run. *)
Ltac compile_of_file i :=
  eapply (compiles_file _ _ _ _ i);
  [ lia
  | first [ left; reflexivity | right; reflexivity ]
  | match goal with E : file_contents _ _ = Some _ |- _ => exact E end ].

Ltac in_run :=
  lazymatch goal with
  | |- compiled_in_run _ _ _ _ _ vertex_shader_text => apply compiles_vertex
  | |- compiled_in_run _ _ _ _ _ fragment_shader_text =>
      apply compiles_fragment
  | |- compiled_in_run _ _ _ _ _
         (shader_text _ (_ +:+ default _ (shader_files _ !! ?i)) _ _) =>
      compile_of_file i
  end.

Ltac in_list :=
  cbv; repeat first [ left; reflexivity | right ].

Ltac failed_compile n Hc :=
  refine (fail_compile _ _ _ _ _ _ n _ _ _ _ _ _ _ _ _ Hc _ _);
  [ have_window_and_image | lia | have_files | have_luts | assumption
  | in_run | reflexivity | eexists; reflexivity ].

Ltac failed_link n Hl :=
  refine (fail_link _ _ _ _ _ _ n _ _ _ _ _ _ _ _ Hl _ _);
  [ have_window_and_image | lia | have_files | have_luts | in_list
  | reflexivity | do 2 eexists; reflexivity ].

Ltac failed_shader_file i E :=
  refine (fail_shader_file _ _ _ _ _ _ i _ _ E _ _ _ _);
  [ have_window_and_image | lia | have_files | have_luts | reflexivity
  | log_after_start ].

Ltac empty_shader_file i E :=
  refine (fail_empty_file _ _ _ _ _ _ i _ _ E _ _ _);
  [ have_window_and_image | lia | have_files | have_luts | reflexivity ].

Ltac failed_lut i E :=
  refine (fail_lut _ _ _ _ _ _ i _ _ _ _ E _ _ _ _);
  [ have_window_and_image | lia | have_files | have_luts | solve_crash
  | log_after_start ].

(** Name the cause of a startup that ended the process, by the answer of
    the world that ended it. *)
Ltac failure_leaf :=
  lazymatch goal with
  | E : glfwInit_error _ = Some _ |- _ =>
      eapply fail_init; [ exact E | solve_crash | reflexivity ]
  | E : glfwCreateWindow_error _ = Some _ |- _ =>
      eapply fail_window;
      [ assumption | exact E | solve_crash
      | match goal with En : NDEBUG _ = _ |- _ => rewrite En end;
        reflexivity ]
  | Hl : link_log _ _ _ = Some _ |- _ =>
      first [ solve [ failed_link 0%nat Hl ] | solve [ failed_link 1%nat Hl ]
            | solve [ failed_link 2%nat Hl ] | solve [ failed_link 3%nat Hl ] ]
  | Hc : compile_log _ _ _ = Some _ |- _ =>
      lazymatch type of Hc with
      | context [shader_files _ !! ?i] => failed_compile (S i) Hc
      | _ => failed_compile 0%nat Hc
      end
  | E : file_contents _ _ = None |- _ =>
      first [ solve [ failed_shader_file 0%nat E ]
            | solve [ failed_shader_file 1%nat E ]
            | solve [ failed_shader_file 2%nat E ] ]
  | E : file_contents _ _ = Some "" |- _ =>
      first [ solve [ empty_shader_file 0%nat E ]
            | solve [ empty_shader_file 1%nat E ]
            | solve [ empty_shader_file 2%nat E ] ]
  | E : decode_file _ _ = DecodeError _ _ |- _ =>
      first [ solve [ eapply fail_image;
                      [ assumption | assumption | exact E | solve_crash
                      | reflexivity ] ]
            | solve [ failed_lut 0%nat E ]
            | solve [ failed_lut 1%nat E ]
            | solve [ failed_lut 2%nat E ] ]
  end.

Ltac built_filter :=
  constructor;
  [ eexists; split;
    [ match goal with E : file_contents _ _ = Some _ |- _ => exact E end
    | split;
      [ assumption
      | unfold cat_log, compile_calls, link_calls; split; find_in ] ]
  | unfold cat_log, compile_calls, link_calls; repeat split; find_in
  | filter_log; reflexivity
  | do 3 eexists; split;
    [ match goal with E : decode_file _ _ = Image _ _ _ |- _ => exact E end
    | unfold cat_log, compile_calls, link_calls; split; find_in ] ].

(** *** The outcome of the startup

    One symbolic execution of [startup] from the initial state, through
    all the answers the world can give.  When it ends the process, no
    vector has been read out of range, no frame has been drawn, and the
    window and the decoding of the image come first in the log if the
    window could be created. *)
Lemma startup_run cfg w base image :
  match startup cfg w base image initial_state with
  | Ret L s => startup_ok cfg w base image L s ∧ startup_census L s
  | Stop st s =>
      st ≠ OutOfRange
      ∧ drawn_rev s = []
      ∧ (glfwInit_error w = None → glfwCreateWindow_error w = None →
         startup_log image `suffix_of` log s)
      ∧ startup_failure cfg w base image st s
  end.
Proof.
  remember (startup cfg w base image initial_state) as r eqn:H.
  symmetry in H. unfold startup in H. cbv beta zeta in H.
  repeat step H.
  all: run_in H; subst r.
  all: repeat match goal with Hb : ?b = "" |- _ => subst b end.
  all: lazymatch goal with
       | |- startup_ok _ _ _ _ _ _ ∧ _ => idtac
       | |- _ ∧ _ =>
           split; [ discriminate | split; [ reflexivity | split ] ];
           [ intros;
             first [ cbn [log]; unfold cat_log, compile_calls, link_calls,
                       compile_diagnostic, link_diagnostic; solve_suffix
                   | congruence ]
           | failure_leaf ]
       end.
  split.
  - constructor;
      try first [ assumption | reflexivity | eexists; eassumption ].
    + eexists. split; [reflexivity|]. filter_log. reflexivity.
    + cbn [log]. unfold cat_log, compile_calls, link_calls. solve_suffix.
    + cbn [log]. unfold cat_log, compile_calls, link_calls.
      repeat split; find_in.
    + cbn [log image_width image_height]. built_filter.
    + cbn [log image_width image_height]. built_filter.
    + cbn [log image_width image_height]. built_filter.
  - constructor; cbn [log next_texture next_buffer next_object].
    + reflexivity.
    + filter_census. reflexivity.
    + filter_census. reflexivity.
    + filter_census. reflexivity.
    + filter_census. reflexivity.
    + filter_census. reflexivity.
    + unfold cat_log, compile_calls, link_calls. find_in.
    + filter_census. reflexivity.
    + done.
Qed.

Lemma startup_outcome cfg w base image :
  match startup cfg w base image initial_state with
  | Ret L s => startup_ok cfg w base image L s
  | Stop st s =>
      st ≠ OutOfRange
      ∧ drawn_rev s = []
      ∧ (glfwInit_error w = None → glfwCreateWindow_error w = None →
         startup_log image `suffix_of` log s)
      ∧ startup_failure cfg w base image st s
  end.
Proof.
  pose proof (startup_run cfg w base image) as H.
  destruct (startup _ _ _ _ _); [apply H|exact H].
Qed.

(** What the first outcome leaves out of a completed startup: the
    objects created and deleted. *)
Lemma startup_details cfg w base image :
  match startup cfg w base image initial_state with
  | Ret L s => startup_census L s
  | Stop st s => startup_failure cfg w base image st s
  end.
Proof.
  pose proof (startup_run cfg w base image) as H.
  destruct (startup _ _ _ _ _); apply H.
Qed.

(** *** Input handling *)

Lemma grows_refl l : grows l l.
Proof. by exists []. Qed.

Lemma grows_trans l1 l2 l3 : grows l1 l2 → grows l2 l3 → grows l1 l3.
Proof.
  intros (k1 & -> & H1) (k2 & -> & H2). exists (k2 ++ k1).
  split; [by rewrite app_assoc|]. rewrite forallb_app, H1, H2. done.
Qed.

Lemma grows_cons c l l' : loop_call c = true → grows l l' → grows l (c :: l').
Proof.
  intros Hc (k & -> & Hk). exists (c :: k). split; [done|].
  cbn [forallb]. by rewrite Hc, Hk.
Qed.

Lemma grows_suffix l l' : grows l l' → l `suffix_of` l'.
Proof. intros (k & -> & _). by apply suffix_app_r. Qed.

(** Calls of the render loop write no uniform. *)
Lemma grows_uniforms p l l' :
  grows l l' →
  List.filter (uniform_write_in p) l' = List.filter (uniform_write_in p) l.
Proof.
  intros (k & -> & Hk). rewrite List.filter_app.
  replace (List.filter (uniform_write_in p) k) with (@nil Call); [done|].
  induction k as [|c k IH]; [done|].
  cbn [forallb] in Hk. apply andb_prop in Hk as [Hc Hk].
  cbn [List.filter]. destruct c; try discriminate Hc; by apply IH.
Qed.

Lemma handled_refl s : handled s s.
Proof. constructor; try done. apply grows_refl. Qed.

Lemma handled_trans s1 s2 s3 : handled s1 s2 → handled s2 s3 → handled s1 s3.
Proof.
  intros [] []. constructor; try congruence. by eapply grows_trans.
Qed.

(** [key_callback] always returns; it changes the selection exactly when
    one of the keys 1 to 4 goes down, to the digit of the key. *)
Lemma key_callback_run key scancode action mods s :
  ∃ s', key_callback key scancode action mods s = Ret tt s'
        ∧ handled s s'
        ∧ image_scale s' = (if digit_press key action
                            then to_uint32 (key - GLFW_KEY_0)
                            else image_scale s).
Proof.
  unfold key_callback, digit_press. run.
  destruct ((key =? GLFW_KEY_ESCAPE) && (action =? GLFW_PRESS));
    destruct ((GLFW_KEY_1 <=? key) && (key <=? GLFW_KEY_4)
              && (action =? GLFW_PRESS));
    try destruct (mods =? GLFW_MOD_SHIFT);
    cbv beta iota; eexists; (split; [reflexivity|]);
    (split; [constructor; try reflexivity; cbn [log];
             repeat (apply grows_cons; [reflexivity|]); apply grows_refl
            | reflexivity]).
Qed.

Lemma digit_press_range key action :
  digit_press key action = true → 1 ≤ to_uint32 (key - GLFW_KEY_0) ≤ 4.
Proof.
  unfold digit_press, to_uint32, GLFW_KEY_1, GLFW_KEY_4, GLFW_KEY_0.
  intros [[H1 H2]%andb_prop _]%andb_prop.
  apply Z.leb_le in H1, H2. rewrite Z.mod_small; lia.
Qed.

(** Polling events keeps the selection within 1..4. *)
Lemma dispatch_run events s :
  ∃ s', dispatch events s = Ret tt s'
        ∧ handled s s'
        ∧ (1 ≤ image_scale s ≤ 4 → 1 ≤ image_scale s' ≤ 4).
Proof.
  revert s. induction events as [|[key scancode action mods|] events IH];
    intros s.
  - exists s. split; [done|]. split; [apply handled_refl|done].
  - destruct (key_callback_run key scancode action mods s)
      as (s1 & E1 & H1 & Hscale).
    destruct (IH s1) as (s2 & E2 & H2 & Hrange).
    exists s2. split; [|split].
    + cbn [dispatch]. unfold bind. by rewrite E1.
    + by eapply handled_trans.
    + intros Hs. apply Hrange. rewrite Hscale.
      destruct (digit_press key action) eqn:Hd; [|done].
      by apply digit_press_range in Hd.
  - destruct (IH (set_should_close true s)) as (s2 & E2 & H2 & Hrange).
    exists s2. split; [done|]. split; [|done].
    eapply handled_trans; [|done]. constructor; try done. apply grows_refl.
Qed.

Lemma glfwPollEvents_run fi s :
  ∃ s', glfwPollEvents fi s = Ret tt s'
        ∧ handled s s'
        ∧ (1 ≤ image_scale s ≤ 4 → 1 ≤ image_scale s' ≤ 4).
Proof.
  destruct (dispatch_run (polled fi) (emit Ev.glfwPollEvents s))
    as (s' & E & H & Hrange).
  exists s'. split; [done|]. split; [|done].
  eapply handled_trans; [|done].
  constructor; try done. cbn [log emit].
  apply grows_cons; [done|apply grows_refl].
Qed.

(** *** One frame *)

Lemma at_index_Some v i x s :
  v !! Z.to_nat i = Some x → at_index v i s = Ret x s.
Proof. unfold at_index. by intros ->. Qed.

Lemma glBindTexture_2D t s :
  glBindTexture GL_TEXTURE_2D t s
  = Ret tt (set_texture_binding (<[active_texture s := t]> (texture_binding s))
              (emit (Ev.glBindTexture GL_TEXTURE_2D t) s)).
Proof. reflexivity. Qed.

(** With the selection in range, a frame makes its eight calls and draws
    once, with the program and lookup texture of the selected slot and
    what was bound to texture unit 0 before. *)
Lemma draw_frame_run L fi s p l :
  programs L !! Z.to_nat (image_scale s) = Some p →
  lut_textures L !! Z.to_nat (image_scale s) = Some l →
  ∃ s', draw_frame L fi s = Ret tt s'
        ∧ trace s' = trace s ++ frame_calls fi p l
        ∧ drawn s' = drawn s ++
            [{| draw_program := p;
                draw_unit0 := bound_texture s GL_TEXTURE0;
                draw_unit1 := l;
                draw_viewport := (0, 0, fb_width fi, fb_height fi);
                draw_count := 6 |}]
        ∧ image_scale s' = image_scale s
        ∧ image_width s' = image_width s
        ∧ image_height s' = image_height s
        ∧ should_close s' = should_close s
        ∧ bound_texture s' GL_TEXTURE0 = bound_texture s GL_TEXTURE0
        ∧ bound_texture s' GL_TEXTURE1 = l
        ∧ current_program s' = p.
Proof.
  intros Hp Hl. unfold draw_frame. run.
  rewrite (at_index_Some _ _ _ _ Hp). run.
  rewrite (at_index_Some _ _ _ _ Hl). run.
  rewrite glBindTexture_2D. run.
  eexists. split; [reflexivity|].
  unfold trace, drawn, bound_texture, frame_calls. cbn [log drawn_rev rev app
    texture_binding image_scale image_width image_height should_close
    current_program].
  rewrite <- !app_assoc. cbn [app].
  rewrite lookup_insert_ne by done. rewrite lookup_insert_eq.
  done.
Qed.

(** *** The render loop *)

Lemma selection_lookup (v : list Z) scale :
  length v = 5%nat → 1 ≤ scale ≤ 4 → is_Some (v !! Z.to_nat scale).
Proof. intros Hv Hs. apply lookup_lt_is_Some. lia. Qed.

Lemma glfwWindowShouldClose_run s :
  glfwWindowShouldClose s
  = Ret (should_close s) (emit Ev.glfwWindowShouldClose s).
Proof. reflexivity. Qed.

(** From a state that satisfies the loop invariant the render loop never
    ends the process: it returns with the invariant still true, having
    only added to the log and to the draws. *)
Lemma render_loop_run L frames s :
  length (programs L) = 5%nat → length (lut_textures L) = 5%nat →
  loop_invariant L s →
  ∃ ended s', render_loop L frames s = Ret ended s'
              ∧ loop_invariant L s'
              ∧ image_width s' = image_width s
              ∧ image_height s' = image_height s
              ∧ grows (log s) (log s')
              ∧ drawn_rev s `suffix_of` drawn_rev s'.
Proof.
  intros HP HT. revert s. induction frames as [|fi frames IH]; intros s Hinv.
  - cbn [render_loop]. unfold bind. rewrite glfwWindowShouldClose_run.
    destruct (should_close s);
      eexists _, _; (split; [reflexivity|]);
      (split; [exact Hinv|]); cbn [log drawn_rev emit];
      (split; [done|]); (split; [done|]);
      (split; [apply grows_cons; [done|apply grows_refl] | done]).
  - cbn [render_loop]. unfold bind at 1. rewrite glfwWindowShouldClose_run.
    destruct (should_close s) eqn:Hc.
    { eexists _, _. split; [reflexivity|]. split; [exact Hinv|].
      cbn [log drawn_rev emit]. split; [done|]. split; [done|].
      split; [apply grows_cons; [done|apply grows_refl] | done]. }
    set (s0 := emit Ev.glfwWindowShouldClose s).
    destruct Hinv as [Hscale Hunit0].
    destruct (selection_lookup (programs L) (image_scale s0) HP Hscale)
      as [p Hp].
    destruct (selection_lookup (lut_textures L) (image_scale s0) HT Hscale)
      as [l Hl].
    destruct (draw_frame_run L fi s0 p l Hp Hl)
      as (s1 & E1 & Ht1 & Hd1 & Hs1 & Hw1 & Hh1 & _ & Hu1 & _ & _).
    destruct (glfwPollEvents_run fi s1) as (s2 & E2 & H2 & Hr2).
    destruct (IH s2) as (ended & s3 & E3 & Hinv3 & Hw3 & Hh3 & Hl3 & Hd3).
    { split; [apply Hr2; by rewrite Hs1|].
      unfold bound_texture. rewrite (handled_binding _ _ H2).
      fold (bound_texture s1 GL_TEXTURE0). by rewrite Hu1. }
    exists ended, s3. unfold bind. rewrite E1, E2. split; [exact E3|].
    split; [exact Hinv3|].
    split; [rewrite Hw3, (handled_width _ _ H2), Hw1; done|].
    split; [rewrite Hh3, (handled_height _ _ H2), Hh1; done|].
    split.
    + eapply grows_trans; [|exact Hl3].
      eapply grows_trans; [|exact (handled_log _ _ H2)].
      apply (f_equal (@rev _)) in Ht1. unfold trace in Ht1.
      rewrite rev_app_distr, !rev_involutive in Ht1. rewrite Ht1.
      eapply grows_trans; [|by eexists]. subst s0. cbn [log emit].
      apply grows_cons; [done|apply grows_refl].
    + etrans; [|exact Hd3]. rewrite (handled_drawn _ _ H2).
      apply (f_equal (@rev _)) in Hd1. unfold drawn in Hd1.
      rewrite rev_app_distr, !rev_involutive in Hd1. rewrite Hd1.
      apply suffix_app_r. done.
Qed.

(** *** [main] as a whole *)

Lemma render_loop_more L frames fi rest s1 s2 :
  render_loop L frames s1 = Ret false s2 →
  render_loop L (frames ++ fi :: rest) s1
  = bind (draw_frame L fi)
      (λ _, bind (glfwPollEvents fi) (λ _, render_loop L rest)) s2.
Proof.
  set (next := bind (draw_frame L fi) _).
  revert s1. induction frames as [|f frames IH]; intros s1.
  - cbn [render_loop app]. fold next. unfold bind.
    rewrite !glfwWindowShouldClose_run.
    destruct (should_close s1); [done|]. by intros [= <-].
  - cbn [render_loop app]. unfold bind.
    rewrite !glfwWindowShouldClose_run.
    destruct (should_close s1); [done|].
    destruct (draw_frame L f _) as [[] s|]; [|done].
    destruct (glfwPollEvents f s) as [[] s'|]; [|done].
    apply IH.
Qed.

(** The compiles and links of a run that gets less far are among those
    of a run that gets further. *)
Lemma compiled_in_run_more cfg w base n m stage source :
  (n ≤ m)%nat →
  compiled_in_run cfg w base n stage source →
  compiled_in_run cfg w base m stage source.
Proof.
  intros Hnm [| |i st buffer Hi Hst Hfile].
  - apply compiles_vertex.
  - apply compiles_fragment.
  - apply compiles_file; [lia|done..].
Qed.

Lemma linked_in_run_more n m (shaders : Z * Z) :
  (n ≤ m)%nat → In shaders (linked_in_run n) → In shaders (linked_in_run m).
Proof.
  unfold linked_in_run. intros Hnm.
  destruct n as [|[|[|n]]]; destruct m as [|[|[|m]]]; try lia;
    cbn [take firstn In]; try tauto.
  all: rewrite ?take_nil; cbn [In]; tauto.
Qed.

Section Main.

Variable cfg : Config.
Variable w : World.

Lemma setup_usage argv s :
  (length argv < 2)%nat →
  setup cfg w argv s
  = Stop (Exited EXIT_FAILURE)
      (emit (Ev.print_stdout
               ("usage " +:+ arg argv 0 +:+ ": <hqx-shader folder> [image file]"
                +:+ nl)) s).
Proof.
  intros Hlen. unfold setup. cbv zeta.
  replace (Z.of_nat (length argv) <? 2) with true
    by (symmetry; apply Z.ltb_lt; lia).
  reflexivity.
Qed.

Lemma setup_startup argv s :
  (2 ≤ length argv)%nat →
  setup cfg w argv s = startup cfg w (arg argv 1) (image_path cfg argv) s.
Proof.
  intros Hlen. unfold setup. cbv zeta.
  replace (Z.of_nat (length argv) <? 2) with false
    by (symmetry; apply Z.ltb_ge; lia).
  reflexivity.
Qed.

(** What a completed startup hands to the render loop. *)
Lemma startup_ok_loop base image L s :
  startup_ok cfg w base image L s →
  length (programs L) = 5%nat ∧ length (lut_textures L) = 5%nat
  ∧ loop_invariant L s.
Proof.
  intros H. rewrite (ok_programs _ _ _ _ _ _ H), (ok_lut_textures _ _ _ _ _ _ H).
  unfold loop_invariant.
  rewrite (ok_scale _ _ _ _ _ _ H), (ok_unit0 _ _ _ _ _ _ H),
    (ok_texture _ _ _ _ _ _ H).
  repeat split; lia.
Qed.

Lemma main_eq argv frames s :
  main cfg w argv frames s
  = match setup cfg w argv s with
    | Ret L s1 =>
        match render_loop L frames s1 with
        | Ret ended s2 =>
            if ended
            then Stop (Exited EXIT_SUCCESS)
                   (emit Ev.glfwTerminate (emit Ev.glfwDestroyWindow s2))
            else Ret tt s2
        | Stop st s2 => Stop st s2
        end
    | Stop st s' => Stop st s'
    end.
Proof.
  unfold main, bind. destruct (setup cfg w argv s) as [L s1|]; [|done].
  destruct (render_loop L frames s1) as [[] s2|]; reflexivity.
Qed.

(** The outcome of [main]: the failure of the startup if it fails, and
    otherwise what the render loop returns, followed by the orderly
    exit if the loop has ended. *)
Lemma main_outcome argv frames :
  (2 ≤ length argv)%nat →
  match startup cfg w (arg argv 1) (image_path cfg argv) initial_state with
  | Stop st s => main cfg w argv frames initial_state = Stop st s
  | Ret L s1 =>
      ∃ ended s2,
        render_loop L frames s1 = Ret ended s2
        ∧ loop_invariant L s2
        ∧ image_width s2 = image_width s1
        ∧ image_height s2 = image_height s1
        ∧ grows (log s1) (log s2)
        ∧ drawn_rev s1 `suffix_of` drawn_rev s2
        ∧ main cfg w argv frames initial_state
          = if ended
            then Stop (Exited EXIT_SUCCESS)
                   (emit Ev.glfwTerminate (emit Ev.glfwDestroyWindow s2))
            else Ret tt s2
  end.
Proof.
  intros Hlen. rewrite main_eq, (setup_startup _ _ Hlen).
  pose proof (startup_outcome cfg w (arg argv 1) (image_path cfg argv)) as Ho.
  destruct (startup _ _ _ _ _) as [L s1|st s]; [|reflexivity].
  destruct (startup_ok_loop _ _ _ _ Ho) as (HP & HT & Hinv).
  destruct (render_loop_run L frames s1 HP HT Hinv)
    as (ended & s2 & E & Hinv2 & Hw & Hh & Hl & Hd).
  exists ended, s2. rewrite E. done.
Qed.

(** A runnable world excludes every failure of the startup but that of a
    lookup texture. *)
Lemma runnable_failure base image width height st s :
  runnable cfg w base image width height →
  startup_failure cfg w base image st s →
  ∃ i code text,
    lut_fails cfg w base i code text
    ∧ st = crash cfg
    ∧ ∃ l, log s = Ev.print_stderr ("Error: " +:+ text +:+ nl)
                   :: Ev.lodepng_decode
                        (base +:+ default "" (lut_files cfg !! i)) :: l
           ∧ startup_log image `suffix_of` l.
Proof.
  intros [Hinit Hwin [px Himg] Hfiles Hcompiles Hlinks] Hfail.
  destruct Hfail as [ code description E _ _ | code description _ E _ _
                    | code text _ _ Hdec _ _
                    | n stage source info_log _ Hn _ _ Hnd Hin Hlog _ _
                    | n vs fs info_log _ Hn _ _ Hin Hlog _ _
                    | i _ Hi Hfile _ _ _ _
                    | i _ Hi Hfile _ _ _
                    | i code text _ Hi Hdec _ Hbefore Hst Hl ].
  - congruence.
  - congruence.
  - congruence.
  - exfalso. destruct Hcompiles as [|Hc]; [congruence|].
    rewrite (Hc stage source) in Hlog; [discriminate Hlog|].
    by eapply compiled_in_run_more.
  - exfalso. rewrite (Hlinks vs fs) in Hlog; [discriminate Hlog|].
    by eapply linked_in_run_more.
  - exfalso. destruct (Hfiles i Hi) as (buffer & E & _). congruence.
  - exfalso. destruct (Hfiles i Hi) as (buffer & E & Hne). congruence.
  - by exists i, code, text.
Qed.

(** With valid assets the startup reaches the render loop. *)
Lemma startup_valid base image width height :
  valid_assets cfg w base image width height →
  ∃ L s, startup cfg w base image initial_state = Ret L s
         ∧ startup_ok cfg w base image L s
         ∧ image_width s = width ∧ image_height s = height.
Proof.
  intros [Hrun Hluts].
  pose proof (startup_outcome cfg w base image) as Ho.
  destruct (startup _ _ _ _ _) as [L s|st s].
  - exists L, s. split; [done|]. split; [done|].
    destruct (run_image _ _ _ _ _ _ Hrun) as [px E].
    destruct (ok_image _ _ _ _ _ _ Ho) as [px' E'].
    rewrite E in E'. by injection E'.
  - destruct Ho as (_ & _ & _ & Hfail).
    destruct (runnable_failure _ _ _ _ _ _ Hrun Hfail)
      as (i & code & text & (Hi & Hdec & _) & _).
    destruct (Hluts i Hi) as (px & lw & lh & E). congruence.
Qed.

(** The decoding of the image is the first decoding of a run whose log
    starts like that of [main]. *)
Lemma first_decode image l :
  startup_log image `suffix_of` l → head (decodes (rev l)) = Some image.
Proof.
  intros [k ->]. rewrite rev_app_distr. unfold decodes.
  rewrite omap_app. reflexivity.
Qed.

End Main.

(** ** The key handler (claims C3 and C10) *)

Lemma to_int_small z : 0 ≤ z ≤ INT_MAX → to_int (to_uint32 z) = z.
Proof.
  unfold to_int, to_uint32, INT_MAX. intros Hz.
  rewrite Z.mod_mod by lia. rewrite Z.mod_small by lia.
  destruct (z <? 2 ^ 31) eqn:E; [done|]. apply Z.ltb_ge in E. lia.
Qed.

Lemma to_int_wraps z :
  2 ^ 31 ≤ z < 2 ^ 32 → to_int (to_uint32 z) = z - 2 ^ 32.
Proof.
  unfold to_int, to_uint32. intros Hz.
  rewrite Z.mod_mod by lia. rewrite Z.mod_small by lia.
  destruct (z <? 2 ^ 31) eqn:E; [|done]. apply Z.ltb_lt in E. lia.
Qed.

(** A press of the digit key [k], for k from 1 to 4, selects [k], and
    then asks for a window of [k] times the size of the image unless
    [mods] is exactly [GLFW_MOD_SHIFT]. *)
Lemma key_callback_digit k scancode mods s :
  1 ≤ k ≤ 4 →
  key_callback (GLFW_KEY_0 + k) scancode GLFW_PRESS mods s
  = Ret tt
      (if mods =? GLFW_MOD_SHIFT
       then set_image_scale k s
       else emit (Ev.glfwSetWindowSize
                    (to_int (to_uint32 (image_width s * k)))
                    (to_int (to_uint32 (image_height s * k))))
              (set_image_scale k s)).
Proof.
  intros Hk. unfold key_callback.
  replace (GLFW_KEY_0 + k =? GLFW_KEY_ESCAPE) with false
    by (symmetry; apply Z.eqb_neq; unfold GLFW_KEY_0, GLFW_KEY_ESCAPE; lia).
  replace (GLFW_KEY_1 <=? GLFW_KEY_0 + k) with true
    by (symmetry; apply Z.leb_le; unfold GLFW_KEY_0, GLFW_KEY_1; lia).
  replace (GLFW_KEY_0 + k <=? GLFW_KEY_4) with true
    by (symmetry; apply Z.leb_le; unfold GLFW_KEY_0, GLFW_KEY_4; lia).
  replace (to_uint32 (GLFW_KEY_0 + k - GLFW_KEY_0)) with k
    by (unfold to_uint32; rewrite Z.mod_small; lia).
  rewrite Z.eqb_refl. cbn [andb].
  destruct (mods =? GLFW_MOD_SHIFT); reflexivity.
Qed.

Lemma trace_emit c s : trace (emit c s) = trace s ++ [c].
Proof. reflexivity. Qed.

Lemma trace_set_image_scale v s : trace (set_image_scale v s) = trace s.
Proof. reflexivity. Qed.

(** C3, as the code has it: for every digit key k in 1..4, a press with
    no modifier held selects k and requests a window of
    (image width * k) by (image height * k), the products being those of
    [uint32_t] passed as [int], which are the exact products whenever
    they fit an [int]; a press with Shift alone held selects k and leaves
    the window size unchanged. *)
Theorem digit_key_selects_and_resizes k scancode s :
  1 ≤ k ≤ 4 →
  (∃ s', key_callback (GLFW_KEY_0 + k) scancode GLFW_PRESS 0 s = Ret tt s'
         ∧ image_scale s' = k
         ∧ trace s' = trace s ++
             [Ev.glfwSetWindowSize (to_int (to_uint32 (image_width s * k)))
                                   (to_int (to_uint32 (image_height s * k)))])
  ∧ (∃ s', key_callback (GLFW_KEY_0 + k) scancode GLFW_PRESS GLFW_MOD_SHIFT s
           = Ret tt s'
           ∧ image_scale s' = k
           ∧ trace s' = trace s)
  ∧ (0 ≤ image_width s * k ≤ INT_MAX →
     to_int (to_uint32 (image_width s * k)) = image_width s * k)
  ∧ (0 ≤ image_height s * k ≤ INT_MAX →
     to_int (to_uint32 (image_height s * k)) = image_height s * k).
Proof.
  intros Hk. split; [|split; [|split]].
  - eexists. rewrite key_callback_digit by done. done.
  - eexists. rewrite key_callback_digit by done. done.
  - apply to_int_small.
  - apply to_int_small.
Qed.

Lemma digit_key_selects_and_resizes_witness :
  1 ≤ 3 ≤ 4
  ∧ (∃ s', key_callback (GLFW_KEY_0 + 3) 0 GLFW_PRESS 0 sample_state
           = Ret tt s'
           ∧ image_scale s' = 3
           ∧ trace s' = [Ev.glfwSetWindowSize 48 48])
  ∧ (∃ s', key_callback (GLFW_KEY_0 + 3) 0 GLFW_PRESS GLFW_MOD_SHIFT
             sample_state = Ret tt s'
           ∧ image_scale s' = 3
           ∧ trace s' = []).
Proof.
  split; [lia|].
  destruct (digit_key_selects_and_resizes 3 0 sample_state) as (H1 & H2 & _);
    [lia|].
  split; [exact H1 | exact H2].
Defined.

(** C3 as stated fails: with the Control key held, which is a modifier,
    a press of 3 still resizes the window of a 16 by 16 image, to 48 by
    48. *)
Lemma control_digit_still_resizes :
  ∃ s', key_callback (GLFW_KEY_0 + 3) 0 GLFW_PRESS GLFW_MOD_CONTROL
          sample_state = Ret tt s'
        ∧ image_scale s' = 3
        ∧ trace s' = trace sample_state ++ [Ev.glfwSetWindowSize 48 48]
        ∧ trace s' ≠ trace sample_state.
Proof. eexists. split; [reflexivity|]. repeat split. discriminate. Qed.

(** C10: for every press of a digit key 1..4 with modifier bits [mods],
    the selection becomes the digit whatever [mods] is, and the resize
    is suppressed if and only if [mods] is exactly [GLFW_MOD_SHIFT];
    with any other value, no modifier or Shift together with another
    one included, the window is resized. *)
Theorem resize_suppressed_iff_shift_alone k scancode mods s :
  1 ≤ k ≤ 4 →
  ∃ s', key_callback (GLFW_KEY_0 + k) scancode GLFW_PRESS mods s = Ret tt s'
        ∧ image_scale s' = k
        ∧ (trace s' = trace s ↔ mods = GLFW_MOD_SHIFT)
        ∧ (mods ≠ GLFW_MOD_SHIFT →
           trace s' = trace s ++
             [Ev.glfwSetWindowSize (to_int (to_uint32 (image_width s * k)))
                                   (to_int (to_uint32 (image_height s * k)))]).
Proof.
  intros Hk. eexists. rewrite key_callback_digit by done.
  split; [reflexivity|].
  destruct (Z.eqb_spec mods GLFW_MOD_SHIFT) as [->|Hne].
  - split; [reflexivity|]. split; [done|]. done.
  - split; [reflexivity|]. rewrite trace_emit, trace_set_image_scale.
    split; [|done]. split; [|done].
    intros E. apply (f_equal length) in E. rewrite length_app in E.
    cbn [length] in E. lia.
Qed.

Lemma resize_suppressed_iff_shift_alone_witness :
  1 ≤ 3 ≤ 4
  ∧ ∃ s', key_callback (GLFW_KEY_0 + 3) 0 GLFW_PRESS
            (GLFW_MOD_SHIFT + GLFW_MOD_CONTROL) sample_state = Ret tt s'
          ∧ image_scale s' = 3
          ∧ trace s' = [Ev.glfwSetWindowSize 48 48].
Proof.
  split; [lia|].
  destruct (resize_suppressed_iff_shift_alone 3 0
              (GLFW_MOD_SHIFT + GLFW_MOD_CONTROL) sample_state)
    as (s' & E & Hs & _ & Ht); [lia|].
  exists s'. split; [exact E|]. split; [exact Hs|]. apply Ht. done.
Defined.

(** ** Failed compiles (claim C2) *)

Lemma stderr_lines_app l1 l2 :
  stderr_lines (l1 ++ l2) = stderr_lines l1 ++ stderr_lines l2.
Proof. apply omap_app. Qed.





(** ** The selection stays in range (claim C4) *)

(** C4: whatever the world and the input, [main] never reads one of its
    vectors out of range; when the startup completes, the selection
    after any number of frames is between 1 and 4 and is an index of
    both vectors, which have five entries; an event that is not a press
    of one of the digit keys 1 to 4 leaves the selection as it is, and
    such a press sets it to the digit. *)
Theorem selection_always_in_range cfg w argv frames :
  (∀ s, main cfg w argv frames initial_state ≠ Stop OutOfRange s)
  ∧ (∀ L s1, setup cfg w argv initial_state = Ret L s1 →
       ∃ ended s2,
         render_loop L frames s1 = Ret ended s2
         ∧ 1 ≤ image_scale s2 ≤ 4
         ∧ is_Some (programs L !! Z.to_nat (image_scale s2))
         ∧ is_Some (lut_textures L !! Z.to_nat (image_scale s2)))
  ∧ (∀ key scancode action mods s,
       ∃ s', key_callback key scancode action mods s = Ret tt s'
             ∧ (digit_press key action = false →
                image_scale s' = image_scale s)
             ∧ (digit_press key action = true →
                image_scale s' = key - GLFW_KEY_0 ∧ 1 ≤ image_scale s' ≤ 4))
  ∧ (∀ s, ∃ s', dispatch [CloseRequest] s = Ret tt s'
                ∧ image_scale s' = image_scale s).
Proof.
  split; [|split; [|split]].
  - intros s. destruct (Nat.lt_ge_cases (length argv) 2) as [Hlen|Hlen].
    + rewrite main_eq, setup_usage by done. done.
    + pose proof (main_outcome cfg w argv frames Hlen) as Hm.
      pose proof (startup_outcome cfg w (arg argv 1) (image_path cfg argv))
        as Ho.
      destruct (startup _ _ _ _ _) as [L s1|st s'].
      * destruct Hm as (ended & s2 & _ & _ & _ & _ & _ & _ & ->).
        by destruct ended.
      * rewrite Hm. destruct Ho as [Hst _]. congruence.
  - intros L s1 Hsetup.
    destruct (Nat.lt_ge_cases (length argv) 2) as [Hlen|Hlen];
      [by rewrite setup_usage in Hsetup|].
    rewrite setup_startup in Hsetup by done.
    pose proof (startup_outcome cfg w (arg argv 1) (image_path cfg argv))
      as Ho.
    rewrite Hsetup in Ho.
    destruct (startup_ok_loop _ _ _ _ _ _ Ho) as (HP & HT & Hinv).
    destruct (render_loop_run L frames s1 HP HT Hinv)
      as (ended & s2 & E & [Hscale _] & _).
    exists ended, s2. split; [done|]. split; [done|].
    split; by apply selection_lookup.
  - intros key scancode action mods s.
    destruct (key_callback_run key scancode action mods s)
      as (s' & E & _ & Hs).
    exists s'. split; [done|]. rewrite Hs. split; intros Hd; rewrite Hd.
    + done.
    + pose proof (digit_press_range _ _ Hd) as Hr. split; [|done].
      revert Hd. unfold digit_press, to_uint32, GLFW_KEY_1, GLFW_KEY_4,
        GLFW_KEY_0. intros [[H1 H2]%andb_prop _]%andb_prop.
      apply Z.leb_le in H1, H2. rewrite Z.mod_small; lia.
  - intros s. eexists. split; reflexivity.
Qed.

Lemma selection_always_in_range_witness :
  setup debug_build sample_world sample_argv initial_state
  = Ret sample_locals sample_started
  ∧ ∃ ended s2,
      render_loop sample_locals [sample_frame] sample_started = Ret ended s2
      ∧ 1 ≤ image_scale s2 ≤ 4
      ∧ is_Some (programs sample_locals !! Z.to_nat (image_scale s2))
      ∧ is_Some (lut_textures sample_locals !! Z.to_nat (image_scale s2)).
Proof.
  assert (E : setup debug_build sample_world sample_argv initial_state
              = Ret sample_locals sample_started) by (vm_compute; reflexivity).
  split; [exact E|].
  destruct (selection_always_in_range debug_build sample_world sample_argv
              [sample_frame]) as (_ & H & _).
  exact (H sample_locals sample_started E).
Defined.

(** ** One frame (claim C5) *)

(** C5: in every frame of the render loop -- [s2] being the state in
    which the loop stands after any number of frames, about to go on --
    the calls are, in this order: the query of the framebuffer size, the
    viewport set to that size, the clear of the color buffer, the
    activation of the program of the selected slot, the selection of
    texture unit 1 and the binding of the lookup texture of the slot,
    one indexed draw of 6 indices as triangles, and the buffer swap.
    The draw is made with the texture of the image on unit 0, where it
    has been since the startup, and with the lookup texture of the slot
    on unit 1, which is the null texture exactly for the pass-through
    slot 1.  The frame is the next one of the run. *)
Theorem frame_draws_selected_slot cfg w argv L s1 frames s2 fi :
  setup cfg w argv initial_state = Ret L s1 →
  render_loop L frames s1 = Ret false s2 →
  ∃ p l s3,
    programs L !! Z.to_nat (image_scale s2) = Some p
    ∧ lut_textures L !! Z.to_nat (image_scale s2) = Some l
    ∧ draw_frame L fi s2 = Ret tt s3
    ∧ trace s3 = trace s2 ++
        [ Ev.glfwGetFramebufferSize;
          Ev.glViewport 0 0 (fb_width fi) (fb_height fi);
          Ev.glClear GL_COLOR_BUFFER_BIT;
          Ev.glUseProgram p;
          Ev.glActiveTexture GL_TEXTURE1;
          Ev.glBindTexture GL_TEXTURE_2D l;
          Ev.glDrawElements GL_TRIANGLES 6 GL_UNSIGNED_BYTE [0; 1; 2; 0; 2; 3];
          Ev.glfwSwapBuffers ]
    ∧ drawn s3 = drawn s2 ++
        [{| draw_program := p;
            draw_unit0 := texture L;
            draw_unit1 := l;
            draw_viewport := (0, 0, fb_width fi, fb_height fi);
            draw_count := 6 |}]
    ∧ texture L ≠ 0
    ∧ p ≠ 0
    ∧ (l = 0 ↔ image_scale s2 = 1)
    ∧ ∀ rest, render_loop L (frames ++ fi :: rest) s1
              = bind (glfwPollEvents fi) (λ _, render_loop L rest) s3.
Proof.
  intros Hsetup Hloop.
  destruct (Nat.lt_ge_cases (length argv) 2) as [Hlen|Hlen];
    [by rewrite setup_usage in Hsetup|].
  rewrite setup_startup in Hsetup by done.
  pose proof (startup_outcome cfg w (arg argv 1) (image_path cfg argv)) as Ho.
  rewrite Hsetup in Ho.
  destruct (startup_ok_loop _ _ _ _ _ _ Ho) as (HP & HT & Hinv).
  destruct (render_loop_run L frames s1 HP HT Hinv)
    as (ended & s2' & E & [Hscale Hunit0] & _).
  rewrite Hloop in E. injection E as <- <-.
  destruct (selection_lookup (programs L) (image_scale s2) HP Hscale)
    as [p Hp].
  destruct (selection_lookup (lut_textures L) (image_scale s2) HT Hscale)
    as [l Hl].
  destruct (draw_frame_run L fi s2 p l Hp Hl) as (s3 & E3 & Ht & Hd & _).
  exists p, l, s3. rewrite Hunit0 in Hd.
  repeat (split; [done|]).
  pose proof (ok_texture _ _ _ _ _ _ Ho) as Htex.
  pose proof (ok_programs _ _ _ _ _ _ Ho) as Hprogs.
  pose proof (ok_lut_textures _ _ _ _ _ _ Ho) as Hluts.
  rewrite Hprogs in Hp. rewrite Hluts in Hl.
  split; [lia|].
  assert (Hcases : image_scale s2 = 1 ∨ image_scale s2 = 2
                   ∨ image_scale s2 = 3 ∨ image_scale s2 = 4) by lia.
  split; [|split].
  - destruct Hcases as [E|[E|[E|E]]]; rewrite E in Hp;
      injection Hp as <-; done.
  - destruct Hcases as [E|[E|[E|E]]]; rewrite E in Hl;
      injection Hl as <-; rewrite E; done.
  - intros rest. rewrite (render_loop_more _ _ _ _ _ _ Hloop).
    unfold bind at 1. by rewrite E3.
Qed.

Lemma frame_draws_selected_slot_witness :
  setup debug_build sample_world sample_argv initial_state
  = Ret sample_locals sample_started
  ∧ render_loop sample_locals [sample_frame] sample_started
    = Ret false sample_running
  ∧ ∃ s3,
      draw_frame sample_locals idle_frame sample_running = Ret tt s3
      ∧ drawn s3 = drawn sample_running ++
          [{| draw_program := 9;
              draw_unit0 := 1;
              draw_unit1 := 3;
              draw_viewport := (0, 0, 48, 48);
              draw_count := 6 |}].
Proof.
  assert (E1 : setup debug_build sample_world sample_argv initial_state
               = Ret sample_locals sample_started) by (vm_compute; reflexivity).
  assert (E2 : render_loop sample_locals [sample_frame] sample_started
               = Ret false sample_running) by (vm_compute; reflexivity).
  split; [exact E1|]. split; [exact E2|].
  destruct (frame_draws_selected_slot debug_build sample_world sample_argv
              sample_locals sample_started [sample_frame] sample_running
              idle_frame E1 E2)
    as (p & l & s3 & Hp & Hl & E3 & _ & Hd & _).
  exists s3. split; [exact E3|].
  assert (Hp' : programs sample_locals
                !! Z.to_nat (image_scale sample_running) = Some 9)
    by (vm_compute; reflexivity).
  assert (Hl' : lut_textures sample_locals
                !! Z.to_nat (image_scale sample_running) = Some 3)
    by (vm_compute; reflexivity).
  rewrite Hp' in Hp. rewrite Hl' in Hl.
  injection Hp as <-. injection Hl as <-. exact Hd.
Defined.

(** ** The registry after the startup (claims C1, C6 and C7) *)

Lemma trace_last c l s : log s = c :: l → last (trace s) = Some c.
Proof. unfold trace. intros ->. cbn [rev]. apply last_snoc. Qed.

Lemma filter_trace (P : Call → bool) s :
  List.filter P (trace s) = rev (List.filter P (log s)).
Proof.
  unfold trace. induction (log s) as [|c l IH]; [done|].
  cbn [rev List.filter]. rewrite List.filter_app, IH. cbn [List.filter].
  destruct (P c); cbn [rev]; [done|]. by rewrite app_nil_r.
Qed.

Lemma In_trace c s : In c (log s) → In c (trace s).
Proof. unfold trace. apply in_rev. Qed.

Lemma filter_built_slot cfg w base i vertex_shader fragment_shader p l
    width height s :
  filter_built cfg w base i vertex_shader fragment_shader p l width height
    (log s) →
  slot_built cfg w base i p l (trace s).
Proof.
  intros [(buffer & Hfile & Hne & Hv & Hf) (Hav & Haf & Hlink) _
          (pixels & lw & lh & Hdec & Hgen & Himg)].
  constructor.
  - exists buffer, vertex_shader, fragment_shader.
    split; [exact Hfile|]. split; [exact Hne|].
    repeat split; by apply In_trace.
  - exists pixels, lw, lh. split; [exact Hdec|]. split; by apply In_trace.
Qed.


Lemma sample_world_valid :
  valid_assets debug_build sample_world (arg sample_argv 1)
    (image_path debug_build sample_argv) 16 16.
Proof.
  split; [constructor|].
  - reflexivity.
  - reflexivity.
  - eexists. reflexivity.
  - intros [|[|[|i]]] Hi; [eexists; split; [reflexivity|discriminate]..|lia].
  - right. intros stage source _. reflexivity.
  - intros vertex_shader fragment_shader _. reflexivity.
  - intros [|[|[|i]]] Hi; [do 3 eexists; reflexivity..|lia].
Defined.




(** C6, as the code has it: for a run started with a valid image of
    width W and height H, the selection is 2 when the render loop is
    entered; the last call before the loop, and the only resize of the
    startup, asks for a window of (W * 2) by (H * 2) computed in
    [uint32_t] and passed as [int]: the exact product when it is at most
    [INT_MAX], the product minus 2^32, a negative number, when it is
    from 2^31 up to 2^32 - 1.  Nothing has been drawn by then, and the
    first draw of any run that has a first frame uses the program and
    the lookup texture of slot 2, which are those built from the first
    shader file and lookup image, hq2x. *)
Theorem default_scale_is_two cfg w argv width height :
  (2 ≤ length argv)%nat →
  valid_assets cfg w (arg argv 1) (image_path cfg argv) width height →
  ∃ L s1 p l,
    setup cfg w argv initial_state = Ret L s1
    ∧ image_scale s1 = 2
    ∧ last (trace s1)
      = Some (Ev.glfwSetWindowSize (to_int (to_uint32 (width * 2)))
                                   (to_int (to_uint32 (height * 2))))
    ∧ List.filter is_resize (trace s1)
      = [Ev.glfwSetWindowSize (to_int (to_uint32 (width * 2)))
                              (to_int (to_uint32 (height * 2)))]
    ∧ (0 ≤ width * 2 ≤ INT_MAX → to_int (to_uint32 (width * 2)) = width * 2)
    ∧ (0 ≤ height * 2 ≤ INT_MAX →
       to_int (to_uint32 (height * 2)) = height * 2)
    ∧ (2 ^ 31 ≤ width * 2 < 2 ^ 32 →
       to_int (to_uint32 (width * 2)) = width * 2 - 2 ^ 32)
    ∧ (2 ^ 31 ≤ height * 2 < 2 ^ 32 →
       to_int (to_uint32 (height * 2)) = height * 2 - 2 ^ 32)
    ∧ drawn s1 = []
    ∧ programs L !! 2%nat = Some p
    ∧ lut_textures L !! 2%nat = Some l
    ∧ slot_built cfg w (arg argv 1) 0 p l (trace s1)
    ∧ ∀ fi rest, ∃ more,
        drawn (final (main cfg w argv (fi :: rest) initial_state))
        = {| draw_program := p;
             draw_unit0 := texture L;
             draw_unit1 := l;
             draw_viewport := (0, 0, fb_width fi, fb_height fi);
             draw_count := 6 |} :: more.
Proof.
  intros Hlen Hvalid.
  destruct (startup_valid _ _ _ _ _ _ Hvalid) as (L & s1 & E & Ho & Hw & Hh).
  exists L, s1, 6, 2. rewrite setup_startup by done. split; [done|].
  pose proof (ok_scale _ _ _ _ _ _ Ho) as Hscale.
  pose proof (ok_programs _ _ _ _ _ _ Ho) as Hprogs.
  pose proof (ok_lut_textures _ _ _ _ _ _ Ho) as Hluts.
  pose proof (ok_drawn _ _ _ _ _ _ Ho) as Hdrawn.
  destruct (ok_resize _ _ _ _ _ _ Ho) as (l' & Hlog & Hfilter).
  rewrite Hw, Hh in Hlog.
  split; [done|]. split; [by eapply trace_last|].
  split; [rewrite filter_trace, Hlog; cbn [List.filter is_resize];
          by rewrite Hfilter|].
  split; [apply to_int_small|]. split; [apply to_int_small|].
  split; [apply to_int_wraps|]. split; [apply to_int_wraps|].
  split; [unfold drawn; by rewrite Hdrawn|].
  split; [by rewrite Hprogs|]. split; [by rewrite Hluts|].
  split; [exact (filter_built_slot _ _ _ _ _ _ _ _ _ _ _
                   (ok_hq2x _ _ _ _ _ _ Ho))|].
  intros fi rest.
  destruct (startup_ok_loop _ _ _ _ _ _ Ho) as (HP & HT & [Hs Hunit0]).
  pose proof (ok_open _ _ _ _ _ _ Ho) as Hopen.
  set (s0 := emit Ev.glfwWindowShouldClose s1).
  assert (Hp : programs L !! Z.to_nat (image_scale s0) = Some 6)
    by (rewrite Hprogs; cbn [image_scale s0 emit]; by rewrite Hscale).
  assert (Hl : lut_textures L !! Z.to_nat (image_scale s0) = Some 2)
    by (rewrite Hluts; cbn [image_scale s0 emit]; by rewrite Hscale).
  destruct (draw_frame_run L fi s0 6 2 Hp Hl)
    as (s2 & E2 & _ & Hd2 & Hs2 & _ & _ & _ & Hu2 & _ & _).
  destruct (glfwPollEvents_run fi s2) as (s3 & E3 & H3 & Hr3).
  destruct (render_loop_run L rest s3 HP HT)
    as (ended & s4 & E4 & _ & _ & _ & _ & [k Hk]).
  { split; [apply Hr3; rewrite Hs2; exact Hs|].
    unfold bound_texture. rewrite (handled_binding _ _ H3).
    fold (bound_texture s2 GL_TEXTURE0). by rewrite Hu2. }
  assert (Hloop : render_loop L (fi :: rest) s1 = Ret ended s4).
  { cbn [render_loop]. unfold bind. rewrite glfwWindowShouldClose_run, Hopen.
    fold s0. by rewrite E2, E3. }
  rewrite main_eq, setup_startup, E, Hloop by done.
  exists (rev k).
  assert (Hfinal : drawn_rev s4
                   = k ++ [{| draw_program := 6;
                              draw_unit0 := texture L;
                              draw_unit1 := 2;
                              draw_viewport := (0, 0, fb_width fi, fb_height fi);
                              draw_count := 6 |}]).
  { rewrite Hk, (handled_drawn _ _ H3).
    apply (f_equal (@rev _)) in Hd2. unfold drawn in Hd2.
    rewrite rev_app_distr, !rev_involutive in Hd2. rewrite Hd2.
    cbn [drawn_rev s0 emit]. rewrite Hdrawn. cbn [rev app].
    unfold bound_texture. cbn [texture_binding s0 emit].
    fold (bound_texture s1 GL_TEXTURE0). by rewrite Hunit0. }
  destruct ended; unfold final, drawn; cbn [drawn_rev emit];
    rewrite Hfinal, rev_app_distr; reflexivity.
Qed.

Lemma default_scale_is_two_witness :
  (2 ≤ length sample_argv)%nat
  ∧ valid_assets debug_build sample_world (arg sample_argv 1)
      (image_path debug_build sample_argv) 16 16
  ∧ ∃ L s1,
      setup debug_build sample_world sample_argv initial_state = Ret L s1
      ∧ image_scale s1 = 2
      ∧ last (trace s1) = Some (Ev.glfwSetWindowSize 32 32).
Proof.
  assert (Hlen : (2 ≤ length sample_argv)%nat) by (cbn; lia).
  split; [exact Hlen|]. split; [exact sample_world_valid|].
  destruct (default_scale_is_two debug_build sample_world sample_argv
              16 16 Hlen sample_world_valid)
    as (L & s1 & p & l & E & Hs & Hlast & _).
  exists L, s1. split; [exact E|]. split; [exact Hs | exact Hlast].
Defined.

Lemma wide_image_world_valid :
  valid_assets debug_build wide_image_world (arg sample_argv 1)
    (image_path debug_build sample_argv) (2 ^ 30) 16.
Proof.
  split; [constructor|].
  - reflexivity.
  - reflexivity.
  - eexists. reflexivity.
  - intros [|[|[|i]]] Hi; [eexists; split; [reflexivity|discriminate]..|lia].
  - right. intros stage source _. reflexivity.
  - intros vertex_shader fragment_shader _. reflexivity.
  - intros [|[|[|i]]] Hi; [do 3 eexists; reflexivity..|lia].
Qed.

(** C6 as stated fails: for the sample directory with an image 2^30
    pixels wide and 16 high, a valid one, the startup completes with the
    selection 2, and its resize asks for a width of -2^31 and not for
    2^30 * 2. *)
Lemma default_resize_is_not_the_product :
  valid_assets debug_build wide_image_world (arg sample_argv 1)
    (image_path debug_build sample_argv) (2 ^ 30) 16
  ∧ setup debug_build wide_image_world sample_argv initial_state
    = Ret sample_locals wide_image_started
  ∧ image_scale wide_image_started = 2
  ∧ last (trace wide_image_started)
    = Some (Ev.glfwSetWindowSize (- 2 ^ 31) 32)
  ∧ List.filter is_resize (trace wide_image_started)
    ≠ [Ev.glfwSetWindowSize (2 ^ 30 * 2) (16 * 2)].
Proof.
  split; [exact wide_image_world_valid|].
  split; [vm_compute; reflexivity|]. split; [vm_compute; reflexivity|].
  split; [vm_compute; reflexivity|]. vm_compute. discriminate.
Qed.

(** C7: when the startup completes, for each of the filter slots 2, 3
    and 4 the writes to uniforms made while the program of the slot is
    in use are exactly four, in this order: the matrix, the sampler
    "Texture" set to unit 0, the sampler "LUT" set to unit 1, and
    "TextureSize", written once, with the width and height to which the
    image file was decoded, converted to [float].  This is so at the
    start of the render loop and stays so to the end of any run: the
    loop writes no uniform. *)
Theorem texture_size_uniform_set_once cfg w argv L s1 :
  setup cfg w argv initial_state = Ret L s1 →
  ∃ pixels width height,
    decode_file w (image_path cfg argv) = Image pixels width height
    ∧ ∀ i p, (2 ≤ i ≤ 4)%nat → programs L !! i = Some p →
        let writes :=
          [ Ev.glUniformMatrix4fv p
              {| loc_program := p; loc_name := "MVPMatrix" |}
              1 GL_FALSE mat4x4_identity;
            Ev.glUniform1i p {| loc_program := p; loc_name := "Texture" |} 0;
            Ev.glUniform1i p {| loc_program := p; loc_name := "LUT" |} 1;
            Ev.glUniform2f p
              {| loc_program := p; loc_name := "TextureSize" |}
              (float_of_uint32 width) (float_of_uint32 height) ] in
        List.filter (uniform_write_in p) (trace s1) = writes
        ∧ ∀ frames,
            List.filter (uniform_write_in p)
              (trace (final (main cfg w argv frames initial_state)))
            = writes.
Proof.
  intros Hsetup.
  destruct (Nat.lt_ge_cases (length argv) 2) as [Hlen|Hlen];
    [by rewrite setup_usage in Hsetup|].
  rewrite setup_startup in Hsetup by done.
  pose proof (startup_outcome cfg w (arg argv 1) (image_path cfg argv)) as Ho.
  rewrite Hsetup in Ho.
  destruct (ok_image _ _ _ _ _ _ Ho) as [pixels Himage].
  exists pixels, (image_width s1), (image_height s1). split; [done|].
  intros i p Hi Hp writes. rewrite (ok_programs _ _ _ _ _ _ Ho) in Hp.
  assert (Hstart : List.filter (uniform_write_in p) (log s1) = rev writes).
  { destruct i as [|[|[|[|[|i]]]]]; try lia; injection Hp as <-.
    - exact (built_uniforms _ _ _ _ _ _ _ _ _ _ _ (ok_hq2x _ _ _ _ _ _ Ho)).
    - exact (built_uniforms _ _ _ _ _ _ _ _ _ _ _ (ok_hq3x _ _ _ _ _ _ Ho)).
    - exact (built_uniforms _ _ _ _ _ _ _ _ _ _ _ (ok_hq4x _ _ _ _ _ _ Ho)). }
  split; [by rewrite filter_trace, Hstart, rev_involutive|].
  intros frames. pose proof (main_outcome cfg w argv frames Hlen) as Hm.
  rewrite Hsetup in Hm.
  destruct Hm as (ended & s2 & _ & _ & _ & _ & Hgrows & _ & ->).
  rewrite filter_trace.
  replace (List.filter (uniform_write_in p)
             (log (final (if ended
                          then Stop (Exited EXIT_SUCCESS)
                                 (emit Ev.glfwTerminate
                                    (emit Ev.glfwDestroyWindow s2))
                          else Ret tt s2))))
    with (List.filter (uniform_write_in p) (log s2))
    by (by destruct ended).
  by rewrite (grows_uniforms _ _ _ Hgrows), Hstart, rev_involutive.
Qed.

Lemma texture_size_uniform_set_once_witness :
  setup debug_build sample_world sample_argv initial_state
  = Ret sample_locals sample_started
  ∧ List.filter (uniform_write_in 9) (trace sample_started)
    = [ Ev.glUniformMatrix4fv 9
          {| loc_program := 9; loc_name := "MVPMatrix" |}
          1 GL_FALSE mat4x4_identity;
        Ev.glUniform1i 9 {| loc_program := 9; loc_name := "Texture" |} 0;
        Ev.glUniform1i 9 {| loc_program := 9; loc_name := "LUT" |} 1;
        Ev.glUniform2f 9 {| loc_program := 9; loc_name := "TextureSize" |}
          (float_of_uint32 16) (float_of_uint32 16) ].
Proof.
  assert (E : setup debug_build sample_world sample_argv initial_state
              = Ret sample_locals sample_started) by (vm_compute; reflexivity).
  split; [exact E|].
  destruct (texture_size_uniform_set_once debug_build sample_world sample_argv
              sample_locals sample_started E)
    as (pixels & width & height & Hdec & H).
  assert (Hwh : width = 16 ∧ height = 16).
  { assert (Hd : decode_file sample_world (image_path debug_build sample_argv)
                 = Image [] 16 16) by reflexivity.
    rewrite Hd in Hdec. injection Hdec as _ <- <-. split; reflexivity. }
  destruct Hwh as [-> ->].
  assert (Hi : (2 ≤ 3 ≤ 4)%nat) by lia.
  destruct (H 3%nat 9 Hi eq_refl) as [Hwrites _]. exact Hwrites.
Defined.

(** ** The command line (claim C8) *)

(** When GLFW works, the first file handed to the decoder in a run of
    [main] with at least one argument is the image path. *)
Lemma main_first_decode cfg w argv frames :
  (2 ≤ length argv)%nat →
  glfwInit_error w = None → glfwCreateWindow_error w = None →
  head (decodes (trace (final (main cfg w argv frames initial_state))))
  = Some (image_path cfg argv).
Proof.
  intros Hlen Hinit Hwin. apply first_decode.
  pose proof (main_outcome cfg w argv frames Hlen) as Hm.
  pose proof (startup_outcome cfg w (arg argv 1) (image_path cfg argv)) as Ho.
  destruct (startup _ _ _ _ _) as [L s1|st s].
  - destruct Hm as (ended & s2 & _ & _ & _ & _ & Hl & _ & ->).
    assert (Hs : startup_log (image_path cfg argv) `suffix_of` log s2)
      by (etrans; [exact (ok_start _ _ _ _ _ _ Ho) | by apply grows_suffix]).
    destruct ended; cbn [final log emit]; [|exact Hs].
    by do 2 apply suffix_cons_r.
  - rewrite Hm. destruct Ho as (_ & _ & Hs & _). by apply Hs.
Qed.

(** C8: with no argument after the program name, [main] prints the
    usage message and exits with the failure status, having made no
    other call; with one argument, the image it decodes first, which is
    the one it displays, is the sample image under that directory; with
    two or more, it is the second argument.  The last two hold whenever
    GLFW lets the run reach the decoding. *)
Theorem usage_and_image_path cfg w argv frames :
  ((length argv < 2)%nat →
   ∃ s, main cfg w argv frames initial_state = Stop (Exited EXIT_FAILURE) s
        ∧ EXIT_FAILURE ≠ 0
        ∧ trace s
          = [Ev.print_stdout ("usage " +:+ arg argv 0
                              +:+ ": <hqx-shader folder> [image file]"
                              +:+ nl)])
  ∧ (glfwInit_error w = None → glfwCreateWindow_error w = None →
     (∀ program base, argv = [program; base] →
        head (decodes (trace (final (main cfg w argv frames initial_state))))
        = Some (base +:+ sep cfg +:+ "sample" +:+ sep cfg +:+ "pixelart0.png"))
     ∧ (∀ program base image rest, argv = program :: base :: image :: rest →
        head (decodes (trace (final (main cfg w argv frames initial_state))))
        = Some image)).
Proof.
  split.
  - intros Hlen. eexists. rewrite main_eq, setup_usage by done.
    split; [reflexivity|]. split; [done|reflexivity].
  - intros Hinit Hwin. split.
    + intros program base ->. by rewrite main_first_decode by (cbn; lia || done).
    + intros program base image rest ->.
      rewrite main_first_decode by (cbn [length]; lia || done).
      unfold image_path.
      replace (2 <? Z.of_nat (length (program :: base :: image :: rest)))
        with true by (symmetry; apply Z.ltb_lt; cbn [length]; lia).
      reflexivity.
Qed.

Lemma usage_and_image_path_witness :
  (length ["hqx-sample"] < 2)%nat
  ∧ glfwInit_error sample_world = None
  ∧ glfwCreateWindow_error sample_world = None
  ∧ (∃ s, main debug_build sample_world ["hqx-sample"] [] initial_state
          = Stop (Exited EXIT_FAILURE) s)
  ∧ head (decodes (trace (final (main debug_build sample_world
                                   ["hqx-sample"; "assets"] []
                                   initial_state))))
    = Some "assets/sample/pixelart0.png"
  ∧ head (decodes (trace (final (main debug_build sample_world
                                   ["hqx-sample"; "assets"; "picture.png"] []
                                   initial_state))))
    = Some "picture.png".
Proof.
  assert (Hlen : (length ["hqx-sample"] < 2)%nat) by (cbn; lia).
  split; [exact Hlen|]. split; [reflexivity|]. split; [reflexivity|].
  split; [|split].
  - destruct (proj1 (usage_and_image_path debug_build sample_world
                       ["hqx-sample"] []) Hlen) as (s & E & _).
    exists s. exact E.
  - exact (proj1 (proj2 (usage_and_image_path debug_build sample_world
                           ["hqx-sample"; "assets"] [])
                     eq_refl eq_refl) "hqx-sample" "assets" eq_refl).
  - exact (proj2 (proj2 (usage_and_image_path debug_build sample_world
                           ["hqx-sample"; "assets"; "picture.png"] [])
                     eq_refl eq_refl) "hqx-sample" "assets" "picture.png" []
             eq_refl).
Defined.

(** ** A missing lookup image (claim C9) *)

Lemma lut_fails_unique cfg w base i j code text code' text' :
  lut_fails cfg w base i code text → lut_fails cfg w base j code' text' →
  i = j ∧ code = code' ∧ text = text'.
Proof.
  intros (Hi & Ei & Hbi) (Hj & Ej & Hbj).
  destruct (Nat.lt_trichotomy i j) as [Hlt|[->|Hlt]].
  - destruct (Hbj i Hlt) as (? & ? & ? & E). congruence.
  - rewrite Ei in Ej. by injection Ej as <- <-.
  - destruct (Hbi j Hlt) as (? & ? & ? & E). congruence.
Qed.

(** C9, as the code has it: if a lookup image does not decode in a
    directory that is otherwise fit to run (the image decodes, the
    shader files are there and not empty, the compiles and links of the
    run succeed), the process ends with a failure
    status -- aborted by the assertion of the error callback, or exited
    with [EXIT_FAILURE] when assertions are compiled out -- right after
    writing the decoder's diagnostic to the error stream; the window has
    been created before, since lookup textures are loaded after it, and
    no frame has been drawn. *)
Theorem missing_lut_is_fatal cfg w argv width height i code text frames :
  (2 ≤ length argv)%nat →
  runnable cfg w (arg argv 1) (image_path cfg argv) width height →
  lut_fails cfg w (arg argv 1) i code text →
  ∃ s before after,
    main cfg w argv frames initial_state = Stop (crash cfg) s
    ∧ crash cfg ≠ Exited EXIT_SUCCESS
    ∧ last (trace s) = Some (Ev.print_stderr ("Error: " +:+ text +:+ nl))
    ∧ trace s = before ++ Ev.glfwCreateWindow 640 480 "HQx Sample" :: after
    ∧ In (Ev.lodepng_decode (arg argv 1 +:+ default "" (lut_files cfg !! i)))
         after
    ∧ drawn s = [].
Proof.
  intros Hlen Hrun Hlut.
  pose proof (main_outcome cfg w argv frames Hlen) as Hm.
  pose proof (startup_outcome cfg w (arg argv 1) (image_path cfg argv)) as Ho.
  destruct (startup _ _ _ _ _) as [L s1|st s].
  - exfalso. destruct Hlut as (Hi & Ei & _).
    destruct i as [|[|[|i]]]; [| | |lia].
    + destruct (built_lut _ _ _ _ _ _ _ _ _ _ _ (ok_hq2x _ _ _ _ _ _ Ho))
        as (? & ? & ? & E & _). congruence.
    + destruct (built_lut _ _ _ _ _ _ _ _ _ _ _ (ok_hq3x _ _ _ _ _ _ Ho))
        as (? & ? & ? & E & _). congruence.
    + destruct (built_lut _ _ _ _ _ _ _ _ _ _ _ (ok_hq4x _ _ _ _ _ _ Ho))
        as (? & ? & ? & E & _). congruence.
  - destruct Ho as (_ & Hdrawn & _ & Hfail).
    destruct (runnable_failure _ _ _ _ _ _ _ _ Hrun Hfail)
      as (j & code' & text' & Hlut' & -> & l & Hlog & [k ->]).
    destruct (lut_fails_unique _ _ _ _ _ _ _ _ _ Hlut Hlut') as (<- & <- & <-).
    exists s,
      [Ev.glfwSetErrorCallback; Ev.glfwInit;
       Ev.glfwWindowHint GLFW_CONTEXT_VERSION_MAJOR 2;
       Ev.glfwWindowHint GLFW_CONTEXT_VERSION_MINOR 0],
      ([Ev.glfwSetKeyCallback; Ev.glfwMakeContextCurrent; Ev.gladLoadGLLoader;
        Ev.glfwSwapInterval 1; Ev.lodepng_decode (image_path cfg argv)]
       ++ rev k
       ++ [Ev.lodepng_decode (arg argv 1 +:+ default "" (lut_files cfg !! i));
           Ev.print_stderr ("Error: " +:+ text +:+ nl)]).
    split; [exact Hm|].
    split; [unfold crash; destruct (NDEBUG cfg); done|].
    split; [by eapply trace_last|].
    split; [|split].
    + unfold trace. rewrite Hlog. cbn [rev]. rewrite rev_app_distr.
      cbn [startup_log rev app]. rewrite <- !app_assoc. reflexivity.
    + apply in_or_app. right. apply in_or_app. right. by left.
    + unfold drawn. by rewrite Hdrawn.
Qed.

Lemma missing_lut_world_runnable :
  runnable debug_build missing_lut_world (arg sample_argv 1)
    (image_path debug_build sample_argv) 16 16.
Proof.
  constructor.
  - reflexivity.
  - reflexivity.
  - eexists. reflexivity.
  - intros [|[|[|i]]] Hi; [eexists; split; [reflexivity|discriminate]..|lia].
  - right. intros stage source _. reflexivity.
  - intros vertex_shader fragment_shader _. reflexivity.
Defined.

Lemma missing_lut_world_fails :
  lut_fails debug_build missing_lut_world (arg sample_argv 1) 2 78
    "failed to open file for reading".
Proof.
  split; [lia|]. split; [reflexivity|].
  intros [|[|j]] Hj; [do 3 eexists; reflexivity..|lia].
Defined.

Lemma missing_lut_is_fatal_witness :
  (2 ≤ length sample_argv)%nat
  ∧ runnable debug_build missing_lut_world (arg sample_argv 1)
      (image_path debug_build sample_argv) 16 16
  ∧ lut_fails debug_build missing_lut_world (arg sample_argv 1) 2 78
      "failed to open file for reading"
  ∧ ∃ s, main debug_build missing_lut_world sample_argv [sample_frame]
           initial_state = Stop Aborted s
         ∧ last (trace s)
           = Some (Ev.print_stderr
                     ("Error: " +:+ "failed to open file for reading" +:+ nl))
         ∧ drawn s = [].
Proof.
  assert (Hlen : (2 ≤ length sample_argv)%nat) by (cbn; lia).
  split; [exact Hlen|]. split; [exact missing_lut_world_runnable|].
  split; [exact missing_lut_world_fails|].
  destruct (missing_lut_is_fatal debug_build missing_lut_world sample_argv
              16 16 2 78 "failed to open file for reading" [sample_frame]
              Hlen missing_lut_world_runnable missing_lut_world_fails)
    as (s & before & after & E & _ & Hlast & _ & _ & Hdrawn).
  exists s. split; [exact E|]. split; [exact Hlast | exact Hdrawn].
Defined.

(** C9 as stated fails: in the sample directory without the lookup image
    of scale 4, the process is aborted with the decoder's diagnostic as
    its last output, but the fifth call of the run has created the
    window, which GLFW shows at once, long before the 137th call reads
    the missing lookup image. *)
Lemma window_created_before_lut_failure :
  main debug_build missing_lut_world sample_argv [sample_frame] initial_state
  = Stop Aborted missing_lut_stopped
  ∧ trace missing_lut_stopped !! 4%nat
    = Some (Ev.glfwCreateWindow 640 480 "HQx Sample")
  ∧ trace missing_lut_stopped !! 136%nat
    = Some (Ev.lodepng_decode "assets/resources/hq4x.png")
  ∧ last (trace missing_lut_stopped)
    = Some (Ev.print_stderr
              ("Error: " +:+ "failed to open file for reading" +:+ nl)).
Proof.
  split; [vm_compute; reflexivity|]. split; [vm_compute; reflexivity|].
  split; vm_compute; reflexivity.
Qed.

(** ** Input, frames and the end of a run *)

Lemma digit_press_key key action :
  digit_press key action = true →
  action = GLFW_PRESS ∧ (key = 49 ∨ key = 50 ∨ key = 51 ∨ key = 52).
Proof.
  unfold digit_press, GLFW_KEY_1, GLFW_KEY_4.
  intros [[H1 H2]%andb_prop H3%Z.eqb_eq]%andb_prop.
  apply Z.leb_le in H1, H2. split; [done|lia].
Qed.

Lemma digit_press_not_escape key action :
  digit_press key action = true → (key =? GLFW_KEY_ESCAPE) = false.
Proof.
  intros [_ H]%digit_press_key. apply Z.eqb_neq. unfold GLFW_KEY_ESCAPE. lia.
Qed.

(** What one key event does: at most a raise of the close flag and at most
    one resize, to one of the four sizes; the image size, the texture
    bindings and the draws are left alone. *)
Lemma key_callback_calls key scancode action mods s :
  ∃ s' k,
    key_callback key scancode action mods s = Ret tt s'
    ∧ log s' = k ++ log s
    ∧ Forall (λ c, In c (input_calls (image_width s) (image_height s))) k
    ∧ should_close s'
      = should_close s || closing_event (KeyEvent key scancode action mods)
    ∧ image_scale s' = selected (image_scale s)
                         [KeyEvent key scancode action mods]
    ∧ image_width s' = image_width s
    ∧ image_height s' = image_height s
    ∧ texture_binding s' = texture_binding s
    ∧ drawn_rev s' = drawn_rev s.
Proof.
  unfold key_callback, selected, closing_event. cbn [fold_left].
  fold (digit_press key action).
  destruct (digit_press key action) eqn:Hd.
  - rewrite (digit_press_not_escape _ _ Hd). cbn [andb].
    destruct (digit_press_key _ _ Hd) as [-> Hkey].
    assert (Hk : to_uint32 (key - GLFW_KEY_0) = key - GLFW_KEY_0).
    { unfold to_uint32, GLFW_KEY_0. apply Z.mod_small. lia. }
    rewrite Hk. run.
    destruct (mods =? GLFW_MOD_SHIFT); cbv beta iota.
    + exists (set_image_scale (key - GLFW_KEY_0) s), [].
      rewrite orb_false_r. repeat split; constructor.
    + eexists _, [_]. split; [reflexivity|]. split; [reflexivity|].
      rewrite orb_false_r. repeat split.
      constructor; [|constructor]. right. unfold window_sizes, GLFW_KEY_0.
      destruct Hkey as [-> | [-> | [-> | ->]]]; cbn [map Z.sub Z.pos_sub Z.succ_double
        Z.pred_double Z.double Pos.pred_double]; find_in.
  - run. destruct ((key =? GLFW_KEY_ESCAPE) && (action =? GLFW_PRESS));
      cbv beta iota.
    + eexists _, [_]. split; [reflexivity|]. split; [reflexivity|].
      rewrite orb_true_r. repeat split. constructor; [left; reflexivity|constructor].
    + exists s, []. rewrite orb_false_r. repeat split; constructor.
Qed.

Lemma selected_cons scale e events :
  selected scale (e :: events) = selected (selected scale [e]) events.
Proof. reflexivity. Qed.

Lemma selected_range scale events :
  1 ≤ scale ≤ 4 → 1 ≤ selected scale events ≤ 4.
Proof.
  revert scale. induction events as [|e events IH]; intros scale Hs; [done|].
  rewrite selected_cons. apply IH. unfold selected. cbn [fold_left].
  destruct e as [key scancode action mods|]; [|done].
  destruct (digit_press key action) eqn:Hd; [|done].
  apply digit_press_key in Hd as [_ Hd]. unfold GLFW_KEY_0. lia.
Qed.

(** Polling handles the events in order. *)
Lemma dispatch_calls events s :
  ∃ s' k,
    dispatch events s = Ret tt s'
    ∧ log s' = k ++ log s
    ∧ Forall (λ c, In c (input_calls (image_width s) (image_height s))) k
    ∧ should_close s' = should_close s || existsb closing_event events
    ∧ image_scale s' = selected (image_scale s) events
    ∧ image_width s' = image_width s
    ∧ image_height s' = image_height s
    ∧ texture_binding s' = texture_binding s
    ∧ drawn_rev s' = drawn_rev s.
Proof.
  revert s. induction events as [|[key scancode action mods|] events IH];
    intros s.
  - exists s, []. rewrite orb_false_r. repeat split. constructor.
  - destruct (key_callback_calls key scancode action mods s)
      as (s1 & k1 & E1 & Hl1 & Hk1 & Hc1 & Hs1 & Hw1 & Hh1 & Hb1 & Hd1).
    destruct (IH s1)
      as (s2 & k2 & E2 & Hl2 & Hk2 & Hc2 & Hs2 & Hw2 & Hh2 & Hb2 & Hd2).
    exists s2, (k2 ++ k1). cbn [dispatch]. unfold bind. rewrite E1.
    split; [exact E2|]. split; [rewrite Hl2, Hl1; apply app_assoc|].
    split; [apply Forall_app; split; [by rewrite <- Hw1, <- Hh1|done]|].
    split; [rewrite Hc2, Hc1; cbn [existsb]; by rewrite orb_assoc|].
    split; [rewrite Hs2, Hs1; reflexivity|].
    repeat split; congruence.
  - destruct (IH (set_should_close true s))
      as (s2 & k2 & E2 & Hl2 & Hk2 & Hc2 & Hs2 & Hw2 & Hh2 & Hb2 & Hd2).
    exists s2, k2. split; [exact E2|]. split; [exact Hl2|].
    split; [exact Hk2|].
    split; [rewrite Hc2; cbn [existsb closing_event should_close
                              set_should_close]; by rewrite orb_true_r|].
    split; [exact Hs2|]. repeat split; assumption.
Qed.

Lemma glfwPollEvents_calls fi s :
  ∃ s' k,
    glfwPollEvents fi s = Ret tt s'
    ∧ log s' = k ++ Ev.glfwPollEvents :: log s
    ∧ Forall (λ c, In c (input_calls (image_width s) (image_height s))) k
    ∧ should_close s' = should_close s || closes fi
    ∧ image_scale s' = selected (image_scale s) (polled fi)
    ∧ image_width s' = image_width s
    ∧ image_height s' = image_height s
    ∧ texture_binding s' = texture_binding s
    ∧ drawn_rev s' = drawn_rev s.
Proof.
  destruct (dispatch_calls (polled fi) (emit Ev.glfwPollEvents s))
    as (s' & k & E & H).
  exists s', k. split; [exact E|exact H].
Qed.

(** One turn of the loop from a state that satisfies the invariant: the
    eight calls of the frame for the selected slot, one draw, the poll,
    and what the key callback adds. *)
Lemma frame_run L fi s :
  length (programs L) = 5%nat → length (lut_textures L) = 5%nat →
  loop_invariant L s →
  ∃ s' k p l,
    programs L !! Z.to_nat (image_scale s) = Some p
    ∧ lut_textures L !! Z.to_nat (image_scale s) = Some l
    ∧ bind (draw_frame L fi) (λ _, glfwPollEvents fi) s = Ret tt s'
    ∧ log s' = k ++ Ev.glfwPollEvents :: rev (frame_calls fi p l) ++ log s
    ∧ Forall (λ c, In c (input_calls (image_width s) (image_height s))) k
    ∧ should_close s' = should_close s || closes fi
    ∧ image_scale s' = selected (image_scale s) (polled fi)
    ∧ image_width s' = image_width s
    ∧ image_height s' = image_height s
    ∧ loop_invariant L s'
    ∧ ∃ d, drawn_rev s' = d :: drawn_rev s
           ∧ draw_program d = p ∧ draw_unit1 d = l.
Proof.
  intros HP HT [Hscale Hunit0].
  destruct (selection_lookup (programs L) (image_scale s) HP Hscale) as [p Hp].
  destruct (selection_lookup (lut_textures L) (image_scale s) HT Hscale)
    as [l Hl].
  destruct (draw_frame_run L fi s p l Hp Hl)
    as (s1 & E1 & Ht1 & Hd1 & Hs1 & Hw1 & Hh1 & Hc1 & Hu1 & _ & _).
  destruct (glfwPollEvents_calls fi s1)
    as (s2 & k & E2 & Hl2 & Hk2 & Hc2 & Hs2 & Hw2 & Hh2 & Hb2 & Hd2).
  apply (f_equal (@rev _)) in Ht1, Hd1. unfold trace, drawn in Ht1, Hd1.
  rewrite rev_app_distr, !rev_involutive in Ht1, Hd1. cbn [rev app] in Hd1.
  exists s2, k, p, l. unfold bind. rewrite E1.
  split; [exact Hp|]. split; [exact Hl|]. split; [exact E2|].
  split; [by rewrite Hl2, Ht1|].
  split; [by rewrite <- Hw1, <- Hh1|].
  split; [by rewrite Hc2, Hc1|].
  split; [by rewrite Hs2, Hs1|].
  split; [congruence|]. split; [congruence|].
  split.
  - split; [rewrite Hs2, Hs1; by apply selected_range|].
    unfold bound_texture. rewrite Hb2. fold (bound_texture s1 GL_TEXTURE0).
    congruence.
  - eexists. rewrite Hd2, Hd1. split; [reflexivity|]. split; reflexivity.
Qed.

Lemma render_loop_closed L frames s :
  should_close s = true →
  render_loop L frames s = Ret true (emit Ev.glfwWindowShouldClose s).
Proof.
  intros Hc. destruct frames; cbn [render_loop]; unfold bind;
    rewrite glfwWindowShouldClose_run, Hc; reflexivity.
Qed.

Lemma render_loop_nil L s :
  should_close s = false →
  render_loop L [] s = Ret false (emit Ev.glfwWindowShouldClose s).
Proof.
  intros Hc. cbn [render_loop]. unfold bind.
  rewrite glfwWindowShouldClose_run, Hc. reflexivity.
Qed.

Lemma render_loop_cons L fi rest s :
  should_close s = false →
  render_loop L (fi :: rest) s
  = bind (bind (draw_frame L fi) (λ _, glfwPollEvents fi))
      (λ _, render_loop L rest) (emit Ev.glfwWindowShouldClose s).
Proof.
  intros Hc. cbn [render_loop]. unfold bind at 1.
  rewrite glfwWindowShouldClose_run, Hc. symmetry. apply bind_assoc.
Qed.

Lemma input_call_added width height c :
  In c (input_calls width height) → loop_added width height c.
Proof.
  intros [<-|Hc]; [split; [done|discriminate]|].
  split; [|done]. unfold window_sizes in Hc. cbn [map In] in Hc.
  destruct Hc as [<-|[<-|[<-|[<-|[]]]]]; reflexivity.
Qed.

Lemma frame_call_added width height fi p l c :
  In c (frame_calls fi p l) → loop_added width height c.
Proof.
  unfold frame_calls. cbn [In]. intros H.
  repeat (destruct H as [<-|H]; [split; [reflexivity|discriminate]|]).
  destruct H.
Qed.

Lemma Forall_added_app width height (k1 k2 : list Call) :
  Forall (loop_added width height) k1 → Forall (loop_added width height) k2 →
  Forall (loop_added width height) (k1 ++ k2).
Proof. intros. by apply Forall_app. Qed.

Lemma input_calls_added width height k :
  Forall (λ c, In c (input_calls width height)) k →
  Forall (loop_added width height) k.
Proof.
  intros H. eapply Forall_impl; [exact H|]. apply input_call_added.
Qed.

Lemma frame_calls_added width height fi p l :
  Forall (loop_added width height) (rev (frame_calls fi p l)).
Proof.
  apply List.Forall_forall. intros c Hc%in_rev.
  by eapply frame_call_added.
Qed.

Lemma should_close_added width height :
  loop_added width height Ev.glfwWindowShouldClose.
Proof. split; [reflexivity|discriminate]. Qed.

Lemma poll_added width height : loop_added width height Ev.glfwPollEvents.
Proof. split; [reflexivity|discriminate]. Qed.

(** The render loop, whatever the input: it returns, and has added to the
    log only calls of the loop, with every resize to one of the four
    sizes. *)
Lemma render_loop_calls L frames s :
  length (programs L) = 5%nat → length (lut_textures L) = 5%nat →
  loop_invariant L s →
  ∃ ended s' k,
    render_loop L frames s = Ret ended s'
    ∧ log s' = k ++ log s
    ∧ Forall (loop_added (image_width s) (image_height s)) k.
Proof.
  intros HP HT. revert s. induction frames as [|fi frames IH]; intros s Hinv.
  - destruct (should_close s) eqn:Hc.
    + rewrite render_loop_closed by done. eexists _, _, [_].
      split; [reflexivity|]. split; [reflexivity|].
      constructor; [apply should_close_added|constructor].
    + rewrite render_loop_nil by done. eexists _, _, [_].
      split; [reflexivity|]. split; [reflexivity|].
      constructor; [apply should_close_added|constructor].
  - destruct (should_close s) eqn:Hc.
    + rewrite render_loop_closed by done. eexists _, _, [_].
      split; [reflexivity|]. split; [reflexivity|].
      constructor; [apply should_close_added|constructor].
    + rewrite render_loop_cons by done.
      destruct (frame_run L fi (emit Ev.glfwWindowShouldClose s) HP HT Hinv)
        as (s1 & k1 & p & l & _ & _ & E1 & Hl1 & Hk1 & _ & _ & Hw1 & Hh1
            & Hinv1 & _).
      destruct (IH s1 Hinv1) as (ended & s2 & k2 & E2 & Hl2 & Hk2).
      exists ended, s2.
      exists (k2 ++ k1 ++ Ev.glfwPollEvents :: rev (frame_calls fi p l)
                ++ [Ev.glfwWindowShouldClose]).
      unfold bind at 1. rewrite E1. split; [exact E2|].
      split.
      { rewrite Hl2, Hl1. cbn [log emit].
        rewrite <- !app_assoc. cbn [app]. rewrite <- !app_assoc. reflexivity. }
      cbn [image_width image_height emit] in Hk1, Hw1, Hh1.
      rewrite Hw1, Hh1 in Hk2.
      apply Forall_added_app; [exact Hk2|].
      apply Forall_added_app; [by apply input_calls_added|].
      constructor; [apply poll_added|].
      apply Forall_added_app; [apply frame_calls_added|].
      constructor; [apply should_close_added|constructor].
Qed.

Lemma filter_input_calls (P : Call → bool) width height k :
  (∀ c, In c (input_calls width height) → P c = false) →
  Forall (λ c, In c (input_calls width height)) k → List.filter P k = [].
Proof.
  intros HP Hk. induction Hk as [|c k Hc _ IH]; [done|].
  cbn [List.filter]. by rewrite (HP c Hc).
Qed.

Lemma input_call_not_draw width height c :
  In c (input_calls width height) → is_draw c = false.
Proof.
  unfold input_calls, window_sizes. cbn [map In].
  intros [<-|[<-|[<-|[<-|[<-|[]]]]]]; reflexivity.
Qed.

Lemma input_call_not_swap width height c :
  In c (input_calls width height) → is_swap c = false.
Proof.
  unfold input_calls, window_sizes. cbn [map In].
  intros [<-|[<-|[<-|[<-|[<-|[]]]]]]; reflexivity.
Qed.

(** The render loop on frames none of which raises the close flag: every
    frame is drawn and swapped once, and the loop is still running when
    the input is used up. *)
Lemma render_loop_open L frames s :
  length (programs L) = 5%nat → length (lut_textures L) = 5%nat →
  loop_invariant L s →
  should_close s = false →
  forallb (λ fi, negb (closes fi)) frames = true →
  ∃ s' k,
    render_loop L frames s = Ret false s'
    ∧ log s' = k ++ log s
    ∧ should_close s' = false
    ∧ loop_invariant L s'
    ∧ image_scale s' = selection_after (image_scale s) frames
    ∧ length (drawn_rev s') = (length frames + length (drawn_rev s))%nat
    ∧ length (List.filter is_draw k) = length frames
    ∧ length (List.filter is_swap k) = length frames.
Proof.
  intros HP HT. revert s. induction frames as [|fi frames IH];
    intros s Hinv Hc Hopen.
  - rewrite render_loop_nil by done. eexists _, [_].
    split; [reflexivity|]. split; [reflexivity|]. done.
  - cbn [forallb] in Hopen. apply andb_prop in Hopen as [Hfi Hopen].
    apply negb_true_iff in Hfi.
    rewrite render_loop_cons by done.
    destruct (frame_run L fi (emit Ev.glfwWindowShouldClose s) HP HT Hinv)
      as (s1 & k1 & p & l & _ & _ & E1 & Hl1 & Hk1 & Hc1 & Hs1 & _ & _
          & Hinv1 & d & Hd1 & _).
    cbn [should_close image_scale emit] in Hc1, Hs1. rewrite Hc, Hfi in Hc1.
    destruct (IH s1 Hinv1 Hc1 Hopen)
      as (s2 & k2 & E2 & Hl2 & Hc2 & Hinv2 & Hs2 & Hd2 & Hdraw2 & Hswap2).
    exists s2.
    exists (k2 ++ k1 ++ Ev.glfwPollEvents :: rev (frame_calls fi p l)
              ++ [Ev.glfwWindowShouldClose]).
    unfold bind at 1. rewrite E1. split; [exact E2|].
    split.
    { rewrite Hl2, Hl1. cbn [log emit].
      rewrite <- !app_assoc. cbn [app]. rewrite <- !app_assoc. reflexivity. }
    split; [exact Hc2|]. split; [exact Hinv2|].
    split; [rewrite Hs2, Hs1; reflexivity|].
    split; [rewrite Hd2, Hd1; cbn [length drawn_rev emit]; lia|].
    rewrite !List.filter_app, !length_app, Hdraw2, Hswap2.
    rewrite (filter_input_calls is_draw _ _ k1 (input_call_not_draw _ _) Hk1).
    rewrite (filter_input_calls is_swap _ _ k1 (input_call_not_swap _ _) Hk1).
    cbn. lia.
Qed.

(** ** Further properties of [main.cpp] *)

(** What is known once [setup] has returned. *)
Lemma setup_completed cfg w argv L s1 :
  setup cfg w argv initial_state = Ret L s1 →
  (2 ≤ length argv)%nat
  ∧ startup_ok cfg w (arg argv 1) (image_path cfg argv) L s1
  ∧ startup_census L s1.
Proof.
  intros Hsetup.
  destruct (Nat.lt_ge_cases (length argv) 2) as [Hlen|Hlen];
    [by rewrite setup_usage in Hsetup|].
  rewrite setup_startup in Hsetup by done.
  pose proof (startup_outcome cfg w (arg argv 1) (image_path cfg argv)) as Ho.
  pose proof (startup_details cfg w (arg argv 1) (image_path cfg argv)) as Hd.
  rewrite Hsetup in Ho, Hd. done.
Qed.

(** *** Key events *)

(** X1: a key event that is neither a press of Escape nor a press of one of
    the keys 1 to 4 has no effect at all: releases and repeats of any
    key, and presses of any other key (0 and 5 included), change nothing
    and call nothing. *)
Theorem key_events_without_effect key scancode action mods s :
  action ≠ GLFW_PRESS
  ∨ (key ≠ GLFW_KEY_ESCAPE ∧ ¬ (GLFW_KEY_1 ≤ key ≤ GLFW_KEY_4)) →
  key_callback key scancode action mods s = Ret tt s.
Proof.
  intros H. unfold key_callback.
  assert (E1 : (key =? GLFW_KEY_ESCAPE) && (action =? GLFW_PRESS) = false).
  { apply andb_false_iff. destruct H as [H|[H _]];
      [right|left]; by apply Z.eqb_neq. }
  assert (E2 : (GLFW_KEY_1 <=? key) && (key <=? GLFW_KEY_4)
               && (action =? GLFW_PRESS) = false).
  { destruct H as [H|[_ H]].
    - apply andb_false_iff. right. by apply Z.eqb_neq.
    - apply andb_false_iff. left. apply andb_false_iff.
      destruct (Z.le_gt_cases GLFW_KEY_1 key) as [H1|H1].
      + right. apply Z.leb_gt. lia.
      + left. apply Z.leb_gt. lia. }
  rewrite E1, E2. reflexivity.
Qed.

Lemma key_events_without_effect_witness :
  GLFW_RELEASE ≠ GLFW_PRESS
  ∧ key_callback (GLFW_KEY_0 + 3) 0 GLFW_RELEASE 0 sample_state
    = Ret tt sample_state.
Proof.
  assert (H : GLFW_RELEASE ≠ GLFW_PRESS) by (unfold GLFW_RELEASE, GLFW_PRESS; lia).
  split; [exact H|].
  apply (key_events_without_effect (GLFW_KEY_0 + 3) 0 GLFW_RELEASE 0
           sample_state).
  left. exact H.
Defined.

(** X2: polling runs the key callback on the pending events in order: the
    selection afterwards is that of the last press of a key 1 to 4 (the
    old one if there is none), the close flag is up if it was up or one
    of the events is a press of Escape or a request to close, and the
    only calls made after the poll itself are raises of the close flag
    and resizes to one of the four sizes; the size of the image is left
    alone. *)
Theorem polling_handles_events_in_order fi s :
  ∃ s' t,
    glfwPollEvents fi s = Ret tt s'
    ∧ trace s' = trace s ++ Ev.glfwPollEvents :: t
    ∧ Forall (λ c, In c (input_calls (image_width s) (image_height s))) t
    ∧ should_close s' = should_close s || closes fi
    ∧ image_scale s' = selected (image_scale s) (polled fi)
    ∧ image_width s' = image_width s
    ∧ image_height s' = image_height s.
Proof.
  destruct (glfwPollEvents_calls fi s)
    as (s' & k & E & Hl & Hk & Hc & Hs & Hw & Hh & _).
  exists s', (rev k). split; [exact E|].
  split; [unfold trace; rewrite Hl, rev_app_distr; cbn [rev];
          by rewrite <- app_assoc|].
  split; [|done].
  apply List.Forall_forall. intros c Hc'%in_rev.
  by apply (proj1 (List.Forall_forall _ _) Hk).
Qed.

Lemma to_int_range z :
  - 2 ^ 31 ≤ to_int (to_uint32 z) < 2 ^ 31
  ∧ (to_int (to_uint32 z) - z) mod 2 ^ 32 = 0.
Proof.
  unfold to_int, to_uint32. rewrite Z.mod_mod by lia.
  pose proof (Z.mod_pos_bound z (2 ^ 32) ltac:(lia)) as Hb.
  destruct (z mod 2 ^ 32 <? 2 ^ 31) eqn:E.
  - apply Z.ltb_lt in E. split; [lia|].
    rewrite Zminus_mod, Z.mod_mod, Z.sub_diag by lia. done.
  - apply Z.ltb_ge in E. split; [lia|].
    replace (z mod 2 ^ 32 - 2 ^ 32 - z)
      with (z mod 2 ^ 32 - z + (-1) * 2 ^ 32) by lia.
    rewrite Z.mod_add by lia.
    rewrite Zminus_mod, Z.mod_mod, Z.sub_diag by lia. done.
Qed.

(** X3: the size a digit key asks for is computed in [uint32_t] and passed
    as [int]: the width requested is the product of the image width and
    the digit modulo 2^32, read as a signed 32-bit number.  When the
    product is from 2^31 up to 2^32 - 1, the request is the product
    minus 2^32, a negative width. *)
Theorem resize_wraps_around k scancode s :
  1 ≤ k ≤ 4 →
  ∃ s' width height,
    key_callback (GLFW_KEY_0 + k) scancode GLFW_PRESS 0 s = Ret tt s'
    ∧ trace s' = trace s ++ [Ev.glfwSetWindowSize width height]
    ∧ - 2 ^ 31 ≤ width < 2 ^ 31
    ∧ (width - image_width s * k) mod 2 ^ 32 = 0
    ∧ (2 ^ 31 ≤ image_width s * k < 2 ^ 32 →
       width = image_width s * k - 2 ^ 32 ∧ width < 0).
Proof.
  intros Hk. rewrite (key_callback_digit k scancode 0 s Hk).
  change (0 =? GLFW_MOD_SHIFT) with false. cbv iota.
  eexists _, _, _. split; [reflexivity|]. split; [reflexivity|].
  destruct (to_int_range (image_width s * k)) as [Hr Hm].
  split; [exact Hr|]. split; [exact Hm|].
  intros Hw. rewrite (to_int_wraps _ Hw). lia.
Qed.

Lemma resize_wraps_around_witness :
  1 ≤ 2 ≤ 4
  ∧ ∃ s',
      key_callback (GLFW_KEY_0 + 2) 0 GLFW_PRESS 0
        (set_image_width (2 ^ 30) sample_state) = Ret tt s'
      ∧ trace s' = [Ev.glfwSetWindowSize (- 2 ^ 31) 32].
Proof.
  assert (Hk : 1 ≤ 2 ≤ 4) by lia.
  split; [exact Hk|].
  destruct (resize_wraps_around 2 0 (set_image_width (2 ^ 30) sample_state) Hk)
    as (s' & width & height & E & Ht & _).
  exists s'. split; [exact E|].
  rewrite (key_callback_digit 2 0 0 _ Hk) in E.
  injection E as <-. reflexivity.
Defined.

(** *** The render loop *)

(** X4: when the startup has completed and no frame's input closes the
    window, every frame is drawn: [main] is still running when the input
    is used up, with the close flag down, and has issued exactly one
    draw call and one buffer swap per frame. *)
Theorem frames_without_close_are_all_drawn cfg w argv L s1 frames :
  setup cfg w argv initial_state = Ret L s1 →
  forallb (λ fi, negb (closes fi)) frames = true →
  ∃ s2,
    main cfg w argv frames initial_state = Ret tt s2
    ∧ should_close s2 = false
    ∧ length (drawn s2) = length frames
    ∧ length (List.filter is_draw (trace s2)) = length frames
    ∧ length (List.filter is_swap (trace s2)) = length frames.
Proof.
  intros Hsetup Hopen.
  destruct (setup_completed _ _ _ _ _ Hsetup) as (Hlen & Ho & Hcensus).
  destruct (startup_ok_loop _ _ _ _ _ _ Ho) as (HP & HT & Hinv).
  destruct (render_loop_open L frames s1 HP HT Hinv
              (ok_open _ _ _ _ _ _ Ho) Hopen)
    as (s2 & k & E & Hl & Hc & _ & _ & Hd & Hdraw & Hswap).
  exists s2. rewrite main_eq, Hsetup, E.
  split; [reflexivity|]. split; [exact Hc|].
  rewrite (ok_drawn _ _ _ _ _ _ Ho) in Hd. cbn [length] in Hd.
  split; [unfold drawn; rewrite length_rev; lia|].
  rewrite !filter_trace, !length_rev, Hl, !List.filter_app, !length_app.
  rewrite (census_draws _ _ Hcensus), (census_swaps _ _ Hcensus).
  cbn [length]. lia.
Qed.

Lemma frames_without_close_are_all_drawn_witness :
  setup debug_build sample_world sample_argv initial_state
  = Ret sample_locals sample_started
  ∧ forallb (λ fi, negb (closes fi)) [sample_frame; idle_frame] = true
  ∧ ∃ s2,
      main debug_build sample_world sample_argv [sample_frame; idle_frame]
        initial_state = Ret tt s2
      ∧ length (drawn s2) = 2%nat.
Proof.
  assert (Esetup : setup debug_build sample_world sample_argv initial_state
                   = Ret sample_locals sample_started)
    by (vm_compute; reflexivity).
  assert (H : forallb (λ fi, negb (closes fi)) [sample_frame; idle_frame]
              = true) by reflexivity.
  split; [exact Esetup|]. split; [exact H|].
  destruct (frames_without_close_are_all_drawn debug_build sample_world
              sample_argv sample_locals sample_started
              [sample_frame; idle_frame] Esetup H)
    as (s2 & E & _ & Hd & _).
  exists s2. split; [exact E|exact Hd].
Defined.

(** X5: when the startup has completed, the first frame whose input holds a
    press of Escape or a request to close the window is the last one
    drawn: the loop ends at its next test of the close flag, the window
    is destroyed, GLFW is terminated and the process exits with
    [EXIT_SUCCESS], in the same
    state whatever the input of later frames, which is never read. *)
Theorem close_ends_the_run cfg w argv L s1 before fi :
  setup cfg w argv initial_state = Ret L s1 →
  forallb (λ fi, negb (closes fi)) before = true →
  closes fi = true →
  ∃ s,
    (∀ after, main cfg w argv (before ++ fi :: after) initial_state
              = Stop (Exited EXIT_SUCCESS) s)
    ∧ length (drawn s) = S (length before)
    ∧ ∃ t, trace s = t ++ [Ev.glfwWindowShouldClose; Ev.glfwDestroyWindow;
                           Ev.glfwTerminate].
Proof.
  intros Hsetup Hopen Hfi.
  destruct (setup_completed _ _ _ _ _ Hsetup) as (Hlen & Ho & Hcensus).
  destruct (startup_ok_loop _ _ _ _ _ _ Ho) as (HP & HT & Hinv).
  destruct (render_loop_open L before s1 HP HT Hinv
              (ok_open _ _ _ _ _ _ Ho) Hopen)
    as (s2 & k & E & Hl & Hc & Hinv2 & _ & Hd & _).
  destruct (frame_run L fi s2 HP HT Hinv2)
    as (s3 & k3 & p & l & _ & _ & E3 & _ & _ & Hc3 & _ & _ & _ & _
        & d & Hd3 & _).
  rewrite Hc, Hfi in Hc3. cbn [orb] in Hc3.
  assert (Eloop : ∀ after, render_loop L (before ++ fi :: after) s1
                           = Ret true (emit Ev.glfwWindowShouldClose s3)).
  { intros after. rewrite (render_loop_more _ _ _ _ _ _ E).
    rewrite <- (bind_assoc (draw_frame L fi) (λ _, glfwPollEvents fi)
                  (λ _, render_loop L after) s2).
    unfold bind at 1. rewrite E3. by apply render_loop_closed. }
  eexists. split; [|split].
  - intros after. rewrite main_eq, Hsetup, Eloop. reflexivity.
  - unfold drawn. rewrite length_rev. cbn [drawn_rev emit].
    rewrite Hd3. cbn [length]. rewrite Hd, (ok_drawn _ _ _ _ _ _ Ho).
    cbn [length]. lia.
  - exists (trace s3). unfold trace. cbn [log emit rev].
    rewrite <- !app_assoc. reflexivity.
Qed.

Lemma close_ends_the_run_witness :
  setup debug_build sample_world sample_argv initial_state
  = Ret sample_locals sample_started
  ∧ forallb (λ fi, negb (closes fi)) [sample_frame] = true
  ∧ closes escape_frame = true
  ∧ ∃ s,
      main debug_build sample_world sample_argv
        ([sample_frame] ++ escape_frame :: [idle_frame]) initial_state
      = Stop (Exited EXIT_SUCCESS) s
      ∧ length (drawn s) = 2%nat.
Proof.
  assert (Esetup : setup debug_build sample_world sample_argv initial_state
                   = Ret sample_locals sample_started)
    by (vm_compute; reflexivity).
  assert (H1 : forallb (λ fi, negb (closes fi)) [sample_frame] = true)
    by reflexivity.
  assert (H2 : closes escape_frame = true) by reflexivity.
  split; [exact Esetup|]. split; [exact H1|]. split; [exact H2|].
  destruct (close_ends_the_run debug_build sample_world sample_argv
              sample_locals sample_started [sample_frame] escape_frame
              Esetup H1 H2)
    as (s & E & Hd & _).
  exists s. split; [exact (E [idle_frame])|exact Hd].
Defined.

Lemma main_completed cfg w argv L s1 frames :
  setup cfg w argv initial_state = Ret L s1 →
  ∃ s2 k,
    log s2 = k ++ log s1
    ∧ Forall (loop_added (image_width s1) (image_height s1)) k
    ∧ image_width s2 = image_width s1
    ∧ image_height s2 = image_height s1
    ∧ (main cfg w argv frames initial_state = Ret tt s2
       ∨ main cfg w argv frames initial_state
         = Stop (Exited EXIT_SUCCESS)
             (emit Ev.glfwTerminate (emit Ev.glfwDestroyWindow s2))).
Proof.
  intros Hsetup.
  destruct (setup_completed _ _ _ _ _ Hsetup) as (Hlen & Ho & Hcensus).
  destruct (startup_ok_loop _ _ _ _ _ _ Ho) as (HP & HT & Hinv).
  destruct (render_loop_calls L frames s1 HP HT Hinv)
    as (ended & s2 & k & E & Hl & Hk).
  destruct (render_loop_run L frames s1 HP HT Hinv)
    as (ended' & s2' & E' & _ & Hw & Hh & _).
  rewrite E in E'. injection E' as <- <-.
  exists s2, k. rewrite main_eq, Hsetup, E.
  split; [exact Hl|]. split; [exact Hk|]. split; [exact Hw|].
  split; [exact Hh|]. destruct ended; [right|left]; reflexivity.
Qed.

Lemma In_filter_nil (P : Call → bool) c l :
  List.filter P l = [] → In c l → P c = true → False.
Proof.
  intros Hf Hc HP. assert (H : In c (List.filter P l))
    by (apply List.filter_In; done).
  rewrite Hf in H. destruct H.
Qed.

(** X6: over a whole run whose startup has completed, every request to
    resize the window asks for the size of the decoded image times 1, 2,
    3 or 4 (in the arithmetic of the program), whatever keys are pressed
    in whatever order. *)
Theorem window_sizes_are_multiples cfg w argv L s1 frames pixels width height c :
  setup cfg w argv initial_state = Ret L s1 →
  decode_file w (image_path cfg argv) = Image pixels width height →
  In c (trace (final (main cfg w argv frames initial_state))) →
  is_resize c = true →
  In c (window_sizes width height).
Proof.
  intros Hsetup Hdec Hc Hr.
  destruct (setup_completed _ _ _ _ _ Hsetup) as (Hlen & Ho & Hcensus).
  destruct (ok_image _ _ _ _ _ _ Ho) as [px Himg].
  rewrite Hdec in Himg. injection Himg as _ -> ->.
  destruct (main_completed cfg w argv L s1 frames Hsetup)
    as (s2 & k & Hl & Hk & _ & _ & Hmain).
  assert (Hin : In c (log s2)).
  { apply in_rev in Hc.
    destruct Hmain as [E|E]; rewrite E in Hc; cbn [final log emit] in Hc.
    - exact Hc.
    - destruct Hc as [<-|[<-|Hc]]; [discriminate Hr|discriminate Hr|exact Hc]. }
  rewrite Hl in Hin. apply in_app_or in Hin as [Hin|Hin].
  - by apply (proj1 (List.Forall_forall _ _) Hk c Hin).
  - destruct (ok_resize _ _ _ _ _ _ Ho) as (l & El & Hnone).
    rewrite El in Hin. destruct Hin as [<-|Hin].
    + unfold window_sizes. cbn [map]. find_in.
    + destruct (In_filter_nil _ _ _ Hnone Hin Hr).
Qed.

Lemma window_sizes_are_multiples_witness :
  setup debug_build sample_world sample_argv initial_state
  = Ret sample_locals sample_started
  ∧ decode_file sample_world (image_path debug_build sample_argv)
    = Image [] 16 16
  ∧ In (Ev.glfwSetWindowSize 48 48) (window_sizes 16 16).
Proof.
  assert (Esetup : setup debug_build sample_world sample_argv initial_state
                   = Ret sample_locals sample_started)
    by (vm_compute; reflexivity).
  assert (Hdec : decode_file sample_world (image_path debug_build sample_argv)
                 = Image [] 16 16) by reflexivity.
  split; [exact Esetup|]. split; [exact Hdec|].
  apply (window_sizes_are_multiples debug_build sample_world sample_argv
           sample_locals sample_started [sample_frame] [] 16 16
           (Ev.glfwSetWindowSize 48 48) Esetup Hdec).
  - vm_compute. repeat first [ left; reflexivity | right ].
  - reflexivity.
Defined.

(** *** How a run ends *)





(** X8: the first shader file that cannot be opened ends the process: its
    path is printed after "Failed to open " on the standard output, not
    on the error stream, and the status is [EXIT_FAILURE] in every
    build, since [read_file] does not go through the error callback and
    its assertion.  Nothing is drawn.  This is so when the run gets as
    far as that file: GLFW, the window and the image are fine, the
    shader files before it are there and not empty and their lookup
    images decode, the links made before succeed, and so do the compiles
    made before unless assertions are compiled out. *)
Theorem missing_shader_file_exits cfg w argv frames i :
  (2 ≤ length argv)%nat →
  window_and_image w (image_path cfg argv) →
  (i < 3)%nat →
  file_contents w (arg argv 1 +:+ default "" (shader_files cfg !! i)) = None →
  files_ready cfg w (arg argv 1) i →
  luts_ready cfg w (arg argv 1) i →
  NDEBUG cfg = true
  ∨ (∀ stage source,
       compiled_in_run cfg w (arg argv 1) i stage source →
       compile_log w stage [stage_prefix stage; source] = None) →
  (∀ vertex_shader fragment_shader,
     In (vertex_shader, fragment_shader) (linked_in_run i) →
     link_log w vertex_shader fragment_shader = None) →
  ∃ s t,
    main cfg w argv frames initial_state = Stop (Exited EXIT_FAILURE) s
    ∧ trace s
      = t ++ [ Ev.ifstream_open
                 (arg argv 1 +:+ default "" (shader_files cfg !! i));
               Ev.print_stdout
                 ("Failed to open "
                  +:+ (arg argv 1 +:+ default "" (shader_files cfg !! i))
                  +:+ nl) ]
    ∧ drawn s = [].
Proof.
  intros Hlen (Hinit & Hwin & px & W & H & Himg) Hi Hfile Hfiles Hluts
    Hcompiles Hlinks.
  rewrite main_eq, setup_startup by done.
  pose proof (startup_outcome cfg w (arg argv 1) (image_path cfg argv)) as Ho.
  destruct (startup _ _ _ _ _) as [L s1|st s].
  - exfalso.
    assert (Hsrc : ∀ j, (j < 3)%nat → ∃ buffer,
              file_contents w (arg argv 1 +:+ default "" (shader_files cfg !! j))
              = Some buffer).
    { intros [|[|[|j]]] Hj; [| | |lia].
      - destruct (built_source _ _ _ _ _ _ _ _ _ _ _ (ok_hq2x _ _ _ _ _ _ Ho))
          as (src & E & _). by exists src.
      - destruct (built_source _ _ _ _ _ _ _ _ _ _ _ (ok_hq3x _ _ _ _ _ _ Ho))
          as (src & E & _). by exists src.
      - destruct (built_source _ _ _ _ _ _ _ _ _ _ _ (ok_hq4x _ _ _ _ _ _ Ho))
          as (src & E & _). by exists src. }
    destruct (Hsrc i Hi) as [src E]. congruence.
  - destruct Ho as (_ & Hdrawn & _ & Hfail).
    destruct Hfail as [ ? ? E _ _ | ? ? _ E _ _ | ? ? _ _ E _ _
                      | n stage source info_log _ _ Hready _ Hn Hin Hlog _ _
                      | n vs fs info_log _ _ Hready _ Hin Hlog _ _
                      | j _ Hj Hnone Hready _ -> Hl
                      | j _ Hj Hempty Hready _ _
                      | j ? ? _ Hj Hdec Hready Hprev _ _ ].
    + congruence.
    + congruence.
    + congruence.
    + exfalso. destruct (Nat.le_gt_cases n i) as [Hle|Hgt].
      * destruct Hcompiles as [|Hc]; [congruence|].
        rewrite (Hc stage source) in Hlog; [discriminate Hlog|].
        by eapply compiled_in_run_more.
      * destruct (Hready i Hgt) as (buffer & E & _). congruence.
    + exfalso. destruct (Nat.le_gt_cases n i) as [Hle|Hgt].
      * rewrite (Hlinks vs fs) in Hlog; [discriminate Hlog|].
        by eapply linked_in_run_more.
      * destruct (Hready i Hgt) as (buffer & E & _). congruence.
    + destruct (Nat.lt_trichotomy j i) as [Hlt|[->|Hgt]].
      * exfalso. destruct (Hfiles j Hlt) as (buffer & E & _). congruence.
      * destruct Hl as (l & El & _). exists s, (rev l).
        split; [reflexivity|]. split.
        -- unfold trace. rewrite El. cbn [rev]. by rewrite <- app_assoc.
        -- unfold drawn. by rewrite Hdrawn.
      * exfalso. destruct (Hready i Hgt) as (buffer & E & _). congruence.
    + exfalso. destruct (Nat.lt_trichotomy j i) as [Hlt|[->|Hgt]].
      * destruct (Hfiles j Hlt) as (buffer & E & Hne). congruence.
      * congruence.
      * destruct (Hready i Hgt) as (buffer & E & _). congruence.
    + exfalso. destruct (Nat.lt_ge_cases j i) as [Hlt|Hge].
      * destruct (Hluts j Hlt) as (p & lw & lh & E). congruence.
      * destruct (Hready i) as (buffer & E & _); [lia|]. congruence.
Qed.

Lemma missing_shader_file_exits_witness :
  (2 ≤ length sample_argv)%nat
  ∧ window_and_image missing_shader_world (image_path release_build sample_argv)
  ∧ file_contents missing_shader_world
      (arg sample_argv 1 +:+ default "" (shader_files release_build !! 1%nat))
    = None
  ∧ files_ready release_build missing_shader_world (arg sample_argv 1) 1
  ∧ luts_ready release_build missing_shader_world (arg sample_argv 1) 1
  ∧ ∃ s t,
      main release_build missing_shader_world sample_argv [sample_frame]
        initial_state = Stop (Exited EXIT_FAILURE) s
      ∧ trace s = t ++ [ Ev.ifstream_open "assets/glsl/hq3x.glsl";
                         Ev.print_stdout
                           ("Failed to open assets/glsl/hq3x.glsl" +:+ nl) ].
Proof.
  assert (Hlen : (2 ≤ length sample_argv)%nat) by (cbn; lia).
  assert (Hready : window_and_image missing_shader_world
                     (image_path release_build sample_argv)).
  { split; [reflexivity|]. split; [reflexivity|].
    exists [], 16, 16. reflexivity. }
  assert (Hfile : file_contents missing_shader_world
                    (arg sample_argv 1
                     +:+ default "" (shader_files release_build !! 1%nat))
                  = None) by reflexivity.
  assert (Hfiles : files_ready release_build missing_shader_world
                     (arg sample_argv 1) 1).
  { intros [|j] Hj; [|lia]. eexists. split; [reflexivity|discriminate]. }
  assert (Hluts : luts_ready release_build missing_shader_world
                    (arg sample_argv 1) 1).
  { intros [|j] Hj; [|lia]. exists [], 256, 64. reflexivity. }
  split; [exact Hlen|]. split; [exact Hready|]. split; [exact Hfile|].
  split; [exact Hfiles|]. split; [exact Hluts|].
  destruct (missing_shader_file_exits release_build missing_shader_world
              sample_argv [sample_frame] 1%nat Hlen Hready ltac:(lia) Hfile
              Hfiles Hluts (or_introl eq_refl))
    as (s & t & E & Ht & _).
  - intros vertex_shader fragment_shader _. reflexivity.
  - exists s, t. split; [exact E|exact Ht].
Defined.

(** X9: when the image cannot be decoded, the run is over before any OpenGL
    call: the calls are those that bring up GLFW and the window, the
    decoding, and the line "Error: " with the decoder's message on the
    error stream; the process then aborts in a build with assertions and
    exits with [EXIT_FAILURE] otherwise.  The window is not destroyed
    and GLFW is not terminated. *)
Theorem unreadable_image_stops_before_opengl cfg w argv frames code text :
  (2 ≤ length argv)%nat →
  glfwInit_error w = None →
  glfwCreateWindow_error w = None →
  decode_file w (image_path cfg argv) = DecodeError code text →
  ∃ s,
    main cfg w argv frames initial_state = Stop (crash cfg) s
    ∧ trace s
      = [ Ev.glfwSetErrorCallback;
          Ev.glfwInit;
          Ev.glfwWindowHint GLFW_CONTEXT_VERSION_MAJOR 2;
          Ev.glfwWindowHint GLFW_CONTEXT_VERSION_MINOR 0;
          Ev.glfwCreateWindow 640 480 "HQx Sample";
          Ev.glfwSetKeyCallback;
          Ev.glfwMakeContextCurrent;
          Ev.gladLoadGLLoader;
          Ev.glfwSwapInterval 1;
          Ev.lodepng_decode (image_path cfg argv);
          Ev.print_stderr ("Error: " +:+ text +:+ nl) ].
Proof.
  intros Hlen Hinit Hwin Hdec.
  rewrite main_eq, setup_startup by done.
  pose proof (startup_outcome cfg w (arg argv 1) (image_path cfg argv)) as Ho.
  destruct (startup _ _ _ _ _) as [L s1|st s].
  - destruct (ok_image _ _ _ _ _ _ Ho) as [px E]. congruence.
  - destruct Ho as (_ & _ & _ & Hfail).
    destruct Hfail as [ ? ? E _ _ | ? ? _ E _ _ | ? ? _ _ E -> El
                      | ? ? ? ? (_ & _ & ? & ? & ? & E) _ _ _ _ _ _ _ _
                      | ? ? ? ? (_ & _ & ? & ? & ? & E) _ _ _ _ _ _ _
                      | ? (_ & _ & ? & ? & ? & E) _ _ _ _ _ _
                      | ? (_ & _ & ? & ? & ? & E) _ _ _ _ _
                      | ? ? ? (_ & _ & ? & ? & ? & E) _ _ _ _ _ _ ];
      try congruence.
    exists s. split; [reflexivity|].
    rewrite Hdec in E. injection E as _ <-.
    unfold trace. rewrite El. reflexivity.
Qed.

Lemma unreadable_image_stops_before_opengl_witness :
  (2 ≤ length sample_argv)%nat
  ∧ decode_file missing_image_world (image_path debug_build sample_argv)
    = DecodeError 78 "failed to open file for reading"
  ∧ ∃ s,
      main debug_build missing_image_world sample_argv [sample_frame]
        initial_state = Stop Aborted s
      ∧ last (trace s)
        = Some (Ev.print_stderr
                  ("Error: failed to open file for reading" +:+ nl)).
Proof.
  assert (Hlen : (2 ≤ length sample_argv)%nat) by (cbn; lia).
  assert (Hdec : decode_file missing_image_world
                   (image_path debug_build sample_argv)
                 = DecodeError 78 "failed to open file for reading")
    by reflexivity.
  split; [exact Hlen|]. split; [exact Hdec|].
  destruct (unreadable_image_stops_before_opengl debug_build
              missing_image_world sample_argv [sample_frame] 78
              "failed to open file for reading" Hlen eq_refl eq_refl Hdec)
    as (s & E & Ht).
  exists s. split; [exact E|]. rewrite Ht. reflexivity.
Defined.

(** X10: when GLFW cannot be initialised, [main] makes three calls and no
    more: it installs the error callback, calls [glfwInit], and the
    callback prints "Error: " and GLFW's description on the error
    stream; no window is asked for.  The process aborts in a build with
    assertions and exits with [EXIT_FAILURE] otherwise. *)
Theorem glfw_init_failure_stops_at_once cfg w argv frames code description :
  (2 ≤ length argv)%nat →
  glfwInit_error w = Some (code, description) →
  ∃ s,
    main cfg w argv frames initial_state = Stop (crash cfg) s
    ∧ trace s = [ Ev.glfwSetErrorCallback;
                  Ev.glfwInit;
                  Ev.print_stderr ("Error: " +:+ description +:+ nl) ].
Proof.
  intros Hlen Hinit.
  rewrite main_eq, setup_startup by done.
  pose proof (startup_outcome cfg w (arg argv 1) (image_path cfg argv)) as Ho.
  destruct (startup _ _ _ _ _) as [L s1|st s].
  - pose proof (ok_init _ _ _ _ _ _ Ho). congruence.
  - destruct Ho as (_ & _ & _ & Hfail).
    destruct Hfail as [ ? ? E -> El | ? ? E _ _ _ | ? ? E _ _ _ _
                      | ? ? ? ? (E & _) _ _ _ _ _ _ _ _
                      | ? ? ? ? (E & _) _ _ _ _ _ _ _
                      | ? (E & _) _ _ _ _ _ _
                      | ? (E & _) _ _ _ _ _
                      | ? ? ? (E & _) _ _ _ _ _ _ ];
      try congruence.
    exists s. split; [reflexivity|].
    rewrite Hinit in E. injection E as _ <-.
    unfold trace. rewrite El. reflexivity.
Qed.

Lemma glfw_init_failure_stops_at_once_witness :
  (2 ≤ length sample_argv)%nat
  ∧ glfwInit_error no_glfw_world
    = Some (65544, "X11: The DISPLAY environment variable is missing")
  ∧ ∃ s,
      main release_build no_glfw_world sample_argv [sample_frame] initial_state
      = Stop (Exited EXIT_FAILURE) s
      ∧ length (trace s) = 3%nat.
Proof.
  assert (Hlen : (2 ≤ length sample_argv)%nat) by (cbn; lia).
  split; [exact Hlen|]. split; [reflexivity|].
  destruct (glfw_init_failure_stops_at_once release_build no_glfw_world
              sample_argv [sample_frame] 65544
              "X11: The DISPLAY environment variable is missing" Hlen eq_refl)
    as (s & E & Ht).
  exists s. split; [exact E|]. rewrite Ht. reflexivity.
Defined.

(** X11: when the window cannot be created, the error callback prints
    "Error: " and GLFW's description on the error stream.  In a build
    with assertions the process aborts there; otherwise [main] calls
    [glfwTerminate] and exits with [EXIT_FAILURE].  No callback is
    installed on a window and no OpenGL call is made. *)
Theorem window_failure_terminates_glfw cfg w argv frames code description :
  (2 ≤ length argv)%nat →
  glfwInit_error w = None →
  glfwCreateWindow_error w = Some (code, description) →
  ∃ s,
    main cfg w argv frames initial_state = Stop (crash cfg) s
    ∧ trace s
      = [ Ev.glfwSetErrorCallback;
          Ev.glfwInit;
          Ev.glfwWindowHint GLFW_CONTEXT_VERSION_MAJOR 2;
          Ev.glfwWindowHint GLFW_CONTEXT_VERSION_MINOR 0;
          Ev.glfwCreateWindow 640 480 "HQx Sample";
          Ev.print_stderr ("Error: " +:+ description +:+ nl) ]
        ++ (if NDEBUG cfg then [Ev.glfwTerminate] else []).
Proof.
  intros Hlen Hinit Hwin.
  rewrite main_eq, setup_startup by done.
  pose proof (startup_outcome cfg w (arg argv 1) (image_path cfg argv)) as Ho.
  destruct (startup _ _ _ _ _) as [L s1|st s].
  - pose proof (ok_window _ _ _ _ _ _ Ho). congruence.
  - destruct Ho as (_ & _ & _ & Hfail).
    destruct Hfail as [ ? ? E _ _ | ? ? _ E -> El | ? ? _ E _ _ _
                      | ? ? ? ? (_ & E & _) _ _ _ _ _ _ _ _
                      | ? ? ? ? (_ & E & _) _ _ _ _ _ _ _
                      | ? (_ & E & _) _ _ _ _ _ _
                      | ? (_ & E & _) _ _ _ _ _
                      | ? ? ? (_ & E & _) _ _ _ _ _ _ ];
      try congruence.
    exists s. split; [reflexivity|].
    rewrite Hwin in E. injection E as _ <-.
    unfold trace. rewrite El. destruct (NDEBUG cfg); reflexivity.
Qed.

Lemma window_failure_terminates_glfw_witness :
  (2 ≤ length sample_argv)%nat
  ∧ glfwInit_error no_window_world = None
  ∧ glfwCreateWindow_error no_window_world
    = Some (65543, "GLX: Failed to create context")
  ∧ ∃ s,
      main release_build no_window_world sample_argv [sample_frame]
        initial_state = Stop (Exited EXIT_FAILURE) s
      ∧ last (trace s) = Some Ev.glfwTerminate.
Proof.
  assert (Hlen : (2 ≤ length sample_argv)%nat) by (cbn; lia).
  split; [exact Hlen|]. split; [reflexivity|]. split; [reflexivity|].
  destruct (window_failure_terminates_glfw release_build no_window_world
              sample_argv [sample_frame] 65543
              "GLX: Failed to create context" Hlen eq_refl eq_refl)
    as (s & E & Ht).
  exists s. split; [exact E|]. rewrite Ht. reflexivity.
Defined.

(** *** [link_program] and [load_texture] *)

(** X12: when a link fails, [link_program] asks for the length of the log
    with [glGetShaderiv] on the name of the program, a call OpenGL
    rejects without writing the length, and goes on to allocate the log
    with that length: from there the behaviour is undefined, in every
    build and whatever was to follow.  Up to that point the calls are
    the five of the link and this query; nothing has been written to the
    error stream and no shader has been deleted.  When a link succeeds,
    [link_program] returns the name of the new program after deleting
    the two shaders, the vertex shader first. *)
Theorem failed_link_reads_unset_length cfg w vertex_shader fragment_shader s :
  (∀ info_log,
     link_log w vertex_shader fragment_shader = Some info_log →
     ∃ s',
       (∀ B (k : Z → M B),
          bind (link_program cfg w vertex_shader fragment_shader) k s
          = Stop Undefined s')
       ∧ trace s'
         = trace s ++ [ Ev.glCreateProgram (next_object s);
                        Ev.glAttachShader (next_object s) vertex_shader;
                        Ev.glAttachShader (next_object s) fragment_shader;
                        Ev.glLinkProgram (next_object s);
                        Ev.glGetProgramiv (next_object s) GL_LINK_STATUS;
                        Ev.glGetShaderiv (next_object s) GL_INFO_LOG_LENGTH ]
       ∧ stderr_lines (trace s') = stderr_lines (trace s)
       ∧ List.filter is_delete (trace s') = List.filter is_delete (trace s))
  ∧ (link_log w vertex_shader fragment_shader = None →
     ∃ s',
       link_program cfg w vertex_shader fragment_shader s
       = Ret (next_object s) s'
       ∧ next_object s' = next_object s + 1
       ∧ trace s'
         = trace s ++ [ Ev.glCreateProgram (next_object s);
                        Ev.glAttachShader (next_object s) vertex_shader;
                        Ev.glAttachShader (next_object s) fragment_shader;
                        Ev.glLinkProgram (next_object s);
                        Ev.glGetProgramiv (next_object s) GL_LINK_STATUS;
                        Ev.glDeleteShader vertex_shader;
                        Ev.glDeleteShader fragment_shader ]).
Proof.
  destruct (link_program_run cfg w vertex_shader fragment_shader s)
    as [[E Hlog] | (l & E & Hlog)].
  - split; [intros info_log Hfail; congruence|]. intros _.
    eexists. split; [exact E|]. split; [reflexivity|].
    unfold trace, add_log; cbn [log]. unfold cat_log, link_calls.
    rewrite !rev_app_distr. cbn [rev app]. rewrite <- !app_assoc.
    reflexivity.
  - split; [|intros Hnone; congruence]. intros info_log _.
    eexists. split; [|split; [|split]].
    + intros B k. unfold bind. rewrite E. reflexivity.
    + unfold trace, add_log; cbn [log].
      unfold cat_log, link_calls, link_diagnostic.
      rewrite !rev_app_distr. cbn [rev app]. rewrite <- !app_assoc.
      reflexivity.
    + unfold trace, add_log; cbn [log].
      unfold cat_log, link_calls, link_diagnostic.
      rewrite !rev_app_distr, !stderr_lines_app. cbn.
      rewrite ?app_nil_r. reflexivity.
    + rewrite !filter_trace. unfold add_log; cbn [log].
      unfold cat_log, link_calls, link_diagnostic.
      rewrite !List.filter_app. reflexivity.
Qed.

Lemma failed_link_reads_unset_length_witness :
  link_log broken_link_world 1 2
  = Some "error: linking with uncompiled shader"
  ∧ ∃ s',
      link_program release_build broken_link_world 1 2 initial_state
      = Stop Undefined s'
      ∧ last (trace s') = Some (Ev.glGetShaderiv 1 GL_INFO_LOG_LENGTH).
Proof.
  assert (H : link_log broken_link_world 1 2
              = Some "error: linking with uncompiled shader") by reflexivity.
  split; [exact H|].
  destruct (failed_link_reads_unset_length release_build broken_link_world
              1 2 initial_state) as [Hfail _].
  destruct (Hfail _ H) as (s' & Hstop & Ht & _).
  exists s'. split.
  - pose proof (Hstop Z (λ p, ret p)) as E. unfold bind in E.
    destruct (link_program release_build broken_link_world 1 2 initial_state)
      as [p s0|st s0]; [discriminate E|exact E].
  - rewrite Ht. reflexivity.
Defined.

(** X13: a texture is loaded through texture unit 9: when the file decodes,
    [load_texture] returns a new texture name, leaves unit 9 selected
    with the new texture bound to it, and leaves the texture bound to
    every other unit as it was.  The decoded size is written through the
    two pointers: to the globals when they point to them, nowhere when
    they are null; the selection is not touched. *)
Theorem load_texture_uses_unit_9 cfg w width height filename s pixels
    decoded_width decoded_height :
  decode_file w filename = Image pixels decoded_width decoded_height →
  ∃ s',
    load_texture cfg w width height filename s = Ret (next_texture s) s'
    ∧ next_texture s' = next_texture s + 1
    ∧ active_texture s' = GL_TEXTURE9
    ∧ bound_texture s' GL_TEXTURE9 = next_texture s
    ∧ (∀ texture_unit, texture_unit ≠ GL_TEXTURE9 →
         bound_texture s' texture_unit = bound_texture s texture_unit)
    ∧ image_scale s' = image_scale s
    ∧ (width = None → height = None →
       image_width s' = image_width s ∧ image_height s' = image_height s)
    ∧ (width = Some ref_image_width → height = Some ref_image_height →
       image_width s' = decoded_width ∧ image_height s' = decoded_height).
Proof.
  intros Hdec. unfold load_texture, glBindTexture. rewrite Hdec.
  change (GL_TEXTURE_2D =? GL_TEXTURE_2D) with true. cbv iota.
  destruct width as [[|]|], height as [[|]|]; run;
    (eexists; split; [reflexivity|]);
    unfold bound_texture; cbn [next_texture active_texture texture_binding
      image_scale image_width image_height];
    (split; [reflexivity|]); (split; [reflexivity|]);
    (split; [by rewrite lookup_insert_eq|]);
    (split; [intros u Hu; by rewrite lookup_insert_ne|]);
    (split; [reflexivity|]); split; intros; try discriminate; done.
Qed.

Lemma load_texture_uses_unit_9_witness :
  decode_file sample_world "assets/resources/hq2x.png" = Image [] 256 64
  ∧ ∃ s',
      load_texture debug_build sample_world None None
        "assets/resources/hq2x.png" sample_started = Ret 5 s'
      ∧ bound_texture s' GL_TEXTURE0 = 1
      ∧ image_width s' = 16.
Proof.
  assert (Hdec : decode_file sample_world "assets/resources/hq2x.png"
                 = Image [] 256 64) by reflexivity.
  split; [exact Hdec|].
  destruct (load_texture_uses_unit_9 debug_build sample_world None None
              "assets/resources/hq2x.png" sample_started [] 256 64 Hdec)
    as (s' & E & _ & _ & _ & Hother & _ & Hnull & _).
  exists s'. split; [exact E|].
  split.
  - rewrite Hother by (unfold GL_TEXTURE0, GL_TEXTURE9; lia).
    vm_compute. reflexivity.
  - destruct (Hnull eq_refl eq_refl) as [Hw _]. rewrite Hw.
    vm_compute. reflexivity.
Defined.

(** *** The objects of a run *)

Lemma loop_call_not_alloc c : loop_call c = true → is_alloc c = false.
Proof. by destruct c. Qed.

Lemma loop_call_not_delete c : loop_call c = true → is_delete c = false.
Proof. by destruct c. Qed.

Lemma filter_added (P : Call → bool) width height k :
  (∀ c, loop_call c = true → P c = false) →
  Forall (loop_added width height) k → List.filter P k = [].
Proof.
  intros HP Hk. induction Hk as [|c k [Hc _] _ IH]; [done|].
  cbn [List.filter]. by rewrite (HP c Hc).
Qed.

(** X14: every OpenGL object of a run is created during the startup: the
    texture of the image, the vertex buffer, and for the pass-through and
    the three filters two shaders and a program each, and a lookup
    texture for each filter, with the names 1, 2, ... in the order of
    creation.  The eight shaders are deleted as soon as their program is
    linked.  The render loop creates and deletes nothing, however long
    it runs. *)
Theorem objects_are_created_at_startup_only cfg w argv L s1 frames :
  setup cfg w argv initial_state = Ret L s1 →
  List.filter is_alloc (trace (final (main cfg w argv frames initial_state)))
  = startup_allocs
  ∧ List.filter is_delete
      (trace (final (main cfg w argv frames initial_state)))
    = startup_deletes.
Proof.
  intros Hsetup.
  destruct (setup_completed _ _ _ _ _ Hsetup) as (Hlen & Ho & Hcensus).
  destruct (main_completed cfg w argv L s1 frames Hsetup)
    as (s2 & k & Hl & Hk & _ & _ & Hmain).
  assert (Ha : List.filter is_alloc (log s2) = rev startup_allocs).
  { rewrite Hl, List.filter_app,
      (filter_added is_alloc _ _ k loop_call_not_alloc Hk).
    apply (census_allocs _ _ Hcensus). }
  assert (Hd : List.filter is_delete (log s2) = rev startup_deletes).
  { rewrite Hl, List.filter_app,
      (filter_added is_delete _ _ k loop_call_not_delete Hk).
    apply (census_deletes _ _ Hcensus). }
  rewrite !filter_trace.
  destruct Hmain as [E|E]; rewrite E; cbn [final log emit List.filter is_alloc
    is_delete]; rewrite Ha, Hd, !rev_involutive; done.
Qed.

Lemma objects_are_created_at_startup_only_witness :
  setup debug_build sample_world sample_argv initial_state
  = Ret sample_locals sample_started
  ∧ length (List.filter is_alloc
              (trace (final (main debug_build sample_world sample_argv
                               [sample_frame; idle_frame] initial_state))))
    = 17%nat.
Proof.
  assert (Esetup : setup debug_build sample_world sample_argv initial_state
                   = Ret sample_locals sample_started)
    by (vm_compute; reflexivity).
  split; [exact Esetup|].
  destruct (objects_are_created_at_startup_only debug_build sample_world
              sample_argv sample_locals sample_started
              [sample_frame; idle_frame] Esetup) as [Ha _].
  rewrite Ha. reflexivity.
Defined.

Lemma loop_call_not_vertex_setup c :
  loop_call c = true → is_vertex_setup c = false.
Proof. by destruct c. Qed.

(** X15: the vertex data is set up once, during the startup: one buffer is
    created, bound and filled with the four vertices of the quad, and
    the two vertex attributes are enabled and described once, with the
    locations that "VertexCoord" and "TexCoord" have in the pass-through
    program, a stride of one vertex and the offsets 0 and four floats.
    The attribute locations of the three filter programs are never asked
    for, and the render loop repeats none of this. *)
Theorem vertex_setup_is_done_once cfg w argv L s1 frames :
  setup cfg w argv initial_state = Ret L s1 →
  programs L !! 1%nat = Some 3
  ∧ vertex_buffer L = 1
  ∧ List.filter is_vertex_setup
      (trace (final (main cfg w argv frames initial_state)))
    = startup_vertex_setup.
Proof.
  intros Hsetup.
  destruct (setup_completed _ _ _ _ _ Hsetup) as (Hlen & Ho & Hcensus).
  destruct (main_completed cfg w argv L s1 frames Hsetup)
    as (s2 & k & Hl & Hk & _ & _ & Hmain).
  split; [by rewrite (ok_programs _ _ _ _ _ _ Ho)|].
  split; [apply (census_vertex_buffer _ _ Hcensus)|].
  assert (Hv : List.filter is_vertex_setup (log s2)
               = rev startup_vertex_setup).
  { rewrite Hl, List.filter_app,
      (filter_added is_vertex_setup _ _ k loop_call_not_vertex_setup Hk).
    apply (census_vertex_setup _ _ Hcensus). }
  rewrite filter_trace.
  destruct Hmain as [E|E]; rewrite E; cbn [final log emit List.filter
    is_vertex_setup]; rewrite Hv, rev_involutive; done.
Qed.

Lemma vertex_setup_is_done_once_witness :
  setup debug_build sample_world sample_argv initial_state
  = Ret sample_locals sample_started
  ∧ length (List.filter is_vertex_setup
              (trace (final (main debug_build sample_world sample_argv
                               [sample_frame; idle_frame] initial_state))))
    = 9%nat.
Proof.
  assert (Esetup : setup debug_build sample_world sample_argv initial_state
                   = Ret sample_locals sample_started)
    by (vm_compute; reflexivity).
  split; [exact Esetup|].
  destruct (vertex_setup_is_done_once debug_build sample_world sample_argv
              sample_locals sample_started [sample_frame; idle_frame] Esetup)
    as (_ & _ & Hv).
  rewrite Hv. reflexivity.
Defined.

(** X16: the sampler of the pass-through program is written at a moment when
    no program is in use: [main] calls [glUniform1i] on its location
    right after the link, without a [glUseProgram] before.  Over the
    whole run no uniform is written while the pass-through program is in
    use. *)
Theorem passthrough_sampler_set_without_program cfg w argv L s1 frames :
  setup cfg w argv initial_state = Ret L s1 →
  programs L !! 1%nat = Some 3
  ∧ In (Ev.glUniform1i 0 {| loc_program := 3; loc_name := "Texture" |} 0)
       (trace (final (main cfg w argv frames initial_state)))
  ∧ List.filter (uniform_write_in 3)
      (trace (final (main cfg w argv frames initial_state))) = [].
Proof.
  intros Hsetup.
  destruct (setup_completed _ _ _ _ _ Hsetup) as (Hlen & Ho & Hcensus).
  destruct (main_completed cfg w argv L s1 frames Hsetup)
    as (s2 & k & Hl & Hk & _ & _ & Hmain).
  split; [by rewrite (ok_programs _ _ _ _ _ _ Ho)|].
  assert (Hin : In (Ev.glUniform1i 0
                      {| loc_program := 3; loc_name := "Texture" |} 0)
                   (log s2)).
  { rewrite Hl. apply in_or_app. right. apply (census_sampler _ _ Hcensus). }
  assert (Hu : List.filter (uniform_write_in 3) (log s2) = []).
  { rewrite Hl, List.filter_app, (census_passthrough _ _ Hcensus), app_nil_r.
    eapply filter_added; [|exact Hk]. by intros []. }
  rewrite filter_trace.
  destruct Hmain as [E|E]; rewrite E; cbn [final].
  - split; [by apply In_trace|]. by rewrite Hu.
  - split; [apply In_trace; cbn [log emit]; by do 2 right|].
    cbn [log emit List.filter uniform_write_in]. by rewrite Hu.
Qed.

Lemma passthrough_sampler_set_without_program_witness :
  setup debug_build sample_world sample_argv initial_state
  = Ret sample_locals sample_started
  ∧ programs sample_locals !! 1%nat = Some 3.
Proof.
  assert (Esetup : setup debug_build sample_world sample_argv initial_state
                   = Ret sample_locals sample_started)
    by (vm_compute; reflexivity).
  split; [exact Esetup|].
  destruct (passthrough_sampler_set_without_program debug_build sample_world
              sample_argv sample_locals sample_started [sample_frame]
              Esetup) as [H _].
  exact H.
Defined.

(** X17: the size of the image is that of the decoded image from the startup
    to the end of the run: the three loads of the lookup images, made
    with null pointers, do not overwrite it, and no input changes it. *)
Theorem image_size_is_fixed_after_load cfg w argv L s1 frames :
  setup cfg w argv initial_state = Ret L s1 →
  ∃ pixels width height,
    decode_file w (image_path cfg argv) = Image pixels width height
    ∧ image_width s1 = width ∧ image_height s1 = height
    ∧ image_width (final (main cfg w argv frames initial_state)) = width
    ∧ image_height (final (main cfg w argv frames initial_state)) = height.
Proof.
  intros Hsetup.
  destruct (setup_completed _ _ _ _ _ Hsetup) as (Hlen & Ho & Hcensus).
  destruct (ok_image _ _ _ _ _ _ Ho) as [px Himg].
  destruct (main_completed cfg w argv L s1 frames Hsetup)
    as (s2 & k & _ & _ & Hw & Hh & Hmain).
  exists px, (image_width s1), (image_height s1).
  split; [exact Himg|]. split; [done|]. split; [done|].
  destruct Hmain as [E|E]; rewrite E; cbn [final image_width image_height emit];
    done.
Qed.

Lemma image_size_is_fixed_after_load_witness :
  setup debug_build sample_world sample_argv initial_state
  = Ret sample_locals sample_started
  ∧ image_width (final (main debug_build sample_world sample_argv
                          [sample_frame; escape_frame] initial_state)) = 16.
Proof.
  assert (Esetup : setup debug_build sample_world sample_argv initial_state
                   = Ret sample_locals sample_started)
    by (vm_compute; reflexivity).
  split; [exact Esetup|].
  destruct (image_size_is_fixed_after_load debug_build sample_world
              sample_argv sample_locals sample_started
              [sample_frame; escape_frame] Esetup)
    as (px & width & height & Hdec & _ & _ & Hw & _).
  rewrite Hw. assert (E : decode_file sample_world
                            (image_path debug_build sample_argv)
                          = Image [] 16 16) by reflexivity.
  rewrite E in Hdec. by injection Hdec as _ <- _.
Defined.

(** *** The command line *)

(** X18: with at least two arguments the run depends on [argv[1]], the folder,
    and on [argv[2]], the image, alone: the name of the program and any
    argument after the second are never looked at. *)
Theorem only_two_arguments_are_used cfg w name name' folder image rest rest'
    frames s :
  main cfg w (name :: folder :: image :: rest) frames s
  = main cfg w (name' :: folder :: image :: rest') frames s
  ∧ main cfg w [name; folder] frames s = main cfg w [name'; folder] frames s.
Proof.
  split; [|reflexivity].
  unfold main, setup, image_path, arg. cbv zeta.
  assert (H : ∀ (l : list string), (Z.of_nat (length l) + 3 <? 2) = false
                ∧ (2 <? Z.of_nat (length l) + 3) = true).
  { intros l. split; [apply Z.ltb_ge|apply Z.ltb_lt]; lia. }
  replace (Z.of_nat (length (name :: folder :: image :: rest)))
    with (Z.of_nat (length rest) + 3) by (cbn [length]; lia).
  replace (Z.of_nat (length (name' :: folder :: image :: rest')))
    with (Z.of_nat (length rest') + 3) by (cbn [length]; lia).
  destruct (H rest) as [-> ->]. destruct (H rest') as [-> ->].
  reflexivity.
Qed.

(** *** Keys and draws *)

(** X19: a digit pressed during one frame selects the slot of the next draw:
    when the startup has completed and no input has closed the window,
    the draw of the frame that follows [frames] uses the program and the
    lookup texture of the slot of the last key 1 to 4 pressed during
    [frames], and those of slot 2 if there was none. *)
Theorem draw_follows_last_digit cfg w argv L s1 frames fi :
  setup cfg w argv initial_state = Ret L s1 →
  forallb (λ fi, negb (closes fi)) frames = true →
  ∃ p l d,
    programs L !! Z.to_nat (selection_after 2 frames) = Some p
    ∧ lut_textures L !! Z.to_nat (selection_after 2 frames) = Some l
    ∧ last (drawn (final (main cfg w argv (frames ++ [fi]) initial_state)))
      = Some d
    ∧ draw_program d = p
    ∧ draw_unit1 d = l.
Proof.
  intros Hsetup Hopen.
  destruct (setup_completed _ _ _ _ _ Hsetup) as (Hlen & Ho & Hcensus).
  destruct (startup_ok_loop _ _ _ _ _ _ Ho) as (HP & HT & Hinv).
  destruct (render_loop_open L frames s1 HP HT Hinv
              (ok_open _ _ _ _ _ _ Ho) Hopen)
    as (s2 & k & E & _ & _ & Hinv2 & Hs2 & _).
  rewrite (ok_scale _ _ _ _ _ _ Ho) in Hs2.
  destruct (frame_run L fi s2 HP HT Hinv2)
    as (s3 & k3 & p & l & Hp & Hl & E3 & _ & _ & _ & _ & _ & _ & _
        & d & Hd3 & Hdp & Hdl).
  rewrite Hs2 in Hp, Hl.
  exists p, l, d. split; [exact Hp|]. split; [exact Hl|].
  split; [|split; [exact Hdp|exact Hdl]].
  assert (Eloop : render_loop L (frames ++ [fi]) s1
                  = Ret (should_close s3) (emit Ev.glfwWindowShouldClose s3)).
  { rewrite (render_loop_more _ _ _ _ _ _ E).
    rewrite <- (bind_assoc (draw_frame L fi) (λ _, glfwPollEvents fi)
                  (λ _, render_loop L []) s2).
    unfold bind at 1. rewrite E3.
    destruct (should_close s3) eqn:Hc;
      [by apply render_loop_closed|by apply render_loop_nil]. }
  rewrite main_eq, Hsetup, Eloop.
  destruct (should_close s3); unfold final, drawn; cbn [drawn_rev emit];
    rewrite Hd3; cbn [rev]; apply last_snoc.
Qed.

Lemma draw_follows_last_digit_witness :
  setup debug_build sample_world sample_argv initial_state
  = Ret sample_locals sample_started
  ∧ forallb (λ fi, negb (closes fi)) [sample_frame] = true
  ∧ ∃ d,
      last (drawn (final (main debug_build sample_world sample_argv
                            ([sample_frame] ++ [idle_frame]) initial_state)))
      = Some d
      ∧ draw_program d = 9
      ∧ draw_unit1 d = 3.
Proof.
  assert (Esetup : setup debug_build sample_world sample_argv initial_state
                   = Ret sample_locals sample_started)
    by (vm_compute; reflexivity).
  assert (H : forallb (λ fi, negb (closes fi)) [sample_frame] = true)
    by reflexivity.
  split; [exact Esetup|]. split; [exact H|].
  destruct (draw_follows_last_digit debug_build sample_world sample_argv
              sample_locals sample_started [sample_frame] idle_frame
              Esetup H)
    as (p & l & d & Hp & Hl & Hd & Hdp & Hdl).
  exists d. split; [exact Hd|].
  assert (Hp' : programs sample_locals
                !! Z.to_nat (selection_after 2 [sample_frame]) = Some 9)
    by reflexivity.
  assert (Hl' : lut_textures sample_locals
                !! Z.to_nat (selection_after 2 [sample_frame]) = Some 3)
    by reflexivity.
  rewrite Hp' in Hp. rewrite Hl' in Hl.
  injection Hp as <-. injection Hl as <-. split; [exact Hdp|exact Hdl].
Defined.
